(** * nextjs-dashboard: the server actions of [app/lib/actions.ts]

    A shallow embedding of the invoice and customer server actions
    ([createInvoice], [updateInvoice], [deleteInvoice], [createCustomer],
    [updateCustomer], [deleteCustomer]) and of [authenticate], together with
    the parts of the JavaScript runtime and of the zod schema library that
    the actions rely on.

    - [JS]: strings, the [Number] coercion, IEEE-754 binary64 arithmetic,
      [Date.prototype.toISOString] and [String.prototype.split].
    - [Zod]: issues, the error maps of [z.string], [z.coerce.number],
      [z.enum], object parsing and [ZodError.flatten].
    - the storage, cache and navigation collaborators and the action monad.
    - the actions, transcribed statement by statement. *)

From Stdlib Require Import ZArith List String Ascii Bool Lia SpecFloat.
From stdpp Require Import base option gmap strings.

Local Open Scope string_scope.

(* ===================================================================== *)
(** ** JavaScript runtime *)
(* ===================================================================== *)

Module JS.

Local Open Scope Z_scope.

(** *** Numbers: IEEE-754 binary64, as [spec_float] with 53-bit mantissas. *)

Definition prec : Z := 53.
Definition emax : Z := 1024.

Definition number := spec_float.

Definition NaN : number := S754_nan.
Definition mul (x y : number) : number := SFmul prec emax x y.
Definition div (x y : number) : number := SFdiv prec emax x y.

(** The number nearest to an integer (ties to even). *)
Definition of_Z (z : Z) : number := binary_normalize prec emax z 0 false.

(** [x <= y] of JavaScript: false as soon as one side is NaN. *)
Definition le (x y : number) : bool := SFleb x y.
Definition lt (x y : number) : bool := SFltb x y.

Definition isNaN (x : number) : bool :=
  match x with S754_nan => true | _ => false end.

(** [Number.isInteger]. *)
Definition isInteger (x : number) : bool :=
  match x with
  | S754_zero _ => true
  | S754_finite _ m e =>
      if (0 <=? e)%Z then true else (Z.pos m mod 2 ^ (- e) =? 0)%Z
  | _ => false
  end.

(** *** Strings: sequences of code units below 256. *)

Definition codeUnit (c : ascii) : Z := Z.of_N (N_of_ascii c).

Definition between (lo hi : Z) (c : ascii) : bool :=
  ((lo <=? codeUnit c) && (codeUnit c <=? hi))%Z.

Definition isDecimalDigit (c : ascii) : bool := between 48 57 c.

(** [StrWhiteSpaceChar]: TAB, LF, VT, FF, CR, SP and NBSP. *)
Definition isStrWhiteSpaceChar (c : ascii) : bool :=
  between 9 13 c || (codeUnit c =? 32)%Z || (codeUnit c =? 160)%Z.

(** Value of a digit in a radix up to 16; [None] when it is not one. *)
Definition digitValue (radix : Z) (c : ascii) : option Z :=
  let v :=
    if between 48 57 c then codeUnit c - 48
    else if between 97 102 c then codeUnit c - 87
    else if between 65 70 c then codeUnit c - 55
    else 16 in
  if (v <? radix)%Z then Some v%Z else None.

Fixpoint trimStart (s : string) : string :=
  match s with
  | String c r => if isStrWhiteSpaceChar c then trimStart r else s
  | EmptyString => EmptyString
  end.

Fixpoint trimEnd (s : string) : string :=
  match s with
  | String c r =>
      match trimEnd r with
      | EmptyString => if isStrWhiteSpaceChar c then EmptyString else String c EmptyString
      | r' => String c r'
      end
  | EmptyString => EmptyString
  end.

Definition trim (s : string) : string := trimEnd (trimStart s).

(** The longest prefix of digits of the radix, and what follows it. *)
Fixpoint spanDigits (radix : Z) (s : string) : string * string :=
  match s with
  | String c r =>
      match digitValue radix c with
      | Some _ => let '(ds, rest) := spanDigits radix r in (String c ds, rest)
      | None => (EmptyString, s)
      end
  | EmptyString => (EmptyString, EmptyString)
  end.

(** The mathematical value of a digit string, most significant first. *)
Fixpoint digitsValue (radix : Z) (acc : Z) (s : string) : Z :=
  match s with
  | String c r =>
      digitsValue radix (acc * radix + default 0 (digitValue radix c))%Z r
  | EmptyString => acc
  end.

(** [ExponentPart], or nothing: the decimal exponent it denotes. *)
Definition parseExponentPart (s : string) : option Z :=
  match s with
  | EmptyString => Some 0%Z
  | String c r =>
      if (codeUnit c =? 101)%Z || (codeUnit c =? 69)%Z then
        let '(neg, r') :=
          match r with
          | String "+" t => (false, t)
          | String "-" t => (true, t)
          | _ => (false, r)
          end in
        let '(ds, rest) := spanDigits 10 r' in
        match ds, rest with
        | String _ _, EmptyString =>
            let e := digitsValue 10 0 ds in Some (if neg then - e else e)%Z
        | _, _ => None
        end
      else None
  end.

(** [StrUnsignedDecimalLiteral] other than [Infinity]: the pair [(m, e)]
    such that the literal denotes [m * 10 ^ e]. *)
Definition parseUnsignedDecimal (s : string) : option (Z * Z) :=
  let '(ip, r1) := spanDigits 10 s in
  let '(fp, r2) :=
    match r1 with
    | String "." t => spanDigits 10 t
    | _ => (EmptyString, r1)
    end in
  match ip, fp with
  | EmptyString, EmptyString => None
  | _, _ =>
      match parseExponentPart r2 with
      | Some e =>
          Some (digitsValue 10 (digitsValue 10 0 ip) fp,
                e - Z.of_nat (String.length fp))%Z
      | None => None
      end
  end.

(** The binary64 number nearest to [(-1)^neg * m * 10 ^ e], [0 <= m]. *)
Definition roundDecimal (neg : bool) (m e : Z) : number :=
  match m with
  | Z.pos p =>
      if (0 <=? e)%Z then binary_round prec emax neg (p * Z.to_pos (10 ^ e)) 0
      else div (S754_finite neg p 0) (S754_finite false (Z.to_pos (10 ^ (- e))) 0)
  | _ => S754_zero neg
  end.

(** [NonDecimalIntegerLiteral]: [0x], [0o] and [0b] literals. *)
Definition parseNonDecimal (s : string) : option Z :=
  match s with
  | String "0" (String p ds) =>
      let radix :=
        if (codeUnit p =? 120)%Z || (codeUnit p =? 88)%Z then 16
        else if (codeUnit p =? 111)%Z || (codeUnit p =? 79)%Z then 8
        else if (codeUnit p =? 98)%Z || (codeUnit p =? 66)%Z then 2
        else 0%Z in
      match spanDigits radix ds with
      | (String _ _ as ds', EmptyString) => Some (digitsValue radix 0 ds')
      | _ => None
      end
  | _ => None
  end.

(** [StringToNumber]: the [Number(...)] coercion of a string. *)
Definition StringToNumber (str : string) : number :=
  let s := trim str in
  match s with
  | EmptyString => S754_zero false
  | String c r =>
      match parseNonDecimal s with
      | Some n => of_Z n
      | None =>
          let '(neg, u) :=
            if (codeUnit c =? 43)%Z then (false, r)
            else if (codeUnit c =? 45)%Z then (true, r)
            else (false, s) in
          if String.eqb u "Infinity" then S754_infinity neg
          else match parseUnsignedDecimal u with
               | Some (m, e) => roundDecimal neg m e
               | None => NaN
               end
      end
  end.

(** *** Values handed between the form, the schemas and the driver. *)

Inductive Value :=
| undefined
| null
| Str (s : string)
| Num (x : number)
| File (name : string).

Definition isUndefined (v : Value) : bool :=
  match v with undefined => true | _ => false end.

(** [ToNumber], which [Number(v)] and the operands of [*] go through.  A
    [File] object has no numeric primitive: its string form is
    ["[object File]"]. *)
Definition ToNumber (v : Value) : number :=
  match v with
  | undefined => NaN
  | null => S754_zero false
  | Str s => StringToNumber s
  | Num x => x
  | File _ => StringToNumber "[object File]"
  end.

(** [a * b]. *)
Definition times (a b : Value) : Value := Num (mul (ToNumber a) (ToNumber b)).

(** Object literals: own properties by name; a missing one reads
    [undefined]. *)
Definition getProp (o : gmap string Value) (k : string) : Value :=
  default undefined (o !! k).

(** Every code unit of the string satisfies the test. *)
Fixpoint allChars (P : ascii -> bool) (s : string) : bool :=
  match s with
  | EmptyString => true
  | String c r => P c && allChars P r
  end.

Definition notT (c : ascii) : bool := negb (Ascii.eqb "T" c).

(** *** [String.prototype.split] with a string separator and no limit. *)

Fixpoint startsWith (sep s : string) : bool :=
  match sep, s with
  | EmptyString, _ => true
  | String a sep', String b s' => Ascii.eqb a b && startsWith sep' s'
  | String _ _, EmptyString => false
  end.

(** [splitFrom sep skip s]: the piece that ends at the next separator (or at
    the end) and the pieces after it; [skip] code units of a separator that
    was just matched are still to be passed over. *)
Fixpoint splitFrom (sep : string) (skip : nat) (s : string) : string * list string :=
  match s with
  | EmptyString => (EmptyString, [])
  | String c r =>
      match skip with
      | S k => splitFrom sep k r
      | O =>
          if startsWith sep s then
            let '(p, ps) := splitFrom sep (Nat.pred (String.length sep)) r in
            (EmptyString, p :: ps)
          else
            let '(p, ps) := splitFrom sep O r in (String c p, ps)
      end
  end.

Definition split (sep s : string) : list string :=
  match sep with
  | EmptyString => (fun c => String c EmptyString) <$> list_ascii_of_string s
  | _ => let '(p, ps) := splitFrom sep O s in p :: ps
  end.

(** [a[i]] on an array of strings: [undefined] out of range. *)
Definition index (a : list string) (i : nat) : Value :=
  match a !! i with Some s => Str s | None => undefined end.

(** [s.replace(pattern, replacement)] with a string pattern: the first
    occurrence only.  The replacement is taken literally (it has no [$]). *)
Fixpoint dropChars (n : nat) (s : string) : string :=
  match n, s with
  | S k, String _ r => dropChars k r
  | _, _ => s
  end.

Fixpoint replace (pattern replacement s : string) : string :=
  if startsWith pattern s then replacement +:+ dropChars (String.length pattern) s
  else match s with
       | EmptyString => EmptyString
       | String c r => String c (replace pattern replacement r)
       end.

(** *** [Date]: the UTC reading of the clock. *)

(** What [new Date()] holds, as the UTC fields its getters return:
    [getUTCFullYear], [getUTCMonth] (0 to 11), [getUTCDate], ... *)
Record Date := {
  UTCFullYear : Z;
  UTCMonth : Z;
  UTCDate : Z;
  UTCHours : Z;
  UTCMinutes : Z;
  UTCSeconds : Z;
  UTCMilliseconds : Z
}.

Definition digitChar (d : Z) : ascii := ascii_of_N (Z.to_N (48 + d)).

(** The [width] low decimal digits of [n], most significant first: [n]
    padded with zeros when [0 <= n < 10 ^ width]. *)
Fixpoint padDigits (width : nat) (n : Z) : string :=
  match width with
  | O => EmptyString
  | S w => padDigits w (n / 10) +:+ String (digitChar (n mod 10)) EmptyString
  end.

(** The year of an ISO string: four digits from 0 to 9999, otherwise a sign
    and six digits. *)
Definition isoYear (y : Z) : string :=
  if (0 <=? y) && (y <=? 9999) then padDigits 4 y
  else (if y <? 0 then "-" else "+") +:+ padDigits 6 (Z.abs y).

Definition isoDate (d : Date) : string :=
  isoYear (UTCFullYear d) +:+ "-" +:+ padDigits 2 (UTCMonth d + 1)
    +:+ "-" +:+ padDigits 2 (UTCDate d).

Definition isoTime (d : Date) : string :=
  padDigits 2 (UTCHours d) +:+ ":" +:+ padDigits 2 (UTCMinutes d)
    +:+ ":" +:+ padDigits 2 (UTCSeconds d)
    +:+ "." +:+ padDigits 3 (UTCMilliseconds d).

(** [Date.prototype.toISOString]: [YYYY-MM-DDTHH:mm:ss.sssZ]. *)
Definition toISOString (d : Date) : string :=
  isoDate d +:+ "T" +:+ isoTime d +:+ "Z".

(** [s] reads [YYYY-MM-DD] and denotes that year, month (1 to 12) and day. *)
Definition isYMD (s : string) (year month day : Z) : Prop :=
  exists yyyy mm dd : string,
    s = yyyy +:+ "-" +:+ mm +:+ "-" +:+ dd
    /\ String.length yyyy = 4%nat /\ String.length mm = 2%nat
    /\ String.length dd = 2%nat
    /\ allChars isDecimalDigit (yyyy +:+ mm +:+ dd) = true
    /\ digitsValue 10 0 yyyy = year /\ digitsValue 10 0 mm = month
    /\ digitsValue 10 0 dd = day.

(** *** [FormData] *)

(** A value of an entry is a string or a [File]. *)
Inductive FormDataEntryValue :=
| EntryString (s : string)
| EntryFile (name : string).

Definition entryValue (e : FormDataEntryValue) : Value :=
  match e with
  | EntryString s => Str s
  | EntryFile n => File n
  end.

(** Entries in submission order. *)
Definition FormData := list (string * FormDataEntryValue).

(** [formData.get(name)]: the first value of that name, [null] if none. *)
Fixpoint get (formData : FormData) (name : string) : Value :=
  match formData with
  | (k, v) :: rest => if String.eqb k name then entryValue v else get rest name
  | [] => null
  end.

(** *** Errors that can be thrown *)

Inductive Error :=
| AuthError (type : string)            (* next-auth's [AuthError] and subclasses *)
| RedirectError (url : string)         (* what [redirect] throws: NEXT_REDIRECT *)
| OtherError (message : string).       (* any other thrown value *)

End JS.

(* ===================================================================== *)
(** ** The zod schema library (version 3) *)
(* ===================================================================== *)

(** The source passes [message] to [z.string] next to [invalid_type_error]
    on other fields, which is the constructor interface of zod 3.23 and
    later 3.x releases; the definitions follow that code: schemas are their
    definitions, [_parse] interprets them, issues accumulate in the order
    the keys are visited. *)

Module Zod.

Import JS.

Inductive ZodParsedType :=
| ty_string | ty_nan | ty_number | ty_undefined | ty_null | ty_object.

Definition getParsedType (data : Value) : ZodParsedType :=
  match data with
  | undefined => ty_undefined
  | null => ty_null
  | Str _ => ty_string
  | Num x => if isNaN x then ty_nan else ty_number
  | File _ => ty_object
  end.

Inductive ZodIssueCode :=
| invalid_type | invalid_enum_value | too_small | invalid_string.

(** What a schema reports, before the path and the message are filled in. *)
Inductive IssueData :=
| InvalidType (expected : string) (received : ZodParsedType)
| InvalidEnumValue (received : Value) (options : list string)
| TooSmall (minimum : number) (inclusive : bool)
| InvalidString (validation : string).

Definition code (iss : IssueData) : ZodIssueCode :=
  match iss with
  | InvalidType _ _ => invalid_type
  | InvalidEnumValue _ _ => invalid_enum_value
  | TooSmall _ _ => too_small
  | InvalidString _ => invalid_string
  end.

Record ZodIssue := {
  issue : IssueData;
  path : list string;
  message : string
}.

(** An error map sees the issue, the data under validation and the message
    of the map below it ([ctx.defaultError]). *)
Definition ZodErrorMap := IssueData -> Value -> string -> string.

(** [a ?? b] *)
Definition nullish {A} (a : option A) (b : option A) : option A :=
  match a with Some _ => a | None => b end.

(** The options a schema constructor accepts. *)
Record RawCreateParams := {
  p_message : option string;
  invalid_type_error : option string;
  required_error : option string
}.

(** The error map [processCreateParams] builds from the options. *)
Definition customMap (params : RawCreateParams) : ZodErrorMap :=
  fun iss data defaultError =>
    match code iss, data with
    | invalid_enum_value, _ => default defaultError (p_message params)
    | _, undefined =>
        default defaultError (nullish (p_message params) (required_error params))
    | invalid_type, _ =>
        default defaultError (nullish (p_message params) (invalid_type_error params))
    | _, _ => defaultError
    end.

Definition processCreateParams (params : option RawCreateParams) : option ZodErrorMap :=
  customMap <$> params.

(** [makeIssue]: a message given with the issue itself wins; otherwise the
    maps run from the most general to the most specific, each seeing the
    message of the previous one. *)
Definition makeIssue (data : Value) (path : list string)
    (errorMaps : list ZodErrorMap) (issueData : IssueData)
    (message : option string) : ZodIssue :=
  let errorMessage :=
    foldl (fun msg (map : ZodErrorMap) => map issueData data msg) ""
          (reverse errorMaps) in
  {| issue := issueData;
     path := path;
     message := default errorMessage message |}.

Inductive StringCheck := check_email (message : option string).
Inductive NumberCheck := check_min (value : number) (inclusive : bool) (message : option string).

(** Schemas, as their definitions ([_def]). *)
Inductive ZodType :=
| ZodString (checks : list StringCheck) (params : option RawCreateParams)
| ZodNumber (checks : list NumberCheck) (coerce : bool) (params : option RawCreateParams)
| ZodEnum (values : list string) (params : option RawCreateParams).

(** The shape of an object schema, keys in declaration order. *)
Definition ZodObject := list (string * ZodType).

(** Constructors and methods, as the source spells them. *)
Definition string_ (params : option RawCreateParams) : ZodType := ZodString [] params.
Definition coerce_number : ZodType := ZodNumber [] true None.
Definition enum_ (values : list string) (params : option RawCreateParams) : ZodType :=
  ZodEnum values params.
Definition object_ (shape : list (string * ZodType)) : ZodObject := shape.

Definition email (message : option string) (t : ZodType) : ZodType :=
  match t with
  | ZodString checks params => ZodString (checks ++ [check_email message]) params
  | _ => t
  end.

Definition gt (value : number) (message : option string) (t : ZodType) : ZodType :=
  match t with
  | ZodNumber checks coerce params =>
      ZodNumber (checks ++ [check_min value false message]) coerce params
  | _ => t
  end.

(** [schema.omit(mask)]: the keys of the shape that the mask does not set. *)
Definition omit (mask : list string) (schema : ZodObject) : ZodObject :=
  filter (fun kv => kv.1 ∉ mask) schema.

Inductive ParseStatus := valid | dirty | aborted.

Definition mergeStatus (a b : ParseStatus) : ParseStatus :=
  match a, b with
  | aborted, _ | _, aborted => aborted
  | dirty, _ | _, dirty => dirty
  | valid, valid => valid
  end.

Record ParseReturn := {
  status : ParseStatus;
  value : Value;
  issues : list ZodIssue
}.

Definition INVALID (iss : ZodIssue) : ParseReturn :=
  {| status := aborted; value := undefined; issues := [iss] |}.

(** [util.joinValues]: ['pending' | 'paid']. *)
Definition joinValues (values : list string) : string :=
  String.concat " | " ((fun v => "'" +:+ v +:+ "'") <$> values).

Section Parsing.

(** The global error map ([z.getErrorMap()], the English one unless the
    application installs another) and the pattern behind [.email()]. *)
Variable overrideMap : ZodErrorMap.
Variable emailRegex : string -> bool.

(** [addIssueToContext]: the schema's own map, then the global one. *)
Definition addIssue (params : option RawCreateParams) (data : Value)
    (path : list string) (issueData : IssueData) (message : option string) : ZodIssue :=
  makeIssue data path
            (option_list (processCreateParams params) ++ [overrideMap])
            issueData message.

Definition runStringCheck (params : option RawCreateParams) (data : Value)
    (path : list string) (s : string) (c : StringCheck) : list ZodIssue :=
  match c with
  | check_email message =>
      if emailRegex s then []
      else [addIssue params data path (InvalidString "email") message]
  end.

Definition runNumberCheck (params : option RawCreateParams) (data : Value)
    (path : list string) (x : number) (c : NumberCheck) : list ZodIssue :=
  match c with
  | check_min v inclusive message =>
      let tooSmall := if inclusive then lt x v else le x v in
      if tooSmall then [addIssue params data path (TooSmall v inclusive) message]
      else []
  end.

(** Each check that fails adds one issue and marks the result dirty. *)
Definition statusOf (iss : list ZodIssue) : ParseStatus :=
  match iss with [] => valid | _ => dirty end.

(** [schema._parse(input)] *)
Definition _parse (t : ZodType) (input : Value) (path : list string) : ParseReturn :=
  match t with
  | ZodString checks params =>
      match input with
      | Str s =>
          let iss := checks ≫= runStringCheck params input path s in
          {| status := statusOf iss; value := input; issues := iss |}
      | _ => INVALID (addIssue params input path
                        (InvalidType "string" (getParsedType input)) None)
      end
  | ZodNumber checks coerce params =>
      let data := if coerce then Num (ToNumber input) else input in
      match data with
      | Num x =>
          if isNaN x then
            INVALID (addIssue params data path (InvalidType "number" ty_nan) None)
          else
            let iss := checks ≫= runNumberCheck params data path x in
            {| status := statusOf iss; value := data; issues := iss |}
      | _ => INVALID (addIssue params data path
                        (InvalidType "number" (getParsedType data)) None)
      end
  | ZodEnum values params =>
      match input with
      | Str s =>
          if bool_decide (s ∈ values) then
            {| status := valid; value := input; issues := [] |}
          else INVALID (addIssue params input path (InvalidEnumValue input values) None)
      | _ => INVALID (addIssue params input path
                        (InvalidType (joinValues values) (getParsedType input)) None)
      end
  end.

Record ObjectReturn := {
  o_status : ParseStatus;
  o_value : gmap string Value;
  o_issues : list ZodIssue
}.

(** One key of the shape: parse [data[key]] under [path ++ [key]], merge the
    status, append the issues, and set the key in the result when the parsed
    value is defined or the key is present in the input. *)
Definition parseKey (data : gmap string Value) (path : list string)
    (acc : ObjectReturn) (kv : string * ZodType) : ObjectReturn :=
  let r := _parse kv.2 (getProp data kv.1) (path ++ [kv.1]) in
  {| o_status := mergeStatus (o_status acc) (status r);
     o_value :=
       if negb (String.eqb kv.1 "__proto__")
          && (negb (isUndefined (value r)) || bool_decide (is_Some (data !! kv.1)))
       then <[kv.1 := value r]> (o_value acc) else o_value acc;
     o_issues := o_issues acc ++ issues r |}.

(** [ZodObject._parse] on an object: every key is parsed, whatever the
    outcome of the keys before it; unknown keys are stripped. *)
Definition parseObject (schema : ZodObject) (data : gmap string Value)
    (path : list string) : ObjectReturn :=
  foldl (parseKey data path)
        {| o_status := valid; o_value := ∅; o_issues := [] |} schema.

Inductive SafeParseReturnType :=
| SafeParseSuccess (data : gmap string Value)
| SafeParseError (error : list ZodIssue).

(** [schema.safeParse(data)] *)
Definition safeParse (schema : ZodObject) (data : gmap string Value) : SafeParseReturnType :=
  let r := parseObject schema data [] in
  match o_status r with
  | valid => SafeParseSuccess (o_value r)
  | _ => SafeParseError (o_issues r)
  end.

End Parsing.

Record FlattenedError := {
  formErrors : list string;
  fieldErrors : gmap string (list string)
}.

(** [error.flatten()]: the messages of the issues, in order, under the first
    key of their path; those with an empty path go to [formErrors]. *)
Definition flattenStep (acc : FlattenedError) (sub : ZodIssue) : FlattenedError :=
  match path sub with
  | k :: _ =>
      {| formErrors := formErrors acc;
         fieldErrors :=
           <[k := (default [] (fieldErrors acc !! k) ++ [message sub])%list]>
             (fieldErrors acc) |}
  | [] =>
      {| formErrors := formErrors acc ++ [message sub];
         fieldErrors := fieldErrors acc |}
  end.

Definition flatten (error : list ZodIssue) : FlattenedError :=
  foldl flattenStep {| formErrors := []; fieldErrors := ∅ |} error.

(** The issue is filed under the key [k]. *)
Definition underKey (k : string) (i : ZodIssue) : bool :=
  match path i with
  | k' :: _ => String.eqb k' k
  | [] => false
  end.

(** The pattern of [.email()] in zod 3.23, case-insensitive and anchored at
    both ends: no leading dot and no two dots in a row; a local part of
    letters, digits and [_ ' + - .] whose last character is a letter, a
    digit or one of [_ + -]; an [@]; one or more labels, each a letter or
    digit followed by letters, digits and hyphens, and each followed by a
    dot; a top-level name of two letters or more. *)
Definition isLetter (c : ascii) : bool := between 65 90 c || between 97 122 c.
Definition isAlnum (c : ascii) : bool := isLetter c || isDecimalDigit c.
Definition oneOf (cs : string) (c : ascii) : bool :=
  existsb (Ascii.eqb c) (list_ascii_of_string cs).

Definition isLabel (l : string) : bool :=
  match l with
  | String c r => isAlnum c && forallb (fun c => isAlnum c || oneOf "-" c) (list_ascii_of_string r)
  | EmptyString => false
  end.

Definition isTopLevel (l : string) : bool :=
  forallb isLetter (list_ascii_of_string l) && (2 <=? String.length l)%nat.

Definition isLocalPart (l : string) : bool :=
  match reverse (list_ascii_of_string l) with
  | c :: r => (isAlnum c || oneOf "_+-" c) && forallb (fun c => isAlnum c || oneOf "_'+-." c) r
  | [] => false
  end.

Definition emailRegex_test (s : string) : bool :=
  negb (startsWith "." s)
  && bool_decide (length (split ".." s) = 1%nat)
  && match split "@" s with
     | [l; d] =>
         isLocalPart l
         && match reverse (split "." d) with
            | tld :: ((_ :: _) as labels) => isTopLevel tld && forallb isLabel labels
            | _ => false
            end
     | _ => false
     end.

End Zod.

(* ===================================================================== *)
(** ** Storage: the tables behind the [sql] template *)
(* ===================================================================== *)

Import JS.

Record InvoiceRow := {
  inv_id : string;
  customer_id : Value;
  amount : Value;
  status : Value;
  date : Value
}.

Record CustomerRow := {
  cus_id : string;
  name : Value;
  email : Value;
  image_url : Value
}.

Record Database := {
  invoices : list InvoiceRow;
  customers : list CustomerRow
}.

(** The six statements of [actions.ts], with their interpolated values. *)
Inductive Statement :=
| INSERT_INTO_invoices (customer_id amount status date : Value)
| UPDATE_invoices (customer_id amount status : Value) (id : string)
| DELETE_FROM_invoices (id : string)
| INSERT_INTO_customers (name email image_url : Value)
| UPDATE_customers (name email image_url : Value) (id : string)
| DELETE_FROM_customers (id : string).

Definition setInvoice (c a s : Value) (id : string) (r : InvoiceRow) : InvoiceRow :=
  if String.eqb (inv_id r) id then
    {| inv_id := inv_id r; customer_id := c; amount := a; status := s; date := date r |}
  else r.

Definition setCustomer (n e i : Value) (id : string) (r : CustomerRow) : CustomerRow :=
  if String.eqb (cus_id r) id then
    {| cus_id := cus_id r; name := n; email := e; image_url := i |}
  else r.

(** What a statement does to the tables when the store accepts it.  The
    statements that insert do not name the [id] column: the store fills it
    in ([fresh]). *)
Definition execute (fresh : string) (q : Statement) (d : Database) : Database :=
  match q with
  | INSERT_INTO_invoices c a s dt =>
      {| invoices := invoices d ++
           [{| inv_id := fresh; customer_id := c; amount := a; status := s; date := dt |}];
         customers := customers d |}
  | UPDATE_invoices c a s id =>
      {| invoices := setInvoice c a s id <$> invoices d;
         customers := customers d |}
  | DELETE_FROM_invoices id =>
      {| invoices := filter (fun r => inv_id r ≠ id) (invoices d);
         customers := customers d |}
  | INSERT_INTO_customers n e i =>
      {| invoices := invoices d;
         customers := customers d ++
           [{| cus_id := fresh; name := n; email := e; image_url := i |}] |}
  | UPDATE_customers n e i id =>
      {| invoices := invoices d;
         customers := setCustomer n e i id <$> customers d |}
  | DELETE_FROM_customers id =>
      {| invoices := invoices d;
         customers := filter (fun r => cus_id r ≠ id) (customers d) |}
  end.

(* ===================================================================== *)
(** ** Collaborators and the action monad *)
(* ===================================================================== *)

(** Everything an action reaches outside its own code. *)
Class Collaborators := {
  (** zod: the global error map and the pattern of [.email()] *)
  overrideMap : Zod.ZodErrorMap;
  emailRegex : string -> bool;
  (** the store: the error with which it rejects a statement, if it does,
      and the identifier it gives to an inserted row *)
  sqlFault : Statement -> Database -> option Error;
  generatedId : Database -> string;
  (** the clock read by [new Date()] *)
  clock : Date;
  (** the identity provider: the error [signIn] rejects with, if it does *)
  signInFault : string -> FormData -> option Error
}.

(** What an invocation does to the outside, in order. *)
Inductive Event :=
| Query (q : Statement)
| RevalidatePath (path : string)
| Redirect (url : string).

Record World := {
  database : Database;
  trace : list Event
}.

Inductive Completion (A : Type) :=
| Normal (a : A)
| Throw (e : Error).
Arguments Normal {A} a.
Arguments Throw {A} e.

Definition Action (A : Type) : Type := World -> Completion A * World.

#[export] Instance Action_ret : MRet Action := fun A a w => (Normal a, w).

#[export] Instance Action_bind : MBind Action := fun A B f m w =>
  match m w with
  | (Normal a, w') => f a w'
  | (Throw e, w') => (Throw e, w')
  end.

(** [try { body } catch (error) { handler }] *)
Definition try_catch {A} (body : Action A) (handler : Error -> Action A) : Action A :=
  fun w =>
    match body w with
    | (Normal a, w') => (Normal a, w')
    | (Throw e, w') => handler e w'
    end.

Definition throw {A} (e : Error) : Action A := fun w => (Throw e, w).

Definition emit (ev : Event) (w : World) : World :=
  {| database := database w; trace := trace w ++ [ev] |}.

Section Actions.

Context `{C : Collaborators}.

(** [await sql`...`]: the statement reaches the store, which either rejects
    it, leaving the tables as they are, or carries it out. *)
Definition sql (q : Statement) : Action unit := fun w =>
  match sqlFault q (database w) with
  | Some e => (Throw e, emit (Query q) w)
  | None =>
      (Normal tt,
       emit (Query q)
            {| database := execute (generatedId (database w)) q (database w);
               trace := trace w |})
  end.

Definition revalidatePath (path : string) : Action unit := fun w =>
  (Normal tt, emit (RevalidatePath path) w).

(** [redirect] never returns: it throws the navigation signal. *)
Definition redirect {A} (url : string) : Action A := fun w =>
  (Throw (RedirectError url), emit (Redirect url) w).

Definition newDate : Action Date := fun w => (Normal clock, w).

Definition signIn (provider : string) (formData : FormData) : Action unit := fun w =>
  match signInFault provider formData with
  | Some e => (Throw e, w)
  | None => (Normal tt, w)
  end.

Definition safeParse := Zod.safeParse overrideMap emailRegex.

(** *** [authenticate] *)

Definition authenticate (prevState : option string) (formData : FormData)
    : Action (option string) :=
  try_catch
    (signIn "credentials" formData;; mret None)
    (fun error =>
       match error with
       | AuthError type =>
           if String.eqb type "CredentialsSignin" then mret (Some "Invalid credentials.")
           else mret (Some "Something went wrong.")
       | _ => throw error
       end).

(** *** Invoices *)

(** In [createInvoice] and [updateInvoice] (and their customer twins) the
    [catch] block returns from the function: the [try] statement is given
    the result [Some state] when it does, [None] when the write went
    through and the code after it runs. *)

Record State := {
  message : option string;
  error : option (gmap string (list string))
}.

Definition FormSchema : Zod.ZodObject := Zod.object_ [
  ("id", Zod.string_ None);
  ("customerId", Zod.string_ (Some {|
     Zod.p_message := None;
     Zod.invalid_type_error := Some "Please Select a Customer.";
     Zod.required_error := None |}));
  ("amount", Zod.gt (of_Z 0) (Some "Please enter an amount greater than $0.")
               Zod.coerce_number);
  ("status", Zod.enum_ ["pending"; "paid"] (Some {|
     Zod.p_message := None;
     Zod.invalid_type_error := Some "Please select an invoice status.";
     Zod.required_error := None |}));
  ("date", Zod.string_ None)
].

Definition CreateInvoice : Zod.ZodObject := Zod.omit ["id"; "date"] FormSchema.

Definition UpdateInvoice : Zod.ZodObject := Zod.omit ["id"; "date"] FormSchema.

(** The object literal handed to [safeParse]. *)
Definition invoiceFields (formData : FormData) : gmap string Value :=
  <["customerId" := get formData "customerId"]>
    (<["amount" := get formData "amount"]>
       (<["status" := get formData "status"]> ∅)).

Definition createInvoice (prevState : State) (formData : FormData) : Action State :=
  let validatedFields := safeParse CreateInvoice (invoiceFields formData) in
  match validatedFields with
  | Zod.SafeParseError error =>
      mret {| error := Some (Zod.fieldErrors (Zod.flatten error));
              message := Some "Missing Fields. Failed to Create Invoice." |}
  | Zod.SafeParseSuccess data =>
      let customerId := getProp data "customerId" in
      let amount := getProp data "amount" in
      let status := getProp data "status" in
      let amountInCents := times amount (Num (of_Z 100)) in
      now ← newDate;
      let date := index (split "T" (toISOString now)) 0 in
      try_catch
        (sql (INSERT_INTO_invoices customerId amountInCents status date);;
         mret None)
        (fun _ => mret (Some {| message := Some "Database Error : Failed To Create Invoice.";
                                error := None |}))
      ≫= fun returned =>
        match returned with
        | Some state => mret state
        | None =>
            revalidatePath "/dashboard/invoices";;
            redirect "/dashboard/invoices"
        end
  end.

Definition updateInvoice (id : string) (prevState : State) (formData : FormData)
    : Action State :=
  let validatedFields := safeParse UpdateInvoice (invoiceFields formData) in
  match validatedFields with
  | Zod.SafeParseError error =>
      mret {| error := Some (Zod.fieldErrors (Zod.flatten error));
              message := Some "Missing Fields. Failed to Update Invoice." |}
  | Zod.SafeParseSuccess data =>
      let customerId := getProp data "customerId" in
      let amount := getProp data "amount" in
      let status := getProp data "status" in
      let amountInCents := times amount (Num (of_Z 100)) in
      try_catch
        (sql (UPDATE_invoices customerId amountInCents status id);;
         mret None)
        (fun _ => mret (Some {| message := Some "Database Error: Failed to Update Invoice.";
                                error := None |}))
      ≫= fun returned =>
        match returned with
        | Some state => mret state
        | None =>
            revalidatePath "/dashboard/invoices";;
            redirect "/dashboard/invoices"
        end
  end.

Definition deleteInvoice (id : string) : Action State :=
  try_catch
    (sql (DELETE_FROM_invoices id);;
     revalidatePath "/dashboard/invoices";;
     mret {| message := Some "Deleted Invoice."; error := None |})
    (fun _ => mret {| message := Some "Database Error: Failed to Delete Invoice.";
                      error := None |}).

(** *** Customers *)

Definition CustomerState := State.

Definition CustomerFormSchema : Zod.ZodObject := Zod.object_ [
  ("id", Zod.string_ None);
  ("name", Zod.string_ (Some {|
     Zod.p_message := Some "Please enter a name.";
     Zod.invalid_type_error := None;
     Zod.required_error := None |}));
  ("email", Zod.email (Some "Please enter a valid email address.") (Zod.string_ None));
  ("imageUrl", Zod.string_ (Some {|
     Zod.p_message := Some "Please upload valid image.";
     Zod.invalid_type_error := None;
     Zod.required_error := None |}))
].

Definition CreateCustomer : Zod.ZodObject := Zod.omit ["id"] CustomerFormSchema.

Definition UpdateCustomer : Zod.ZodObject := Zod.omit ["id"] CustomerFormSchema.

Definition customerFields (formData : FormData) : gmap string Value :=
  <["name" := get formData "name"]>
    (<["email" := get formData "email"]>
       (<["imageUrl" := get formData "imageUrl"]> ∅)).

Definition createCustomer (prevState : CustomerState) (formData : FormData)
    : Action CustomerState :=
  let validatedFields := safeParse CreateCustomer (customerFields formData) in
  match validatedFields with
  | Zod.SafeParseError error =>
      mret {| error := Some (Zod.fieldErrors (Zod.flatten error));
              message := Some "Missing Fields. Failed to Create Customer." |}
  | Zod.SafeParseSuccess data =>
      let name := getProp data "name" in
      let email := getProp data "email" in
      let imageUrl := getProp data "imageUrl" in
      try_catch
        (sql (INSERT_INTO_customers name email imageUrl);;
         mret None)
        (fun _ => mret (Some {| message := Some "Database Error : Failed To Create Customer.";
                                error := None |}))
      ≫= fun returned =>
        match returned with
        | Some state => mret state
        | None =>
            revalidatePath "/dashboard/customers";;
            redirect "/dashboard/customers"
        end
  end.

Definition updateCustomer (id : string) (prevState : CustomerState) (formData : FormData)
    : Action CustomerState :=
  let validatedFields := safeParse UpdateCustomer (customerFields formData) in
  match validatedFields with
  | Zod.SafeParseError error =>
      mret {| error := Some (Zod.fieldErrors (Zod.flatten error));
              message := Some "Missing Fields. Failed to Update Customer." |}
  | Zod.SafeParseSuccess data =>
      let name := getProp data "name" in
      let email := getProp data "email" in
      let imageUrl := getProp data "imageUrl" in
      try_catch
        (sql (UPDATE_customers name email imageUrl id);;
         mret None)
        (fun _ => mret (Some {| message := Some "Database Error: Failed to Update Customer.";
                                error := None |}))
      ≫= fun returned =>
        match returned with
        | Some state => mret state
        | None =>
            revalidatePath "/dashboard/customers";;
            redirect "/dashboard/customers"
        end
  end.

Definition deleteCustomer (id : string) : Action CustomerState :=
  try_catch
    (sql (DELETE_FROM_customers id);;
     revalidatePath "/dashboard/customers";;
     mret {| message := Some "Deleted Customer."; error := None |})
    (fun _ => mret {| message := Some "Database Error: Failed to Delete Customer.";
                      error := None |}).

End Actions.

(* ===================================================================== *)
(** ** Vocabulary of the statements below *)
(* ===================================================================== *)

Section Vocabulary.

Context `{C : Collaborators}.

(** What one key of a schema reports on an input object, parsed on its own. *)
Definition parseField (kv : string * Zod.ZodType) (data : gmap string Value)
    : Zod.ParseReturn :=
  Zod._parse overrideMap emailRegex kv.2 (getProp data kv.1) [kv.1].

(** The issues a schema raises for the key [k] of an input object, and their
    messages: empty when the field is accepted. *)
Definition fieldIssues (schema : Zod.ZodObject) (data : gmap string Value)
    (k : string) : list Zod.ZodIssue :=
  schema ≫= fun kv => if String.eqb kv.1 k then Zod.issues (parseField kv data) else [].

Definition fieldMessages (schema : Zod.ZodObject) (data : gmap string Value)
    (k : string) : list string :=
  Zod.message <$> fieldIssues schema data k.

(** Validation fails when some key of the schema is not accepted. *)
Definition validationFails (schema : Zod.ZodObject) (data : gmap string Value) : Prop :=
  exists k, fieldMessages schema data k <> [].

(** What an invocation adds to the trace. *)
Definition eventsOf {A} (a : Action A) (w : World) : list Event :=
  drop (length (trace w)) (trace (a w).2).

(** The operations, by entity and kind. *)
Inductive Entity := Invoice | Customer.

Definition entityName (e : Entity) : string :=
  match e with Invoice => "Invoice" | Customer => "Customer" end.

Definition listView (e : Entity) : string :=
  match e with Invoice => "/dashboard/invoices" | Customer => "/dashboard/customers" end.

(** The four actions that take a form. *)
Inductive FormAction :=
| Create (e : Entity)
| Update (e : Entity) (id : string).

Definition verb (a : FormAction) : string :=
  match a with Create _ => "Create" | Update _ _ => "Update" end.

Definition entityOf (a : FormAction) : Entity :=
  match a with Create e | Update e _ => e end.

Definition invoke (a : FormAction) : State -> FormData -> Action State :=
  match a with
  | Create Invoice => createInvoice
  | Create Customer => createCustomer
  | Update Invoice id => updateInvoice id
  | Update Customer id => updateCustomer id
  end.

Definition schemaOf (a : FormAction) : Zod.ZodObject :=
  match a with
  | Create Invoice => CreateInvoice
  | Create Customer => CreateCustomer
  | Update Invoice _ => UpdateInvoice
  | Update Customer _ => UpdateCustomer
  end.

Definition fieldsOf (a : FormAction) : FormData -> gmap string Value :=
  match entityOf a with
  | Invoice => invoiceFields
  | Customer => customerFields
  end.

(** The six mutations: a form action on a submitted form, or a delete. *)
Inductive Mutation :=
| Submit (a : FormAction) (prevState : State) (formData : FormData)
| Remove (e : Entity) (id : string).

Definition perform (m : Mutation) : Action State :=
  match m with
  | Submit a prevState formData => invoke a prevState formData
  | Remove Invoice id => deleteInvoice id
  | Remove Customer id => deleteCustomer id
  end.

(** The statements among the events, in order. *)
Definition queriesOf (evs : list Event) : list Statement :=
  omap (fun ev => match ev with Query q => Some q | _ => None end) evs.

(** The field that names the record, and the message asked for it. *)
Definition referenceKey (e : Entity) : string :=
  match e with Invoice => "customerId" | Customer => "name" end.

Definition referenceMessage (e : Entity) : string :=
  match e with
  | Invoice => "Please Select a Customer."
  | Customer => "Please enter a name."
  end.

Definition deleteStatement (e : Entity) (id : string) : Statement :=
  match e with
  | Invoice => DELETE_FROM_invoices id
  | Customer => DELETE_FROM_customers id
  end.

(** The message each mutation returns when the store rejects its statement,
    as spelled in the source. *)
Definition databaseError (m : Mutation) : string :=
  match m with
  | Submit (Create Invoice) _ _ => "Database Error : Failed To Create Invoice."
  | Submit (Create Customer) _ _ => "Database Error : Failed To Create Customer."
  | Submit (Update Invoice _) _ _ => "Database Error: Failed to Update Invoice."
  | Submit (Update Customer _) _ _ => "Database Error: Failed to Update Customer."
  | Remove Invoice _ => "Database Error: Failed to Delete Invoice."
  | Remove Customer _ => "Database Error: Failed to Delete Customer."
  end.

(** The world after a statement has been carried out and logged. *)
Definition written (q : Statement) (w : World) : World :=
  emit (Query q)
       {| database := execute (generatedId (database w)) q (database w);
          trace := trace w |}.

(** The write, then the list view: what every create and update ends with. *)
Definition writeThenList (q : Statement) (failure : State) (view : string)
    : Action State :=
  try_catch (sql q;; mret None) (fun _ => mret (Some failure))
  ≫= fun returned =>
       match returned with
       | Some state => mret state
       | None => revalidatePath view;; redirect view
       end.

(** The write, then the list view, then the confirmation: a delete. *)
Definition writeThenConfirm (q : Statement) (done failure : State) (view : string)
    : Action State :=
  try_catch (sql q;; revalidatePath view;; mret done) (fun _ => mret failure).

Definition stamp : Value := index (split "T" (toISOString clock)) 0.

Definition invoiceInsert (data : gmap string Value) : Statement :=
  INSERT_INTO_invoices (getProp data "customerId")
    (times (getProp data "amount") (Num (of_Z 100))) (getProp data "status") stamp.

Definition invoiceUpdate (id : string) (data : gmap string Value) : Statement :=
  UPDATE_invoices (getProp data "customerId")
    (times (getProp data "amount") (Num (of_Z 100))) (getProp data "status") id.

Definition customerInsert (data : gmap string Value) : Statement :=
  INSERT_INTO_customers (getProp data "name") (getProp data "email")
    (getProp data "imageUrl").

Definition customerUpdate (id : string) (data : gmap string Value) : Statement :=
  UPDATE_customers (getProp data "name") (getProp data "email")
    (getProp data "imageUrl") id.

(** The statement a form action issues once its form is validated. *)
Definition statementOf (a : FormAction) (data : gmap string Value) : Statement :=
  match a with
  | Create Invoice => invoiceInsert data
  | Create Customer => customerInsert data
  | Update Invoice id => invoiceUpdate id data
  | Update Customer id => customerUpdate id data
  end.

Definition missingFields (a : FormAction) : string :=
  match a with
  | Create Invoice => "Missing Fields. Failed to Create Invoice."
  | Create Customer => "Missing Fields. Failed to Create Customer."
  | Update Invoice _ => "Missing Fields. Failed to Update Invoice."
  | Update Customer _ => "Missing Fields. Failed to Update Customer."
  end.

End Vocabulary.

(** [Some l] for a list with elements, [None] for the empty one: how a key
    of [fieldErrors] is present or not. *)
Definition nonempty {A} (l : list A) : option (list A) :=
  match l with [] => None | _ => Some l end.

(* ===================================================================== *)
(** ** Further vocabulary: field names, well-formed tables *)
(* ===================================================================== *)

(** [typeof v === "string"] *)
Definition isString (v : Value) : bool :=
  match v with Str _ => true | _ => false end.

(** The names the actions read from the form, by entity. *)
Definition fieldNames (e : Entity) : list string :=
  match e with
  | Invoice => ["customerId"; "amount"; "status"]
  | Customer => ["name"; "email"; "imageUrl"]
  end.

Section Tables.

Context `{C : Collaborators}.

(** What the schemas let through, read on the rows: strings where the form
    gave strings, a number for the amount, one of the two statuses, an
    address that matches the pattern. *)
Definition invoiceRowOk (r : InvoiceRow) : Prop :=
  isString (customer_id r) = true
  /\ (exists x, amount r = Num x)
  /\ (status r = Str "pending" \/ status r = Str "paid")
  /\ isString (date r) = true.

Definition customerRowOk (r : CustomerRow) : Prop :=
  isString (name r) = true
  /\ (exists e, email r = Str e /\ emailRegex e = true)
  /\ isString (image_url r) = true.

Definition tablesOk (d : Database) : Prop :=
  Forall invoiceRowOk (invoices d) /\ Forall customerRowOk (customers d).

End Tables.

(* ===================================================================== *)
(** ** The customer edit form ([app/ui/customers/edit-form.tsx]) *)
(* ===================================================================== *)

Module Definitions.

(** Modelled from the spec: [OneCustomerField] is declared in
    [app/lib/definitions], which is not among the sources; a customer has an
    identifier, a name, an email and an image reference, and these are the
    four fields the form reads. *)
Record OneCustomerField := {
  id : string;
  name : string;
  email : string;
  image_url : string
}.

End Definitions.

Module EditCustomerForm.

Section Form.

Context `{C : Collaborators}.

Variable customer : Definitions.OneCustomerField.

Definition initialState : CustomerState := {| message := None; error := Some ∅ |}.

(** [updateCustomer.bind(null, customer.id)] *)
Definition updateInvoiceWithId : CustomerState -> FormData -> Action CustomerState :=
  updateCustomer (Definitions.id customer).

(** The three inputs of the form: their [name] and their [defaultValue]. *)
Definition inputs : list (string * string) :=
  [ ("name", Definitions.name customer);
    ("email", Definitions.email customer);
    ("imageUrl", Definitions.image_url customer) ].

End Form.

(** [state.error?.field && state.error.field.map(...)]: the paragraphs
    under an input, one for each message of that field; none when [error]
    or the field is missing. *)
Definition paragraphs (field : string) (state : CustomerState) : list string :=
  match error state with
  | Some errors => default [] (errors !! field)
  | None => []
  end.

(** What submitting the form sends: one entry for each input, in the order
    of the inputs, with the text it holds. *)
Definition submission (values : list (string * string)) : FormData :=
  (fun kv => (kv.1, EntryString kv.2)) <$> values.

End EditCustomerForm.

(* ===================================================================== *)
(** ** Sample collaborators, tables and forms *)
(* ===================================================================== *)

Module Sample.

Definition noon : Date := {|
  UTCFullYear := 2026; UTCMonth := 10; UTCDate := 3;
  UTCHours := 12; UTCMinutes := 0; UTCSeconds := 0; UTCMilliseconds := 0
|}.

(** An identity provider that knows one password. *)
Definition provider (name : string) (formData : FormData) : option Error :=
  match get formData "password" with
  | Str "s3cret" => None
  | Str "" => Some (AuthError "CallbackRouteError")
  | Str _ => Some (AuthError "CredentialsSignin")
  | _ => Some (OtherError "fetch failed")
  end.

(** A store that accepts every statement, and one that rejects them all. *)
Definition accepting : Collaborators := {|
  overrideMap := fun _ _ _ => "Invalid input";
  emailRegex := Zod.emailRegex_test;
  sqlFault := fun _ _ => None;
  generatedId := fun d => "inv-" +:+ padDigits 4 (Z.of_nat (length (invoices d) + length (customers d)));
  clock := noon;
  signInFault := provider
|}.

Definition rejecting : Collaborators := {|
  overrideMap := fun _ _ _ => "Invalid input";
  emailRegex := Zod.emailRegex_test;
  sqlFault := fun _ _ => Some (OtherError "connection refused");
  generatedId := fun _ => "unused";
  clock := noon;
  signInFault := provider
|}.

Definition tables : Database := {|
  invoices := [
    {| inv_id := "inv-1"; customer_id := Str "c1"; amount := Num (of_Z 2000);
       status := Str "pending"; date := Str "2024-01-15" |};
    {| inv_id := "inv-2"; customer_id := Str "c2"; amount := Num (of_Z 990);
       status := Str "paid"; date := Str "2024-02-29" |} ];
  customers := [
    {| cus_id := "c1"; name := Str "Ada"; email := Str "ada@example.com";
       image_url := Str "/img/ada.png" |};
    {| cus_id := "c2"; name := Str "Alan"; email := Str "alan@example.com";
       image_url := Str "/img/alan.png" |} ]
|}.

Definition world : World := {| database := tables; trace := [] |}.

Definition initialState : State := {| message := None; error := Some ∅ |}.

Definition field (k v : string) : string * FormDataEntryValue := (k, EntryString v).

Definition invoiceForm (customerId amount status : string) : FormData :=
  [field "customerId" customerId; field "amount" amount; field "status" status].

Definition customerForm (name email imageUrl : string) : FormData :=
  [field "name" name; field "email" email; field "imageUrl" imageUrl].

Definition customerForm_without_name (email imageUrl : string) : FormData :=
  [field "email" email; field "imageUrl" imageUrl].

(** A form with no customer and an amount of zero. *)
Definition incomplete : FormData := [field "amount" "0"; field "status" "paid"].

(** What validation makes of such forms. *)
Definition validInvoice (customerId amount status : Value) : gmap string Value :=
  <["customerId" := customerId]> (<["amount" := amount]> (<["status" := status]> ∅)).

Definition validCustomer (name email imageUrl : Value) : gmap string Value :=
  <["name" := name]> (<["email" := email]> (<["imageUrl" := imageUrl]> ∅)).

End Sample.

(** More forms, and the customer shown in the edit form. *)
Module MoreSample.

Import Sample.

Definition ada : Definitions.OneCustomerField := {|
  Definitions.id := "c1";
  Definitions.name := "Ada";
  Definitions.email := "ada@example.com";
  Definitions.image_url := "/img/ada.png"
|}.

(** An invoice form without an amount. *)
Definition withoutAmount : FormData := [field "customerId" "c1"; field "status" "paid"].

(** The form [invoiceForm "c1" "45.00" "paid"] with an [id] entry before it
    and a second amount after it. *)
Definition padded : FormData :=
  field "id" "inv-2" :: (invoiceForm "c1" "45.00" "paid" ++ [field "amount" "1"])%list.

End MoreSample.

(* ===================================================================== *)
(** ** Facts about the runtime *)
(* ===================================================================== *)

Module JSFacts.

Import JS.
Local Open Scope Z_scope.

Lemma append_nil (b : string) : EmptyString +:+ b = b.
Proof. reflexivity. Qed.

Lemma append_cons (x : ascii) (a b : string) : String x a +:+ b = String x (a +:+ b).
Proof. reflexivity. Qed.

Ltac string_induction a :=
  let x := fresh "x" in
  let IH := fresh "IH" in
  induction a as [|x a IH];
  rewrite ?append_nil, ?append_cons; simpl.

Lemma append_assoc (a b c : string) : (a +:+ b) +:+ c = a +:+ (b +:+ c).
Proof. string_induction a; [reflexivity | now rewrite IH]. Qed.

Lemma length_append (a b : string) :
  String.length (a +:+ b) = (String.length a + String.length b)%nat.
Proof. string_induction a; [reflexivity | now rewrite IH]. Qed.

Lemma allChars_append P (a b : string) :
  allChars P (a +:+ b) = allChars P a && allChars P b.
Proof.
  string_induction a; [reflexivity |].
  now rewrite IH, andb_assoc.
Qed.

Lemma allChars_impl (P Q : ascii -> bool) (s : string) :
  (forall c, P c = true -> Q c = true) -> allChars P s = true -> allChars Q s = true.
Proof.
  intros HPQ. induction s as [|x s IH]; simpl; [reflexivity |].
  rewrite !andb_true_iff. intros [Hx Hs]. split; auto.
Qed.

(** *** [split] *)

(** Up to the first occurrence of a one-unit separator: the head of the
    result is what precedes it. *)
Lemma splitFrom_first (t : ascii) (d rest : string) :
  allChars (fun c => negb (Ascii.eqb t c)) d = true ->
  (splitFrom (String t EmptyString) O (d +:+ String t rest)).1 = d.
Proof.
  string_induction d.
  - intros _. rewrite Ascii.eqb_refl. simpl.
    now destruct (splitFrom (String t EmptyString) 0 rest).
  - rewrite andb_true_iff, negb_true_iff. intros [Hx Hd].
    rewrite Hx. simpl.
    specialize (IH Hd).
    destruct (splitFrom (String t EmptyString) 0 (d +:+ String t rest)) as [p ps].
    simpl in *. now rewrite IH.
Qed.

Lemma split_first (t : ascii) (d rest : string) :
  allChars (fun c => negb (Ascii.eqb t c)) d = true ->
  index (split (String t EmptyString) (d +:+ String t rest)) 0 = Str d.
Proof.
  intros Hd. unfold split, index.
  pose proof (splitFrom_first t d rest Hd) as H.
  destruct (splitFrom (String t EmptyString) 0 (d +:+ String t rest)) as [p ps].
  simpl in *. now rewrite H.
Qed.

(** [split] never returns an empty array for a separator that is not empty:
    element 0 always exists. *)
Lemma split_index_0 (sep s : string) :
  sep <> EmptyString -> exists p, index (split sep s) 0 = Str p.
Proof.
  intros Hsep. unfold split, index. destruct sep as [|c sep]; [contradiction |].
  destruct (splitFrom (String c sep) 0 s) as [p ps]. now exists p.
Qed.

(** *** Decimal digits *)

Lemma codeUnit_digitChar (d : Z) : 0 <= d < 10 -> codeUnit (digitChar d) = 48 + d.
Proof.
  intros Hd. unfold codeUnit, digitChar.
  rewrite N_ascii_embedding by lia. lia.
Qed.

Lemma digitChar_isDecimalDigit (d : Z) : 0 <= d < 10 -> isDecimalDigit (digitChar d) = true.
Proof.
  intros Hd. unfold isDecimalDigit, between.
  rewrite codeUnit_digitChar by assumption.
  apply andb_true_iff. split; apply Z.leb_le; lia.
Qed.

Lemma digitValue_digitChar (d : Z) : 0 <= d < 10 -> digitValue 10 (digitChar d) = Some d.
Proof.
  intros Hd. unfold digitValue, between.
  rewrite codeUnit_digitChar by assumption.
  replace (48 <=? 48 + d) with true by (symmetry; apply Z.leb_le; lia).
  replace (48 + d <=? 57) with true by (symmetry; apply Z.leb_le; lia).
  simpl. replace (48 + d - 48) with d by lia.
  replace (d <? 10) with true by (symmetry; apply Z.ltb_lt; lia).
  reflexivity.
Qed.

Lemma length_padDigits (w : nat) (n : Z) : String.length (padDigits w n) = w.
Proof.
  revert n. induction w as [|w IH]; intros n; simpl; [reflexivity |].
  rewrite length_append, IH. simpl. lia.
Qed.

Lemma padDigits_digits (w : nat) (n : Z) : allChars isDecimalDigit (padDigits w n) = true.
Proof.
  revert n. induction w as [|w IH]; intros n; simpl; [reflexivity |].
  rewrite allChars_append, IH. simpl.
  rewrite digitChar_isDecimalDigit; [reflexivity |].
  apply Z.mod_pos_bound. lia.
Qed.

Lemma digitsValue_append (radix acc : Z) (a b : string) :
  digitsValue radix acc (a +:+ b) = digitsValue radix (digitsValue radix acc a) b.
Proof.
  revert acc. string_induction a; intros acc; [reflexivity | apply IH].
Qed.

(** Reading back the digits gives the number, modulo [10 ^ width]. *)
Lemma digitsValue_padDigits (w : nat) (acc n : Z) :
  digitsValue 10 acc (padDigits w n) = acc * 10 ^ Z.of_nat w + n mod 10 ^ Z.of_nat w.
Proof.
  revert acc n. induction w as [|w IH]; intros acc n.
  - simpl. rewrite Z.mod_1_r. lia.
  - cbn [padDigits]. rewrite digitsValue_append, IH. cbn [digitsValue].
    rewrite digitValue_digitChar by (apply Z.mod_pos_bound; lia).
    cbn [default from_option id].
    rewrite Nat2Z.inj_succ, Z.pow_succ_r by lia.
    assert (Hw : 0 < 10 ^ Z.of_nat w) by (apply Z.pow_pos_nonneg; lia).
    rewrite (Z.rem_mul_r n 10 (10 ^ Z.of_nat w)) by lia.
    lia.
Qed.

Lemma digitsValue_padDigits_exact (w : nat) (n : Z) :
  0 <= n < 10 ^ Z.of_nat w -> digitsValue 10 0 (padDigits w n) = n.
Proof.
  intros Hn. rewrite digitsValue_padDigits, Z.mod_small by assumption. lia.
Qed.

(** *** ISO dates *)

Lemma digit_notT (c : ascii) : isDecimalDigit c = true -> notT c = true.
Proof.
  unfold isDecimalDigit, between, notT. intros H.
  destruct (Ascii.eqb_spec "T" c) as [<- | ]; [discriminate H | reflexivity].
Qed.

Lemma isoYear_notT (y : Z) : allChars notT (isoYear y) = true.
Proof.
  unfold isoYear.
  destruct ((0 <=? y) && (y <=? 9999)).
  - eapply allChars_impl; [apply digit_notT | apply padDigits_digits].
  - rewrite allChars_append.
    apply andb_true_iff. split; [now destruct (y <? 0) |].
    eapply allChars_impl; [apply digit_notT | apply padDigits_digits].
Qed.

Lemma isoDate_notT (d : Date) : allChars notT (isoDate d) = true.
Proof.
  unfold isoDate. rewrite !allChars_append, isoYear_notT.
  rewrite !(allChars_impl _ _ _ digit_notT (padDigits_digits _ _)).
  reflexivity.
Qed.

(** What the actions stamp: the part of the ISO string before the [T]. *)
Lemma toISOString_split (d : Date) :
  index (split "T" (toISOString d)) 0 = Str (isoDate d).
Proof.
  unfold toISOString.
  change ("T" +:+ (isoTime d +:+ "Z")) with (String "T" (isoTime d +:+ "Z")).
  apply split_first, isoDate_notT.
Qed.

End JSFacts.

(* ===================================================================== *)
(** ** Facts about schemas *)
(* ===================================================================== *)

Module ZodFacts.

Import Zod.

(** *** [flatten] *)

Lemma flatten_from (acc : FlattenedError) (error : list ZodIssue) (k : string) :
  fieldErrors (foldl flattenStep acc error) !! k =
  match message <$> filter (fun i => underKey k i = true) error with
  | [] => fieldErrors acc !! k
  | ms => Some (default [] (fieldErrors acc !! k) ++ ms)%list
  end.
Proof.
  revert acc. induction error as [|i error IH]; intros acc; [reflexivity |].
  cbn [foldl]. rewrite IH, filter_cons. clear IH.
  assert (Hu : underKey k i = match path i with
                              | k' :: _ => String.eqb k' k
                              | [] => false
                              end) by reflexivity.
  unfold flattenStep. destruct (path i) as [|k' p]; cbn [fieldErrors].
  - rewrite decide_False by (rewrite Hu; discriminate). reflexivity.
  - destruct (String.eqb_spec k' k) as [-> | Hne].
    + rewrite decide_True by exact Hu.
      rewrite lookup_insert_eq, fmap_cons. cbn [default from_option id].
      destruct (message <$> filter (fun i => underKey k i = true) error) as [|m ms].
      * reflexivity.
      * now rewrite <- app_assoc.
    + rewrite decide_False by (rewrite Hu; discriminate).
      rewrite lookup_insert_ne by assumption. reflexivity.
Qed.

(** The messages under a key of [fieldErrors] are those of the issues whose
    path starts with that key, in the order of the issues; the key is absent
    when there is none. *)
Lemma flatten_lookup (error : list ZodIssue) (k : string) :
  fieldErrors (flatten error) !! k =
  nonempty (message <$> filter (fun i => underKey k i = true) error).
Proof.
  unfold flatten. rewrite flatten_from. cbn [fieldErrors].
  rewrite lookup_empty.
  now destruct (message <$> filter (fun i => underKey k i = true) error).
Qed.

Section Parsing.

Context `{C : Collaborators}.

Abbreviation parse := (_parse overrideMap emailRegex).

(** *** Issues carry the path they were raised under. *)

Lemma parse_path (t : ZodType) (v : JS.Value) (p : list string) :
  Forall (fun i => path i = p) (issues (parse t v p)).
Proof.
  destruct t as [checks params | checks coerce params | values params]; cbn [_parse].
  - destruct v; try (repeat constructor).
    cbn [issues]. apply Forall_bind, Forall_forall. intros [m] _.
    unfold compose, runStringCheck. destruct (emailRegex s); repeat constructor.
  - destruct (if coerce then _ else _) as [| | |x|]; try (repeat constructor).
    destruct (JS.isNaN x); [repeat constructor |].
    cbn [issues]. apply Forall_bind, Forall_forall. intros [m incl msg] _.
    unfold compose, runNumberCheck. destruct (if incl then _ else _); repeat constructor.
  - destruct v; try (repeat constructor).
    destruct (bool_decide _); repeat constructor.
Qed.

(** A schema is satisfied exactly when it raises no issue. *)
Lemma parse_valid (t : ZodType) (v : JS.Value) (p : list string) :
  status (parse t v p) = valid <-> issues (parse t v p) = [].
Proof.
  destruct t as [checks params | checks coerce params | values params]; cbn [_parse].
  - destruct v; cbn; try (split; discriminate).
    destruct (checks ≫= _); cbn; split; (reflexivity || discriminate).
  - destruct (if coerce then _ else _) as [| | |x|]; cbn; try (split; discriminate).
    destruct (JS.isNaN x); cbn; try (split; discriminate).
    destruct (checks ≫= _); cbn; split; (reflexivity || discriminate).
  - destruct v; cbn; try (split; discriminate).
    destruct (bool_decide _); cbn; split; (reflexivity || discriminate).
Qed.

(** *** Object schemas *)

Abbreviation step := (parseKey overrideMap emailRegex).

Lemma mergeStatus_valid (a b : ParseStatus) :
  mergeStatus a b = valid <-> a = valid /\ b = valid.
Proof. destruct a, b; cbn; intuition discriminate. Qed.

(** Every key contributes its issues, in the order of the shape: a key that
    fails does not stop the keys after it. *)
Lemma parseObject_issues data path acc (schema : ZodObject) :
  o_issues (foldl (step data path) acc schema) =
  (o_issues acc ++
   (schema ≫= fun kv => issues (parse kv.2 (JS.getProp data kv.1) (path ++ [kv.1]))))%list.
Proof.
  revert acc. induction schema as [|kv schema IH]; intros acc; cbn [foldl].
  - cbn. now rewrite app_nil_r.
  - rewrite IH. cbn. now rewrite app_assoc.
Qed.

Lemma parseObject_status data path acc (schema : ZodObject) :
  o_status (foldl (step data path) acc schema) = valid <->
  o_status acc = valid /\
  Forall (fun kv => status (parse kv.2 (JS.getProp data kv.1) (path ++ [kv.1])) = valid) schema.
Proof.
  revert acc. induction schema as [|kv schema IH]; intros acc; cbn [foldl].
  - intuition constructor.
  - rewrite IH, Forall_cons. unfold parseKey at 1. cbn [o_status].
    rewrite mergeStatus_valid. tauto.
Qed.

Lemma parseObject_value_other data path acc (schema : ZodObject) (k : string) :
  k ∉ schema.*1 ->
  o_value (foldl (step data path) acc schema) !! k = o_value acc !! k.
Proof.
  revert acc. induction schema as [|kv schema IH]; intros acc Hk; cbn [foldl]; [reflexivity |].
  rewrite fmap_cons, not_elem_of_cons in Hk. destruct Hk as [Hne Hk].
  rewrite IH by assumption. unfold parseKey. cbn [o_value].
  destruct (_ && _); [| reflexivity].
  now rewrite lookup_insert_ne by (intros E; apply Hne; now rewrite E).
Qed.

(** A key of the shape that the input object has is set to the value its
    schema produced. *)
Lemma parseObject_value data path acc (schema : ZodObject) (k : string) (t : ZodType) :
  NoDup schema.*1 -> (k, t) ∈ schema ->
  k <> "__proto__" -> is_Some (data !! k) ->
  o_value (foldl (step data path) acc schema) !! k
  = Some (value (parse t (JS.getProp data k) (path ++ [k]))).
Proof.
  intros Hnd Hin Hproto Hdata. revert acc.
  induction schema as [|kv schema IH]; intros acc; [now apply elem_of_nil in Hin |].
  rewrite fmap_cons, NoDup_cons in Hnd. destruct Hnd as [Hfresh Hnd].
  apply elem_of_cons in Hin as [<- | Hin]; cbn [foldl].
  - rewrite parseObject_value_other by exact Hfresh.
    unfold parseKey. cbn [o_value fst snd].
    apply String.eqb_neq in Hproto. rewrite Hproto.
    rewrite (bool_decide_eq_true_2 _ Hdata), orb_true_r. cbn [negb andb].
    apply lookup_insert_eq.
  - now apply IH.
Qed.

(** *** [safeParse] *)

Abbreviation safeParse := (Zod.safeParse overrideMap emailRegex).

Lemma safeParse_success (schema : ZodObject) data d :
  safeParse schema data = SafeParseSuccess d ->
  Forall (fun kv => issues (parseField kv data) = []) schema
  /\ d = o_value (parseObject overrideMap emailRegex schema data []).
Proof.
  unfold Zod.safeParse.
  destruct (o_status _) eqn:Hst; try discriminate.
  intros [= <-]. split; [| reflexivity].
  apply parseObject_status in Hst as [_ Hst].
  eapply Forall_impl; [exact Hst |]. intros kv Hkv. now apply parse_valid.
Qed.

Lemma safeParse_error (schema : ZodObject) data err :
  safeParse schema data = SafeParseError err ->
  err = (schema ≫= fun kv => issues (parseField kv data))
  /\ Exists (fun kv => issues (parseField kv data) <> []) schema.
Proof.
  unfold Zod.safeParse.
  destruct (o_status _) eqn:Hst; try discriminate; intros [= <-].
  all: split; [unfold parseObject; now rewrite parseObject_issues |].
  all: apply not_Forall_Exists; [intros kv; apply _ |].
  all: intros Hall.
  all: assert (Hv : o_status (parseObject overrideMap emailRegex schema data []) = valid)
    by (apply parseObject_status; split; [reflexivity |];
        eapply Forall_impl; [exact Hall |]; intros kv Hkv; now apply parse_valid).
  all: rewrite Hv in Hst; discriminate.
Qed.

(** On success every key of the shape was accepted, and the result holds
    the value its schema produced. *)
Lemma safeParse_data (schema : ZodObject) data d (k : string) (t : ZodType) :
  safeParse schema data = SafeParseSuccess d ->
  NoDup schema.*1 -> (k, t) ∈ schema -> k <> "__proto__" -> is_Some (data !! k) ->
  issues (parse t (JS.getProp data k) [k]) = []
  /\ JS.getProp d k = value (parse t (JS.getProp data k) [k]).
Proof.
  intros Hok Hnd Hin Hproto Hdata.
  apply safeParse_success in Hok as [Hall ->]. split.
  - rewrite Forall_forall in Hall. exact (Hall _ Hin).
  - unfold JS.getProp at 1, parseObject.
    now rewrite (parseObject_value _ _ _ _ k t).
Qed.

(** The issues under a key are those of the schemas declared for it. *)
Lemma issues_underKey (schema : ZodObject) data (k : string) :
  filter (fun i => underKey k i = true) (schema ≫= fun kv => issues (parseField kv data))
  = fieldIssues schema data k.
Proof.
  unfold fieldIssues. induction schema as [|kv schema IH]; [reflexivity |].
  rewrite !bind_cons, filter_app, IH. f_equal.
  pose proof (parse_path kv.2 (JS.getProp data kv.1) [kv.1]) as Hp.
  fold (parseField kv data) in Hp.
  induction Hp as [|i l Hi _ IHl].
  - now destruct (String.eqb kv.1 k).
  - assert (Hu : underKey k i = String.eqb kv.1 k)
      by (unfold underKey; now rewrite Hi).
    rewrite filter_cons. destruct (String.eqb kv.1 k) eqn:E.
    + rewrite decide_True by exact Hu. now rewrite IHl.
    + rewrite decide_False by (rewrite Hu; discriminate). exact IHl.
Qed.

Lemma fieldIssues_other (schema : ZodObject) data (k : string) :
  k ∉ schema.*1 -> fieldIssues schema data k = [].
Proof.
  unfold fieldIssues. induction schema as [|kv schema IH]; [reflexivity |].
  rewrite fmap_cons, not_elem_of_cons, bind_cons. intros [Hne Hk].
  rewrite IH by assumption.
  destruct (String.eqb_spec kv.1 k) as [E | _]; [now destruct Hne | reflexivity].
Qed.

(** With distinct keys, the issues of a key are those of its one schema. *)
Lemma fieldIssues_key (schema : ZodObject) data (k : string) (t : ZodType) :
  NoDup schema.*1 -> (k, t) ∈ schema ->
  fieldIssues schema data k = issues (parseField (k, t) data).
Proof.
  intros Hnd Hin. induction schema as [|kv schema IH]; [now apply elem_of_nil in Hin |].
  rewrite fmap_cons, NoDup_cons in Hnd. destruct Hnd as [Hfresh Hnd].
  unfold fieldIssues. rewrite bind_cons. fold (fieldIssues schema data k).
  apply elem_of_cons in Hin as [<- | Hin]; cbn [fst].
  - rewrite String.eqb_refl, fieldIssues_other by exact Hfresh. apply app_nil_r.
  - rewrite IH by assumption.
    destruct (String.eqb_spec kv.1 k) as [E | _]; [| reflexivity].
    exfalso. apply Hfresh. rewrite E.
    apply list_elem_of_fmap. now exists (k, t).
Qed.

(** On failure, [fieldErrors] has, for each key, the messages of all the
    issues of that key, and only the keys that have some. *)
Lemma safeParse_fieldErrors (schema : ZodObject) data err (k : string) :
  safeParse schema data = SafeParseError err ->
  fieldErrors (flatten err) !! k = nonempty (fieldMessages schema data k).
Proof.
  intros Herr. apply safeParse_error in Herr as [-> _].
  now rewrite flatten_lookup, issues_underKey.
Qed.

Lemma fieldIssues_nil (schema : ZodObject) data :
  (forall k, fieldIssues schema data k = []) <->
  Forall (fun kv => issues (parseField kv data) = []) schema.
Proof.
  unfold fieldIssues. split.
  - intros Hk. apply Forall_forall. intros kv Hin.
    specialize (Hk kv.1).
    induction schema as [|kv' schema IH]; [now apply elem_of_nil in Hin |].
    rewrite bind_cons in Hk. apply app_eq_nil in Hk as [Hhd Htl].
    apply elem_of_cons in Hin as [-> | Hin]; [| now apply IH].
    now rewrite String.eqb_refl in Hhd.
  - intros Hall k. induction Hall as [|kv schema Hkv _ IH]; [reflexivity |].
    rewrite bind_cons, IH, Hkv. now destruct (String.eqb kv.1 k).
Qed.

(** [safeParse] fails exactly when some key is not accepted. *)
Lemma safeParse_fails_iff (schema : ZodObject) data :
  (exists err, safeParse schema data = SafeParseError err) <-> validationFails schema data.
Proof.
  unfold validationFails, fieldMessages. split.
  - intros [err Herr]. apply safeParse_error in Herr as [_ Hex].
    apply Exists_exists in Hex as (kv & Hin & Hkv).
    exists kv.1. intros Hnil. apply fmap_nil_inv in Hnil.
    unfold fieldIssues in Hnil.
    induction schema as [|kv' schema IH]; [now apply elem_of_nil in Hin |].
    rewrite bind_cons in Hnil. apply app_eq_nil in Hnil as [Hhd Htl].
    apply elem_of_cons in Hin as [-> | Hin]; [| now apply IH].
    now rewrite String.eqb_refl in Hhd.
  - intros [k Hk]. destruct (safeParse schema data) as [d | err] eqn:E; [| now exists err].
    exfalso. apply Hk. apply safeParse_success in E as [Hall _].
    apply fieldIssues_nil with (k := k) in Hall. now rewrite Hall.
Qed.

End Parsing.

End ZodFacts.

(* ===================================================================== *)
(** ** Facts about the actions *)
(* ===================================================================== *)

Module ActionFacts.

Section Running.

Context `{C : Collaborators}.

Lemma writeThenList_run (q : Statement) (failure : State) (view : string) (w : World) :
  writeThenList q failure view w =
  match sqlFault q (database w) with
  | Some _ => (Normal failure, emit (Query q) w)
  | None =>
      (Throw (RedirectError view),
       emit (Redirect view) (emit (RevalidatePath view) (written q w)))
  end.
Proof.
  unfold writeThenList, mbind, Action_bind, try_catch, sql, written.
  destruct (sqlFault q (database w)); reflexivity.
Qed.

Lemma writeThenConfirm_run (q : Statement) (done failure : State) (view : string) (w : World) :
  writeThenConfirm q done failure view w =
  match sqlFault q (database w) with
  | Some _ => (Normal failure, emit (Query q) w)
  | None => (Normal done, emit (RevalidatePath view) (written q w))
  end.
Proof.
  unfold writeThenConfirm, mbind, Action_bind, try_catch, sql, written.
  destruct (sqlFault q (database w)); reflexivity.
Qed.

(** Every form action has the same shape: validate, then write, then list. *)
Lemma invoke_run (a : FormAction) (prevState : State) (formData : FormData) (w : World) :
  invoke a prevState formData w =
  match safeParse (schemaOf a) (fieldsOf a formData) with
  | Zod.SafeParseError error =>
      (Normal {| message := Some (missingFields a);
                 error := Some (Zod.fieldErrors (Zod.flatten error)) |}, w)
  | Zod.SafeParseSuccess data =>
      writeThenList (statementOf a data)
        {| message := Some (databaseError (Submit a prevState formData)); error := None |}
        (listView (entityOf a)) w
  end.
Proof.
  destruct a as [[|] | [|] id]; cbn [invoke schemaOf fieldsOf entityOf].
  all: unfold createInvoice, updateInvoice, createCustomer, updateCustomer.
  all: destruct (safeParse _ _); reflexivity.
Qed.

Lemma invoke_invalid (a : FormAction) (prevState : State) (formData : FormData)
    (w : World) (error : list Zod.ZodIssue) :
  safeParse (schemaOf a) (fieldsOf a formData) = Zod.SafeParseError error ->
  invoke a prevState formData w =
  (Normal {| message := Some (missingFields a);
             error := Some (Zod.fieldErrors (Zod.flatten error)) |}, w).
Proof. intros Herr. now rewrite invoke_run, Herr. Qed.

Lemma invoke_valid (a : FormAction) (prevState : State) (formData : FormData)
    (w : World) (data : gmap string Value) :
  safeParse (schemaOf a) (fieldsOf a formData) = Zod.SafeParseSuccess data ->
  invoke a prevState formData w =
  writeThenList (statementOf a data)
    {| message := Some (databaseError (Submit a prevState formData)); error := None |}
    (listView (entityOf a)) w.
Proof. intros Hok. now rewrite invoke_run, Hok. Qed.

(** A delete is a write followed by its confirmation. *)
Lemma remove_run (e : Entity) (id : string) (w : World) :
  perform (Remove e id) w =
  writeThenConfirm (deleteStatement e id)
    {| message := Some ("Deleted " +:+ entityName e +:+ "."); error := None |}
    {| message := Some (databaseError (Remove e id)); error := None |}
    (listView e) w.
Proof. now destruct e. Qed.

Lemma deleteInvoice_run (id : string) (w : World) :
  deleteInvoice id w =
  writeThenConfirm (DELETE_FROM_invoices id)
    {| message := Some "Deleted Invoice."; error := None |}
    {| message := Some "Database Error: Failed to Delete Invoice."; error := None |}
    "/dashboard/invoices" w.
Proof. reflexivity. Qed.

Lemma deleteCustomer_run (id : string) (w : World) :
  deleteCustomer id w =
  writeThenConfirm (DELETE_FROM_customers id)
    {| message := Some "Deleted Customer."; error := None |}
    {| message := Some "Database Error: Failed to Delete Customer."; error := None |}
    "/dashboard/customers" w.
Proof. reflexivity. Qed.

(** *** What [formData.get] can return *)

Lemma get_cases (formData : FormData) (k : string) :
  get formData k = null \/ (exists s, get formData k = Str s)
  \/ (exists n, get formData k = File n).
Proof.
  induction formData as [|[k' [s | n]] rest IH]; cbn [get entryValue]; [now left | |].
  all: destruct (String.eqb k' k); eauto.
Qed.

Lemma get_absent (formData : FormData) (k : string) :
  k ∉ formData.*1 -> get formData k = null.
Proof.
  induction formData as [|[k' v] rest IH]; [reflexivity |].
  rewrite fmap_cons, not_elem_of_cons. cbn [fst get]. intros [Hne Hrest].
  destruct (String.eqb_spec k' k) as [-> | _]; [contradiction | now apply IH].
Qed.

(** *** The shapes after [omit] *)

Lemma CreateInvoice_shape :
  CreateInvoice =
  [ ("customerId", Zod.ZodString [] (Some {|
       Zod.p_message := None;
       Zod.invalid_type_error := Some "Please Select a Customer.";
       Zod.required_error := None |}));
    ("amount", Zod.ZodNumber
       [Zod.check_min (S754_zero false) false (Some "Please enter an amount greater than $0.")]
       true None);
    ("status", Zod.ZodEnum ["pending"; "paid"] (Some {|
       Zod.p_message := None;
       Zod.invalid_type_error := Some "Please select an invoice status.";
       Zod.required_error := None |})) ].
Proof. reflexivity. Qed.

Lemma CreateCustomer_shape :
  CreateCustomer =
  [ ("name", Zod.ZodString [] (Some {|
       Zod.p_message := Some "Please enter a name.";
       Zod.invalid_type_error := None;
       Zod.required_error := None |}));
    ("email", Zod.ZodString
       [Zod.check_email (Some "Please enter a valid email address.")] None);
    ("imageUrl", Zod.ZodString [] (Some {|
       Zod.p_message := Some "Please upload valid image.";
       Zod.invalid_type_error := None;
       Zod.required_error := None |})) ].
Proof. reflexivity. Qed.

Lemma invoiceFields_lookup (formData : FormData) (k : string) :
  k ∈ ["customerId"; "amount"; "status"] ->
  invoiceFields formData !! k = Some (get formData k).
Proof.
  intros Hk. unfold invoiceFields.
  repeat (apply elem_of_cons in Hk as [-> | Hk]); [| | | now apply elem_of_nil in Hk].
  all: now simplify_map_eq.
Qed.

Lemma getProp_invoiceFields (formData : FormData) (k : string) :
  k ∈ ["customerId"; "amount"; "status"] ->
  getProp (invoiceFields formData) k = get formData k.
Proof. intros Hk. unfold getProp. now rewrite invoiceFields_lookup. Qed.

Lemma customerFields_lookup (formData : FormData) (k : string) :
  k ∈ ["name"; "email"; "imageUrl"] ->
  customerFields formData !! k = Some (get formData k).
Proof.
  intros Hk. unfold customerFields.
  repeat (apply elem_of_cons in Hk as [-> | Hk]); [| | | now apply elem_of_nil in Hk].
  all: now simplify_map_eq.
Qed.

Lemma getProp_customerFields (formData : FormData) (k : string) :
  k ∈ ["name"; "email"; "imageUrl"] ->
  getProp (customerFields formData) k = get formData k.
Proof. intros Hk. unfold getProp. now rewrite customerFields_lookup. Qed.

(** *** What each kind of schema accepts *)

Abbreviation parse := (Zod._parse overrideMap emailRegex).

Lemma string_accepted checks params v p :
  Zod.issues (parse (Zod.ZodString checks params) v p) = [] ->
  exists s, v = Str s /\ Zod.value (parse (Zod.ZodString checks params) v p) = Str s.
Proof. destruct v; cbn; try discriminate. intros _. now eexists. Qed.

Lemma email_accepted msg params s p :
  Zod.issues (parse (Zod.ZodString [Zod.check_email msg] params) (Str s) p) = [] ->
  emailRegex s = true.
Proof. cbn. now destruct (emailRegex s). Qed.

Lemma number_accepted m msg params v p :
  let t := Zod.ZodNumber [Zod.check_min m false msg] true params in
  Zod.issues (parse t v p) = [] ->
  isNaN (ToNumber v) = false /\ le (ToNumber v) m = false
  /\ Zod.value (parse t v p) = Num (ToNumber v).
Proof.
  cbn. destruct (isNaN (ToNumber v)); cbn; [discriminate |].
  destruct (le (ToNumber v) m); cbn; [discriminate | auto].
Qed.

Lemma enum_accepted values params v p :
  Zod.issues (parse (Zod.ZodEnum values params) v p) = [] ->
  exists s, v = Str s /\ s ∈ values
            /\ Zod.value (parse (Zod.ZodEnum values params) v p) = Str s.
Proof.
  destruct v; cbn; try discriminate.
  destruct (bool_decide (s ∈ values)) eqn:E; cbn; [| discriminate].
  intros _. apply bool_decide_eq_true in E. eauto.
Qed.

(** *** Validated invoices and customers *)

Ltac in_shape := rewrite !elem_of_cons; auto 6.

Ltac distinct_keys :=
  repeat (constructor;
          [rewrite ?not_elem_of_cons, ?elem_of_nil; intuition discriminate |]);
  constructor.

(** What [validatedFields.data] holds for an invoice form: the customer
    reference and the status as submitted, the amount coerced. *)
Lemma invoice_validated (formData : FormData) (data : gmap string Value) :
  safeParse CreateInvoice (invoiceFields formData) = Zod.SafeParseSuccess data ->
  exists (c s : string),
    get formData "customerId" = Str c
    /\ get formData "status" = Str s /\ s ∈ ["pending"; "paid"]
    /\ isNaN (ToNumber (get formData "amount")) = false
    /\ le (ToNumber (get formData "amount")) (S754_zero false) = false
    /\ getProp data "customerId" = Str c
    /\ getProp data "amount" = Num (ToNumber (get formData "amount"))
    /\ getProp data "status" = Str s.
Proof.
  intros Hok.
  assert (Hnd : NoDup CreateInvoice.*1) by (rewrite CreateInvoice_shape; distinct_keys).
  pose proof (fun k t => ZodFacts.safeParse_data _ _ _ k t Hok Hnd) as Hkey.
  rewrite CreateInvoice_shape in Hkey.
  destruct (Hkey "customerId" _ ltac:(in_shape)) as [Hc Hcv];
    [discriminate | rewrite invoiceFields_lookup by in_shape; eauto |].
  destruct (Hkey "amount" _ ltac:(in_shape)) as [Ha Hav];
    [discriminate | rewrite invoiceFields_lookup by in_shape; eauto |].
  destruct (Hkey "status" _ ltac:(in_shape)) as [Hs Hsv];
    [discriminate | rewrite invoiceFields_lookup by in_shape; eauto |].
  clear Hkey.
  rewrite getProp_invoiceFields in Hc, Ha, Hs, Hcv, Hav, Hsv by in_shape.
  apply string_accepted in Hc as (c & Hc & Hcv').
  apply number_accepted in Ha as (Hnan & Hpos & Hav').
  apply enum_accepted in Hs as (s & Hs & Hmem & Hsv').
  exists c, s. repeat split; try assumption; congruence.
Qed.

(** For a customer form: the three fields as submitted. *)
Lemma customer_validated (formData : FormData) (data : gmap string Value) :
  safeParse CreateCustomer (customerFields formData) = Zod.SafeParseSuccess data ->
  exists (n e i : string),
    get formData "name" = Str n
    /\ get formData "email" = Str e /\ emailRegex e = true
    /\ get formData "imageUrl" = Str i
    /\ getProp data "name" = Str n
    /\ getProp data "email" = Str e
    /\ getProp data "imageUrl" = Str i.
Proof.
  intros Hok.
  assert (Hnd : NoDup CreateCustomer.*1) by (rewrite CreateCustomer_shape; distinct_keys).
  pose proof (fun k t => ZodFacts.safeParse_data _ _ _ k t Hok Hnd) as Hkey.
  rewrite CreateCustomer_shape in Hkey.
  destruct (Hkey "name" _ ltac:(in_shape)) as [Hn Hnv];
    [discriminate | rewrite customerFields_lookup by in_shape; eauto |].
  destruct (Hkey "email" _ ltac:(in_shape)) as [He Hev];
    [discriminate | rewrite customerFields_lookup by in_shape; eauto |].
  destruct (Hkey "imageUrl" _ ltac:(in_shape)) as [Hi Hiv];
    [discriminate | rewrite customerFields_lookup by in_shape; eauto |].
  clear Hkey.
  rewrite getProp_customerFields in Hn, He, Hi, Hnv, Hev, Hiv by in_shape.
  apply string_accepted in Hn as (n & Hn & Hnv').
  pose proof (string_accepted _ _ _ _ He) as (e & Hemail & Hev').
  rewrite Hemail in He. apply email_accepted in He.
  apply string_accepted in Hi as (i & Hi & Hiv').
  exists n, e, i. repeat split; try assumption; congruence.
Qed.

(** *** Traces *)

Lemma eventsOf_intro {A} (a : Action A) (w : World) (evs : list Event) :
  trace (a w).2 = (trace w ++ evs)%list -> eventsOf a w = evs.
Proof. unfold eventsOf. intros ->. apply drop_app_length. Qed.

Lemma trace_emit (ev : Event) (w : World) : trace (emit ev w) = (trace w ++ [ev])%list.
Proof. reflexivity. Qed.

Lemma database_emit (ev : Event) (w : World) : database (emit ev w) = database w.
Proof. reflexivity. Qed.

Lemma trace_written (q : Statement) (w : World) :
  trace (written q w) = (trace w ++ [Query q])%list.
Proof. reflexivity. Qed.

Lemma database_written (q : Statement) (w : World) :
  database (written q w) = execute (generatedId (database w)) q (database w).
Proof. reflexivity. Qed.

(** What a create or an update leaves behind, by what the store answers. *)
Lemma writeThenList_outcome (q : Statement) (failure : State) (view : string) (w : World) :
  let r := writeThenList q failure view w in
  match sqlFault q (database w) with
  | Some _ =>
      r.1 = Normal failure
      /\ eventsOf (writeThenList q failure view) w = [Query q]
      /\ database r.2 = database w
  | None =>
      r.1 = Throw (RedirectError view)
      /\ eventsOf (writeThenList q failure view) w
         = [Query q; RevalidatePath view; Redirect view]
      /\ database r.2 = execute (generatedId (database w)) q (database w)
  end.
Proof.
  cbv zeta. pose proof (writeThenList_run q failure view w) as Hrun.
  destruct (sqlFault q (database w)); (split; [now rewrite Hrun |]).
  all: split; [apply eventsOf_intro | ]; rewrite Hrun; cbn [snd];
    rewrite ?trace_emit, ?database_emit, ?trace_written, ?database_written,
      <- ?app_assoc; reflexivity.
Qed.

Lemma writeThenConfirm_outcome (q : Statement) (done failure : State) (view : string)
    (w : World) :
  let r := writeThenConfirm q done failure view w in
  match sqlFault q (database w) with
  | Some _ =>
      r.1 = Normal failure
      /\ eventsOf (writeThenConfirm q done failure view) w = [Query q]
      /\ database r.2 = database w
  | None =>
      r.1 = Normal done
      /\ eventsOf (writeThenConfirm q done failure view) w = [Query q; RevalidatePath view]
      /\ database r.2 = execute (generatedId (database w)) q (database w)
  end.
Proof.
  cbv zeta. pose proof (writeThenConfirm_run q done failure view w) as Hrun.
  destruct (sqlFault q (database w)); (split; [now rewrite Hrun |]).
  all: split; [apply eventsOf_intro | ]; rewrite Hrun; cbn [snd];
    rewrite ?trace_emit, ?database_emit, ?trace_written, ?database_written,
      <- ?app_assoc; reflexivity.
Qed.

Lemma eventsOf_ext {A} (a b : Action A) (w : World) :
  a w = b w -> eventsOf a w = eventsOf b w.
Proof. unfold eventsOf. now intros ->. Qed.

Lemma eventsOf_unchanged {A} (a : Action A) (w : World) (r : Completion A) :
  a w = (r, w) -> eventsOf a w = [].
Proof. intros Hrun. apply eventsOf_intro. rewrite Hrun. cbn. now rewrite app_nil_r. Qed.

(** A statement that appears in the trace and that the store rejects is the
    only thing the invocation did. *)
Lemma writeThenList_rejected (q0 : Statement) (failure : State) (view : string)
    (w : World) (q : Statement) (e : Error) :
  Query q ∈ eventsOf (writeThenList q0 failure view) w ->
  sqlFault q (database w) = Some e ->
  (writeThenList q0 failure view w).1 = Normal failure
  /\ eventsOf (writeThenList q0 failure view) w = [Query q]
  /\ database (writeThenList q0 failure view w).2 = database w.
Proof.
  intros Hq Hfault.
  pose proof (writeThenList_outcome q0 failure view w) as Hout. cbv zeta in Hout.
  destruct (sqlFault q0 (database w)) eqn:E; destruct Hout as (Hr & Hev & Hdb);
    rewrite Hev in Hq.
  - apply list_elem_of_singleton in Hq. injection Hq as ->. now rewrite Hev.
  - repeat (apply elem_of_cons in Hq as [Hq | Hq]; [try discriminate Hq |]).
    + injection Hq as ->. congruence.
    + now apply elem_of_nil in Hq.
Qed.

Lemma writeThenConfirm_rejected (q0 : Statement) (done failure : State) (view : string)
    (w : World) (q : Statement) (e : Error) :
  Query q ∈ eventsOf (writeThenConfirm q0 done failure view) w ->
  sqlFault q (database w) = Some e ->
  (writeThenConfirm q0 done failure view w).1 = Normal failure
  /\ eventsOf (writeThenConfirm q0 done failure view) w = [Query q]
  /\ database (writeThenConfirm q0 done failure view w).2 = database w.
Proof.
  intros Hq Hfault.
  pose proof (writeThenConfirm_outcome q0 done failure view w) as Hout. cbv zeta in Hout.
  destruct (sqlFault q0 (database w)) eqn:E; destruct Hout as (Hr & Hev & Hdb);
    rewrite Hev in Hq.
  - apply list_elem_of_singleton in Hq. injection Hq as ->. now rewrite Hev.
  - repeat (apply elem_of_cons in Hq as [Hq | Hq]; [try discriminate Hq |]).
    + injection Hq as ->. congruence.
    + now apply elem_of_nil in Hq.
Qed.

(** *** Numbers *)

(** For a number that is not NaN, failing [x <= 0] is being above zero. *)
Lemma above_zero (x : number) :
  isNaN x = false -> le x (S754_zero false) = false -> lt (S754_zero false) x = true.
Proof. destruct x as [[|] | [|] | | [|] m e]; cbn; congruence. Qed.

(** *** Updates in place *)

Lemma setInvoice_rows (c a s : Value) (id : string) (rows : list InvoiceRow) :
  Forall2 (fun r r' =>
             inv_id r' = inv_id r /\ date r' = date r
             /\ (inv_id r <> id -> r' = r)
             /\ (inv_id r = id -> customer_id r' = c /\ amount r' = a /\ status r' = s))
          rows (setInvoice c a s id <$> rows).
Proof.
  induction rows as [|r rows IH]; [constructor |].
  rewrite fmap_cons. constructor; [| exact IH].
  unfold setInvoice. destruct (String.eqb_spec (inv_id r) id); cbn; intuition congruence.
Qed.

Lemma setCustomer_rows (n e i : Value) (id : string) (rows : list CustomerRow) :
  Forall2 (fun r r' =>
             cus_id r' = cus_id r
             /\ (cus_id r <> id -> r' = r)
             /\ (cus_id r = id -> name r' = n /\ email r' = e /\ image_url r' = i))
          rows (setCustomer n e i id <$> rows).
Proof.
  induction rows as [|r rows IH]; [constructor |].
  rewrite fmap_cons. constructor; [| exact IH].
  unfold setCustomer. destruct (String.eqb_spec (cus_id r) id); cbn; intuition congruence.
Qed.

(** Deleting by an identifier that no row has removes nothing. *)
Lemma filter_absent {R} (key : R -> string) (id : string) (rows : list R) :
  Forall (fun r => key r <> id) rows -> filter (fun r => key r <> id) rows = rows.
Proof.
  induction 1 as [|r rows Hr _ IH]; [reflexivity |].
  now rewrite filter_cons, decide_True, IH.
Qed.

Lemma setInvoice_amount (c a s : Value) (id : string) (rows : list InvoiceRow) :
  Forall (fun r' => inv_id r' = id -> amount r' = a) (setInvoice c a s id <$> rows).
Proof.
  apply Forall_fmap, Forall_forall. intros r _. unfold compose, setInvoice.
  destruct (String.eqb_spec (inv_id r) id); cbn; [reflexivity | contradiction].
Qed.

(** *** The statement of a validated invoice form *)

Lemma stamp_isoDate : stamp = Str (isoDate clock).
Proof. apply JSFacts.toISOString_split. Qed.

Lemma invoice_statement (a : FormAction) (formData : FormData) (data : gmap string Value) :
  entityOf a = Invoice ->
  safeParse (schemaOf a) (fieldsOf a formData) = Zod.SafeParseSuccess data ->
  let cents := Num (mul (ToNumber (get formData "amount")) (of_Z 100)) in
  statementOf a data =
  match a with
  | Create _ =>
      INSERT_INTO_invoices (get formData "customerId") cents (get formData "status")
        (Str (isoDate clock))
  | Update _ id =>
      UPDATE_invoices (get formData "customerId") cents (get formData "status") id
  end.
Proof.
  intros He Hok.
  assert (Hv : safeParse CreateInvoice (invoiceFields formData) = Zod.SafeParseSuccess data)
    by (destruct a as [[|] | [|] id]; try discriminate He; exact Hok).
  apply invoice_validated in Hv as (c & s & Hc & Hs & _ & _ & _ & Hdc & Hda & Hds).
  destruct a as [[|] | [|] id]; try discriminate He; cbn [statementOf].
  all: unfold invoiceInsert, invoiceUpdate, times.
  all: rewrite Hdc, Hda, Hds, Hc, Hs, ?stamp_isoDate; reflexivity.
Qed.

Lemma customer_statement (a : FormAction) (formData : FormData) (data : gmap string Value) :
  entityOf a = Customer ->
  safeParse (schemaOf a) (fieldsOf a formData) = Zod.SafeParseSuccess data ->
  statementOf a data =
  match a with
  | Create _ =>
      INSERT_INTO_customers (get formData "name") (get formData "email")
        (get formData "imageUrl")
  | Update _ id =>
      UPDATE_customers (get formData "name") (get formData "email")
        (get formData "imageUrl") id
  end.
Proof.
  intros He Hok.
  assert (Hv : safeParse CreateCustomer (customerFields formData) = Zod.SafeParseSuccess data)
    by (destruct a as [[|] | [|] id]; try discriminate He; exact Hok).
  apply customer_validated in Hv as (n & e & i & Hn & Hem & _ & Hi & Hdn & Hde & Hdi).
  destruct a as [[|] | [|] id]; try discriminate He; cbn [statementOf].
  all: unfold customerInsert, customerUpdate.
  all: rewrite Hdn, Hde, Hdi, Hn, Hem, Hi; reflexivity.
Qed.

(** *** The stamp *)

Lemma isoDate_isYMD (d : Date) :
  (0 <= UTCFullYear d <= 9999)%Z -> (0 <= UTCMonth d <= 11)%Z -> (1 <= UTCDate d <= 31)%Z ->
  isYMD (isoDate d) (UTCFullYear d) (UTCMonth d + 1) (UTCDate d).
Proof.
  intros Hy Hm Hd.
  exists (padDigits 4 (UTCFullYear d)), (padDigits 2 (UTCMonth d + 1)),
         (padDigits 2 (UTCDate d)).
  unfold isoDate, isoYear.
  replace ((0 <=? UTCFullYear d)%Z && (UTCFullYear d <=? 9999)%Z) with true
    by (symmetry; apply andb_true_iff; split; apply Z.leb_le; lia).
  rewrite !JSFacts.length_padDigits, !JSFacts.allChars_append, !JSFacts.padDigits_digits.
  rewrite !JSFacts.digitsValue_padDigits_exact;
    [repeat split; reflexivity | ..];
    first [ change (10 ^ Z.of_nat 2)%Z with 100%Z | change (10 ^ Z.of_nat 4)%Z with 10000%Z ];
    lia.
Qed.

(** *** Failing validation *)

Lemma missingFields_text (a : FormAction) :
  missingFields a
  = "Missing Fields. Failed to " +:+ verb a +:+ " " +:+ entityName (entityOf a) +:+ ".".
Proof. now destruct a as [[|] | [|] id]. Qed.

(** A form that fails validation is answered with the messages of all its
    failing fields, and the world is not touched. *)
Lemma invoke_rejected (a : FormAction) (prevState : State) (formData : FormData) (w : World) :
  validationFails (schemaOf a) (fieldsOf a formData) ->
  exists errors : gmap string (list string),
    invoke a prevState formData w
    = (Normal {| message := Some (missingFields a); error := Some errors |}, w)
    /\ forall k : string,
         errors !! k = nonempty (fieldMessages (schemaOf a) (fieldsOf a formData) k).
Proof.
  intros Hfails. apply ZodFacts.safeParse_fails_iff in Hfails as [err Herr].
  exists (Zod.fieldErrors (Zod.flatten err)). split.
  - now apply invoke_invalid.
  - intros k. now apply ZodFacts.safeParse_fieldErrors.
Qed.

(** Without an entry for the field that names the record, that field
    reports the message written for it in the schema. *)
Lemma reference_messages (a : FormAction) (formData : FormData) :
  get formData (referenceKey (entityOf a)) = null ->
  fieldMessages (schemaOf a) (fieldsOf a formData) (referenceKey (entityOf a))
  = [referenceMessage (entityOf a)].
Proof.
  intros Hnull. unfold fieldMessages.
  destruct a as [[|] | [|] id]; cbn [schemaOf fieldsOf entityOf referenceKey] in *.
  all: change UpdateInvoice with CreateInvoice; change UpdateCustomer with CreateCustomer.
  all: erewrite ZodFacts.fieldIssues_key;
    [ | rewrite ?CreateInvoice_shape, ?CreateCustomer_shape; distinct_keys
      | first [ rewrite CreateInvoice_shape | rewrite CreateCustomer_shape ]; in_shape ].
  all: unfold parseField; cbn [fst snd].
  all: rewrite ?getProp_invoiceFields, ?getProp_customerFields by in_shape.
  all: rewrite Hnull; reflexivity.
Qed.

(** *** A rejected statement *)

Lemma perform_rejected (m : Mutation) (w : World) (q : Statement) (e : Error) :
  Query q ∈ eventsOf (perform m) w ->
  sqlFault q (database w) = Some e ->
  (perform m w).1 = Normal {| message := Some (databaseError m); error := None |}
  /\ eventsOf (perform m) w = [Query q]
  /\ database (perform m w).2 = database w.
Proof.
  intros Hq Hfault. destruct m as [a prevState formData | e0 id].
  - cbn [perform] in Hq |- *.
    destruct (safeParse (schemaOf a) (fieldsOf a formData)) as [data | err] eqn:Hp.
    + pose proof (invoke_valid a prevState formData w data Hp) as Hrun.
      rewrite (eventsOf_ext _ _ _ Hrun) in Hq |- *. rewrite Hrun.
      now apply writeThenList_rejected with (e := e).
    + pose proof (invoke_invalid a prevState formData w err Hp) as Hrun.
      rewrite (eventsOf_unchanged _ _ _ Hrun) in Hq. now apply elem_of_nil in Hq.
  - pose proof (remove_run e0 id w) as Hrun.
    rewrite (eventsOf_ext _ _ _ Hrun) in Hq |- *. rewrite Hrun.
    now apply writeThenConfirm_rejected with (e := e).
Qed.

(** The same from the input and the store alone: the statement of a valid
    form or of a delete, rejected. *)
Lemma perform_refused (m : Mutation) (w : World) (q : Statement) (e : Error) :
  match m with
  | Submit a _ formData =>
      exists data,
        safeParse (schemaOf a) (fieldsOf a formData) = Zod.SafeParseSuccess data
        /\ q = statementOf a data
  | Remove entity id => q = deleteStatement entity id
  end ->
  sqlFault q (database w) = Some e ->
  (perform m w).1 = Normal {| message := Some (databaseError m); error := None |}
  /\ eventsOf (perform m) w = [Query q]
  /\ database (perform m w).2 = database w.
Proof.
  intros Hq Hfault. destruct m as [a prevState formData | e0 id].
  - destruct Hq as (data & Hp & ->). cbn [perform].
    pose proof (invoke_valid a prevState formData w data Hp) as Hrun.
    rewrite (eventsOf_ext _ _ _ Hrun), Hrun.
    pose proof (writeThenList_outcome (statementOf a data)
                  {| message := Some (databaseError (Submit a prevState formData));
                     error := None |} (listView (entityOf a)) w) as Hout.
    cbv zeta in Hout. now rewrite Hfault in Hout.
  - subst q. pose proof (remove_run e0 id w) as Hrun.
    rewrite (eventsOf_ext _ _ _ Hrun), Hrun.
    pose proof (writeThenConfirm_outcome (deleteStatement e0 id)
                  {| message := Some ("Deleted " +:+ entityName e0 +:+ "."); error := None |}
                  {| message := Some (databaseError (Remove e0 id)); error := None |}
                  (listView e0) w) as Hout.
    cbv zeta in Hout. now rewrite Hfault in Hout.
Qed.

Lemma Forall2_same {A} (R : A -> A -> Prop) (l : list A) :
  (forall x, R x x) -> Forall2 R l l.
Proof. intros HR. induction l; constructor; auto. Qed.

End Running.

End ActionFacts.

(* ===================================================================== *)
(** ** The specification, claim by claim *)
(* ===================================================================== *)

Import ActionFacts.

Section Claims.

Context `{C : Collaborators}.

(** C1. When schema validation fails, each of [createInvoice],
    [updateInvoice], [createCustomer] and [updateCustomer] returns a state
    whose [error] maps every failing field to the list of its messages (all
    failing fields at once, the others being absent) together with the
    message "Missing Fields. Failed to Create/Update <Entity>.", and the
    world is left as it was: no statement reaches the store, no view is
    invalidated and nothing redirects. *)
Theorem validation_failure_reports_every_field
    (a : FormAction) (prevState : State) (formData : FormData) (w : World) :
  validationFails (schemaOf a) (fieldsOf a formData) ->
  exists errors : gmap string (list string),
    invoke a prevState formData w
    = (Normal {| message := Some ("Missing Fields. Failed to " +:+ verb a +:+ " "
                                    +:+ entityName (entityOf a) +:+ ".");
                 error := Some errors |},
       w)
    /\ forall k : string,
         errors !! k = nonempty (fieldMessages (schemaOf a) (fieldsOf a formData) k).
Proof.
  intros Hfails. rewrite <- missingFields_text. now apply invoke_rejected.
Qed.

(** C2, as the code has it.  For every amount that passes validation (the
    coerced number is not NaN and is above zero), [createInvoice] and
    [updateInvoice] hand the store the amount times 100, the product being
    the binary64 one and not rounded to a whole number; when the store
    accepts, that is the amount of the row written.  The input "45.00"
    gives 4500. *)
Theorem amount_is_stored_times_100
    (a : FormAction) (prevState : State) (formData : FormData) (w : World)
    (data : gmap string Value) :
  entityOf a = Invoice ->
  safeParse (schemaOf a) (fieldsOf a formData) = Zod.SafeParseSuccess data ->
  let x := ToNumber (get formData "amount") in
  let cents := Num (mul x (of_Z 100)) in
  isNaN x = false /\ lt (of_Z 0) x = true
  /\ (exists q,
        eventsOf (invoke a prevState formData) w !! 0%nat = Some (Query q)
        /\ match a with
           | Create _ =>
               (exists c s d, q = INSERT_INTO_invoices c cents s d)
               /\ (sqlFault q (database w) = None ->
                   exists r, invoices (database (invoke a prevState formData w).2)
                             = (invoices (database w) ++ [r])%list
                             /\ amount r = cents)
           | Update _ id =>
               (exists c s, q = UPDATE_invoices c cents s id)
               /\ (sqlFault q (database w) = None ->
                   Forall (fun r => inv_id r = id -> amount r = cents)
                          (invoices (database (invoke a prevState formData w).2)))
           end)
  /\ (get formData "amount" = Str "45.00" ->
      cents = Num (of_Z 4500) /\ isInteger (of_Z 4500) = true).
Proof.
  intros He Hok x cents.
  assert (Hv : safeParse CreateInvoice (invoiceFields formData) = Zod.SafeParseSuccess data)
    by (destruct a as [[|] | [|] id]; try discriminate He; exact Hok).
  apply invoice_validated in Hv as (c & s & Hc & Hs & _ & Hnan & Hpos & _).
  split; [exact Hnan |]. split; [now apply above_zero |]. split.
  - exists (statementOf a data).
    pose proof (invoke_valid a prevState formData w data Hok) as Hrun.
    rewrite (eventsOf_ext _ _ _ Hrun), Hrun.
    pose proof (writeThenList_outcome (statementOf a data)
                  {| message := Some (databaseError (Submit a prevState formData));
                     error := None |} (listView (entityOf a)) w) as Hout.
    cbv zeta in Hout.
    pose proof (invoice_statement a formData data He Hok) as Hq. cbv zeta in Hq.
    fold x in Hq. fold cents in Hq.
    split.
    + destruct (sqlFault _ _); destruct Hout as (_ & -> & _); reflexivity.
    + destruct a as [[|] | [|] id]; try discriminate He; (split; [rewrite Hq; eauto |]).
      all: intros Hacc; rewrite Hacc in Hout; destruct Hout as (_ & _ & ->).
      all: rewrite Hq; cbn [execute invoices].
      * eexists. split; reflexivity.
      * apply setInvoice_amount.
  - intros H45. subst cents x. rewrite H45. split; reflexivity.
Qed.

(** C3. For a well-formed invoice form, [createInvoice] stamps the invoice
    with the UTC date of the clock, the part of its ISO timestamp before the
    "T", which reads YYYY-MM-DD (for the years 0 to 9999, where ISO
    timestamps have four-digit years); when the store accepts the insert,
    the row written carries that date, and the invocation ends by
    invalidating the invoice list and redirecting to it: these are the last
    two events, and control leaves through the redirect. *)
Theorem createInvoice_stamps_today_and_redirects
    (prevState : State) (formData : FormData) (w : World) (data : gmap string Value) :
  safeParse CreateInvoice (invoiceFields formData) = Zod.SafeParseSuccess data ->
  exists today : string,
    let q := INSERT_INTO_invoices (get formData "customerId")
               (Num (mul (ToNumber (get formData "amount")) (of_Z 100)))
               (get formData "status") (Str today) in
    (exists time, toISOString clock = today +:+ "T" +:+ time)
    /\ allChars notT today = true
    /\ ((0 <= UTCFullYear clock <= 9999)%Z ->
        (0 <= UTCMonth clock <= 11)%Z ->
        (1 <= UTCDate clock <= 31)%Z ->
        isYMD today (UTCFullYear clock) (UTCMonth clock + 1) (UTCDate clock))
    /\ eventsOf (createInvoice prevState formData) w !! 0%nat = Some (Query q)
    /\ (sqlFault q (database w) = None ->
        (createInvoice prevState formData w).1 = Throw (RedirectError "/dashboard/invoices")
        /\ eventsOf (createInvoice prevState formData) w
           = [Query q; RevalidatePath "/dashboard/invoices"; Redirect "/dashboard/invoices"]
        /\ exists r : InvoiceRow,
             invoices (database (createInvoice prevState formData w).2)
             = (invoices (database w) ++ [r])%list
             /\ date r = Str today).
Proof.
  intros Hok.
  pose proof (invoke_valid (Create Invoice) prevState formData w data Hok) as Hrun.
  pose proof (invoice_statement (Create Invoice) formData data eq_refl Hok) as Hq.
  cbv zeta in Hq. cbn [invoke entityOf listView] in Hrun.
  exists (isoDate clock). cbv zeta.
  split; [now exists (isoTime clock +:+ "Z") |].
  split; [apply JSFacts.isoDate_notT |].
  split; [apply isoDate_isYMD |].
  rewrite (eventsOf_ext _ _ _ Hrun), Hrun, Hq.
  match goal with
  | |- context [writeThenList ?q ?f ?v] =>
      pose proof (writeThenList_outcome q f v w) as Hout
  end.
  cbv zeta in Hout. split.
  - destruct (sqlFault _ _); destruct Hout as (_ & -> & _); reflexivity.
  - intros Hacc. rewrite Hacc in Hout. destruct Hout as (Hr & Hev & Hdb).
    rewrite Hr, Hev, Hdb. repeat split. cbn [execute invoices].
    eexists. split; reflexivity.
Qed.

(** C4, as the code has it.  When the form has no entry for the customer
    reference ([customerId], for invoices) or for the name (for customers),
    validation fails for that field with the message written for it, and
    create and update return before any statement reaches the store. *)
Theorem absent_reference_is_rejected
    (a : FormAction) (prevState : State) (formData : FormData) (w : World) :
  referenceKey (entityOf a) ∉ formData.*1 ->
  exists errors : gmap string (list string),
    invoke a prevState formData w
    = (Normal {| message := Some ("Missing Fields. Failed to " +:+ verb a +:+ " "
                                    +:+ entityName (entityOf a) +:+ ".");
                 error := Some errors |},
       w)
    /\ errors !! referenceKey (entityOf a) = Some [referenceMessage (entityOf a)].
Proof.
  intros Habsent. apply get_absent in Habsent.
  pose proof (reference_messages a formData Habsent) as Hmsg.
  destruct (invoke_rejected a prevState formData w) as (errors & Hrun & Herrors).
  - exists (referenceKey (entityOf a)). now rewrite Hmsg.
  - exists errors. split; [now rewrite <- missingFields_text |].
    now rewrite Herrors, Hmsg.
Qed.

(** C5. When the store rejects the statement of a mutation, the mutation
    returns the state that carries its "Database Error" message and nothing
    else, the rejected statement is all it did (no view invalidated, no
    redirect), and the tables are as they were.  This holds for each of the
    six mutations: for a create or an update whose form passes validation,
    the statement being the insert or the update of the validated values;
    and for a delete, the statement being the delete of the identifier. *)
Theorem storage_failure_returns_database_error
    (m : Mutation) (w : World) (q : Statement) (e : Error) :
  match m with
  | Submit a _ formData =>
      exists data,
        safeParse (schemaOf a) (fieldsOf a formData) = Zod.SafeParseSuccess data
        /\ q = statementOf a data
  | Remove entity id => q = deleteStatement entity id
  end ->
  sqlFault q (database w) = Some e ->
  (perform m w).1 = Normal {| message := Some (databaseError m); error := None |}
  /\ startsWith "Database Error" (databaseError m) = true
  /\ eventsOf (perform m) w = [Query q]
  /\ database (perform m w).2 = database w.
Proof.
  intros Hq Hfault.
  destruct (perform_refused m w q e Hq Hfault) as (Hr & Hev & Hdb).
  repeat split; try assumption.
  now destruct m as [[[|] | [|] id] prevState formData | [|] id].
Qed.

(** C6, as the code has it.  The message [updateInvoice] and
    [updateCustomer] return on a validation failure is
    "Missing Fields. Failed to Update <Entity>.", the message of the
    matching create with "Update" in place of "Create"; the message they
    return when the store rejects the update is
    "Database Error: Failed to Update <Entity>.". *)
Theorem update_failure_messages
    (e : Entity) (id : string) (prevState : State) (formData : FormData) (w : World) :
  (validationFails (schemaOf (Update e id)) (fieldsOf (Update e id) formData) ->
   exists created updated : State,
     (invoke (Create e) prevState formData w).1 = Normal created
     /\ (invoke (Update e id) prevState formData w).1 = Normal updated
     /\ message updated = Some ("Missing Fields. Failed to Update " +:+ entityName e +:+ ".")
     /\ message updated = replace "Create" "Update" <$> message created)
  /\ (forall q err,
        Query q ∈ eventsOf (invoke (Update e id) prevState formData) w ->
        sqlFault q (database w) = Some err ->
        exists updated : State,
          (invoke (Update e id) prevState formData w).1 = Normal updated
          /\ message updated
             = Some ("Database Error: Failed to Update " +:+ entityName e +:+ ".")).
Proof.
  split.
  - intros Hfails.
    destruct (invoke_rejected (Update e id) prevState formData w Hfails)
      as (errors & Hrun & _).
    assert (Hfails' : validationFails (schemaOf (Create e)) (fieldsOf (Create e) formData))
      by (destruct e; exact Hfails).
    destruct (invoke_rejected (Create e) prevState formData w Hfails')
      as (errors' & Hrun' & _).
    rewrite Hrun, Hrun'. do 2 eexists. split; [reflexivity |]. split; [reflexivity |].
    now destruct e.
  - intros q err Hq Hfault.
    destruct (perform_rejected (Submit (Update e id) prevState formData) w q err Hq Hfault)
      as (Hr & _ & _).
    cbn [perform] in Hr. rewrite Hr. eexists. split; [reflexivity |]. now destruct e.
Qed.

(** C7. For a valid update form, [updateInvoice] and [updateCustomer] issue
    one statement, the update by the identifier they were given, carrying
    the validated values; when the store accepts it, every row with that
    identifier has its fields set to those values, keeps its identifier, and
    every other row, and the other table, are as they were. *)
Theorem update_sets_the_matching_rows_only
    (e : Entity) (id : string) (prevState : State) (formData : FormData) (w : World)
    (data : gmap string Value) :
  safeParse (schemaOf (Update e id)) (fieldsOf (Update e id) formData)
  = Zod.SafeParseSuccess data ->
  let after := database (invoke (Update e id) prevState formData w).2 in
  match e with
  | Invoice =>
      let c := get formData "customerId" in
      let a := Num (mul (ToNumber (get formData "amount")) (of_Z 100)) in
      let s := get formData "status" in
      queriesOf (eventsOf (invoke (Update e id) prevState formData) w)
      = [UPDATE_invoices c a s id]
      /\ (sqlFault (UPDATE_invoices c a s id) (database w) = None ->
          Forall2 (fun r r' =>
                     inv_id r' = inv_id r
                     /\ (inv_id r <> id -> r' = r)
                     /\ (inv_id r = id ->
                         customer_id r' = c /\ amount r' = a /\ status r' = s))
                  (invoices (database w)) (invoices after)
          /\ customers after = customers (database w))
  | Customer =>
      let n := get formData "name" in
      let m := get formData "email" in
      let i := get formData "imageUrl" in
      queriesOf (eventsOf (invoke (Update e id) prevState formData) w)
      = [UPDATE_customers n m i id]
      /\ (sqlFault (UPDATE_customers n m i id) (database w) = None ->
          Forall2 (fun r r' =>
                     cus_id r' = cus_id r
                     /\ (cus_id r <> id -> r' = r)
                     /\ (cus_id r = id ->
                         name r' = n /\ email r' = m /\ image_url r' = i))
                  (customers (database w)) (customers after)
          /\ invoices after = invoices (database w))
  end.
Proof.
  intros Hok after. subst after.
  pose proof (invoke_valid (Update e id) prevState formData w data Hok) as Hrun.
  rewrite (eventsOf_ext _ _ _ Hrun), Hrun.
  match goal with
  | |- context [writeThenList ?q ?f ?v] =>
      pose proof (writeThenList_outcome q f v w) as Hout
  end.
  cbv zeta in Hout.
  destruct e.
  - pose proof (invoice_statement (Update Invoice id) formData data eq_refl Hok) as Hq.
    cbv zeta in Hq. rewrite Hq in *. cbv zeta. split.
    + destruct (sqlFault _ _); destruct Hout as (_ & -> & _); reflexivity.
    + intros Hacc. rewrite Hacc in Hout. destruct Hout as (_ & _ & ->).
      cbn [execute invoices customers]. split; [| reflexivity].
      eapply Forall2_impl; [apply setInvoice_rows |]. cbn. tauto.
  - pose proof (customer_statement (Update Customer id) formData data eq_refl Hok) as Hq.
    rewrite Hq in *. cbv zeta. split.
    + destruct (sqlFault _ _); destruct Hout as (_ & -> & _); reflexivity.
    + intros Hacc. rewrite Hacc in Hout. destruct Hout as (_ & _ & ->).
      cbn [execute invoices customers]. split; [| reflexivity].
      apply setCustomer_rows.
Qed.

(** C8. For every identifier, whether or not a row has it, when the store
    accepts the delete, [deleteInvoice] and [deleteCustomer] return the
    "Deleted <Entity>." message after invalidating the list view of the
    entity, and do not redirect.  An identifier that no row has gets the
    same answer and the same events as any other, and leaves the tables as
    they were. *)
Theorem delete_confirms_whether_or_not_a_row_matched
    (e : Entity) (id : string) (w : World) :
  sqlFault (deleteStatement e id) (database w) = None ->
  let after := database (perform (Remove e id) w).2 in
  (perform (Remove e id) w).1
  = Normal {| message := Some ("Deleted " +:+ entityName e +:+ "."); error := None |}
  /\ eventsOf (perform (Remove e id)) w
     = [Query (deleteStatement e id); RevalidatePath (listView e)]
  /\ match e with
     | Invoice =>
         invoices after = filter (fun r => inv_id r <> id) (invoices (database w))
         /\ customers after = customers (database w)
         /\ (Forall (fun r => inv_id r <> id) (invoices (database w)) -> after = database w)
     | Customer =>
         customers after = filter (fun r => cus_id r <> id) (customers (database w))
         /\ invoices after = invoices (database w)
         /\ (Forall (fun r => cus_id r <> id) (customers (database w)) -> after = database w)
     end
  /\ (forall id', sqlFault (deleteStatement e id') (database w) = None ->
      (perform (Remove e id') w).1 = (perform (Remove e id) w).1).
Proof.
  intros Hacc after. subst after.
  assert (Hrun : forall i, sqlFault (deleteStatement e i) (database w) = None ->
            (perform (Remove e i) w).1
            = Normal {| message := Some ("Deleted " +:+ entityName e +:+ "."); error := None |}
            /\ eventsOf (perform (Remove e i)) w
               = [Query (deleteStatement e i); RevalidatePath (listView e)]
            /\ database (perform (Remove e i) w).2
               = execute (generatedId (database w)) (deleteStatement e i) (database w)).
  { intros i Hi. pose proof (remove_run e i w) as Hrun.
    rewrite (eventsOf_ext _ _ _ Hrun), Hrun.
    match goal with
    | |- context [writeThenConfirm ?q ?d ?f ?v] =>
        pose proof (writeThenConfirm_outcome q d f v w) as Hout
    end.
    cbv zeta in Hout. now rewrite Hi in Hout. }
  destruct (Hrun id Hacc) as (Hr & Hev & Hdb).
  split; [exact Hr |]. split; [exact Hev |]. split.
  - rewrite Hdb. destruct e; cbn [deleteStatement execute invoices customers].
    all: split; [reflexivity |]; split; [reflexivity |].
    all: intros Hnone; rewrite filter_absent by exact Hnone; now destruct (database w).
  - intros id' Hacc'. destruct (Hrun id' Hacc') as (Hr' & _ & _). now rewrite Hr, Hr'.
Qed.

(** C9. When the identity provider fails, [authenticate] returns
    "Invalid credentials." exactly when the failure is an [AuthError] of
    type [CredentialsSignin], returns "Something went wrong." for an
    [AuthError] of any other type, and throws again, unchanged, a failure
    that is not an [AuthError]. *)
Theorem authenticate_maps_provider_failures
    (prevState : option string) (formData : FormData) (w : World) (failure : Error) :
  signInFault "credentials" formData = Some failure ->
  (authenticate prevState formData w = (Normal (Some "Invalid credentials."), w)
   <-> failure = AuthError "CredentialsSignin")
  /\ (forall type, failure = AuthError type -> type <> "CredentialsSignin" ->
      authenticate prevState formData w = (Normal (Some "Something went wrong."), w))
  /\ ((forall type, failure <> AuthError type) ->
      authenticate prevState formData w = (Throw failure, w)).
Proof.
  intros Hfail.
  assert (Hrun : authenticate prevState formData w =
                 match failure with
                 | AuthError type =>
                     if String.eqb type "CredentialsSignin"
                     then (Normal (Some "Invalid credentials."), w)
                     else (Normal (Some "Something went wrong."), w)
                 | _ => (Throw failure, w)
                 end).
  { unfold authenticate, try_catch, mbind, Action_bind, signIn. rewrite Hfail.
    destruct failure as [type | url | msg]; try reflexivity.
    now destruct (String.eqb type "CredentialsSignin"). }
  rewrite Hrun. clear Hrun. repeat split.
  - destruct failure as [type | url | msg]; try discriminate.
    destruct (String.eqb_spec type "CredentialsSignin"); [congruence | discriminate].
  - now intros ->.
  - intros type -> Hne. apply String.eqb_neq in Hne. now rewrite Hne.
  - intros Hother. destruct failure as [type | url | msg]; try reflexivity.
    now destruct (Hother type).
Qed.

(** C10. [updateInvoice] never writes the issue date: whatever the form and
    whatever the store answers, every invoice row keeps the identifier and
    the date it had, and the only statement it can issue is the update that
    sets [customer_id], [amount] and [status] by identifier. *)
Theorem updateInvoice_keeps_the_issue_date
    (id : string) (prevState : State) (formData : FormData) (w : World) :
  Forall2 (fun r r' => inv_id r' = inv_id r /\ date r' = date r)
          (invoices (database w))
          (invoices (database (updateInvoice id prevState formData w).2))
  /\ (forall q, Query q ∈ eventsOf (updateInvoice id prevState formData) w ->
      exists c a s, q = UPDATE_invoices c a s id).
Proof.
  change (updateInvoice id) with (invoke (Update Invoice id)).
  destruct (safeParse (schemaOf (Update Invoice id)) (fieldsOf (Update Invoice id) formData))
    as [data | err] eqn:Hp.
  - pose proof (invoke_valid _ prevState formData w data Hp) as Hrun.
    rewrite (eventsOf_ext _ _ _ Hrun), Hrun.
    match goal with
    | |- context [writeThenList ?q ?f ?v] =>
        pose proof (writeThenList_outcome q f v w) as Hout
    end.
    cbv zeta in Hout. cbn [statementOf] in *. unfold invoiceUpdate in *.
    destruct (sqlFault _ _); destruct Hout as (_ & Hev & Hdb); rewrite Hev, Hdb; split.
    + now apply Forall2_same.
    + intros q Hq. apply list_elem_of_singleton in Hq. injection Hq as ->. eauto.
    + cbn [execute invoices].
      eapply Forall2_impl; [apply setInvoice_rows |]. cbn. tauto.
    + intros q Hq.
      repeat (apply elem_of_cons in Hq as [Hq | Hq]; [try discriminate Hq |]).
      * injection Hq as ->. eauto.
      * now apply elem_of_nil in Hq.
  - pose proof (invoke_invalid _ prevState formData w err Hp) as Hrun.
    rewrite (eventsOf_unchanged _ _ _ Hrun), Hrun. split.
    + now apply Forall2_same.
    + intros q Hq. now apply elem_of_nil in Hq.
Qed.

End Claims.

(* ===================================================================== *)
(** ** The claims on sample runs *)
(* ===================================================================== *)

Module Runs.

Import Sample.

(** Both failing fields are reported in the one answer, the passing one is
    absent, and the tables and the trace are as before. *)
Example both_failing_fields_are_reported :
  exists errors,
    createInvoice (C := accepting) initialState incomplete world
    = (Normal {| message := Some "Missing Fields. Failed to Create Invoice.";
                 error := Some errors |}, world)
    /\ errors !! "customerId" = Some ["Please Select a Customer."]
    /\ errors !! "amount" = Some ["Please enter an amount greater than $0."]
    /\ errors !! "status" = None.
Proof. eexists. split; [vm_compute; reflexivity |]. vm_compute. auto. Qed.

Lemma validation_failure_witness :
  validationFails (C := accepting) (schemaOf (Create Invoice))
                  (fieldsOf (Create Invoice) incomplete)
  /\ exists errors : gmap string (list string),
       invoke (C := accepting) (Create Invoice) initialState incomplete world
       = (Normal {| message := Some "Missing Fields. Failed to Create Invoice.";
                    error := Some errors |},
          world)
       /\ forall k : string,
            errors !! k
            = nonempty (fieldMessages (C := accepting) (schemaOf (Create Invoice))
                          (fieldsOf (Create Invoice) incomplete) k).
Proof.
  assert (Hfails : validationFails (C := accepting) (schemaOf (Create Invoice))
                     (fieldsOf (Create Invoice) incomplete))
    by (exists "amount"; vm_compute; intros E; discriminate E).
  split; [exact Hfails |].
  exact (validation_failure_reports_every_field (C := accepting)
           (Create Invoice) initialState incomplete world Hfails).
Defined.

(** The amount "1.15" passes validation and is stored as
    114.99999999999999 (8092405580431359 * 2^-46), not as 115; the amount
    "0.125" is stored as 12.5. *)
Lemma amount_in_cents_is_not_always_an_integer :
  safeParse (C := accepting) CreateInvoice (invoiceFields (invoiceForm "c1" "1.15" "paid"))
  = Zod.SafeParseSuccess
      (validInvoice (Str "c1") (Num (ToNumber (Str "1.15"))) (Str "paid"))
  /\ eventsOf (createInvoice (C := accepting) initialState (invoiceForm "c1" "1.15" "paid"))
             world !! 0%nat
     = Some (Query (INSERT_INTO_invoices (Str "c1")
                      (Num (S754_finite false 8092405580431359 (-46)))
                      (Str "paid") (Str "2026-11-03")))
  /\ isInteger (S754_finite false 8092405580431359 (-46)) = false
  /\ of_Z 115 = S754_finite false 8092405580431360 (-46)
  /\ eventsOf (updateInvoice (C := accepting) "inv-1" initialState
                 (invoiceForm "c1" "0.125" "paid")) world !! 0%nat
     = Some (Query (UPDATE_invoices (Str "c1")
                      (Num (S754_finite false 7036874417766400 (-49)))
                      (Str "paid") "inv-1"))
  /\ isInteger (S754_finite false 7036874417766400 (-49)) = false.
Proof. vm_compute. repeat split. Qed.

Lemma amount_times_100_witness :
  entityOf (Create Invoice) = Invoice
  /\ safeParse (C := accepting) (schemaOf (Create Invoice))
       (fieldsOf (Create Invoice) (invoiceForm "c1" "45.00" "paid"))
     = Zod.SafeParseSuccess (validInvoice (Str "c1") (Num (of_Z 45)) (Str "paid"))
  /\ lt (of_Z 0) (ToNumber (get (invoiceForm "c1" "45.00" "paid") "amount")) = true
  /\ Num (mul (ToNumber (get (invoiceForm "c1" "45.00" "paid") "amount")) (of_Z 100))
     = Num (of_Z 4500).
Proof.
  assert (Hok : safeParse (C := accepting) (schemaOf (Create Invoice))
                  (fieldsOf (Create Invoice) (invoiceForm "c1" "45.00" "paid"))
                = Zod.SafeParseSuccess (validInvoice (Str "c1") (Num (of_Z 45)) (Str "paid")))
    by (vm_compute; reflexivity).
  destruct (amount_is_stored_times_100 (C := accepting) (Create Invoice) initialState
              (invoiceForm "c1" "45.00" "paid") world _ eq_refl Hok)
    as (_ & Hpos & _ & H45).
  split; [reflexivity |]. split; [exact Hok |]. split; [exact Hpos |].
  exact (proj1 (H45 eq_refl)).
Defined.

Lemma createInvoice_stamp_witness :
  safeParse (C := accepting) CreateInvoice (invoiceFields (invoiceForm "c1" "45.00" "paid"))
  = Zod.SafeParseSuccess (validInvoice (Str "c1") (Num (of_Z 45)) (Str "paid"))
  /\ exists today : string,
       isYMD today 2026 11 3
       /\ eventsOf (createInvoice (C := accepting) initialState
                      (invoiceForm "c1" "45.00" "paid")) world
          = [Query (INSERT_INTO_invoices (Str "c1") (Num (of_Z 4500)) (Str "paid")
                      (Str today));
             RevalidatePath "/dashboard/invoices";
             Redirect "/dashboard/invoices"].
Proof.
  assert (Hok : safeParse (C := accepting) CreateInvoice
                  (invoiceFields (invoiceForm "c1" "45.00" "paid"))
                = Zod.SafeParseSuccess (validInvoice (Str "c1") (Num (of_Z 45)) (Str "paid")))
    by (vm_compute; reflexivity).
  destruct (createInvoice_stamps_today_and_redirects (C := accepting) initialState
              (invoiceForm "c1" "45.00" "paid") world _ Hok)
    as (today & _ & _ & Hymd & _ & Hacc).
  split; [exact Hok |].
  exists today. split.
  - apply Hymd; cbn; lia.
  - exact (proj1 (proj2 (Hacc eq_refl))).
Defined.

(** The stamp of the sample clock. *)
Example stamp_of_noon :
  stamp (C := accepting) = Str "2026-11-03"
  /\ toISOString (clock (Collaborators := accepting)) = "2026-11-03T12:00:00.000Z".
Proof. vm_compute. split; reflexivity. Qed.

(** An empty customer reference and an empty name pass validation: the
    insert is issued with the empty string and the action redirects. *)
Lemma empty_reference_is_accepted :
  fieldMessages (C := accepting) CreateInvoice
    (invoiceFields (invoiceForm "" "45.00" "paid")) "customerId" = []
  /\ createInvoice (C := accepting) initialState (invoiceForm "" "45.00" "paid") world
     = (Throw (RedirectError "/dashboard/invoices"),
        {| database :=
             {| invoices := invoices tables ++
                  [{| inv_id := "inv-0004"; customer_id := Str "";
                      amount := Num (of_Z 4500); status := Str "paid";
                      date := Str "2026-11-03" |}];
                customers := customers tables |};
           trace := [Query (INSERT_INTO_invoices (Str "") (Num (of_Z 4500)) (Str "paid")
                              (Str "2026-11-03"));
                     RevalidatePath "/dashboard/invoices";
                     Redirect "/dashboard/invoices"] |})
  /\ fieldMessages (C := accepting) CreateCustomer
       (customerFields (customerForm "" "ada@example.com" "/img/ada.png")) "name" = []
  /\ eventsOf (updateCustomer (C := accepting) "c1" initialState
                 (customerForm "" "ada@example.com" "/img/ada.png")) world
     = [Query (UPDATE_customers (Str "") (Str "ada@example.com") (Str "/img/ada.png") "c1");
        RevalidatePath "/dashboard/customers";
        Redirect "/dashboard/customers"].
Proof. vm_compute. repeat split. Qed.

Lemma absent_reference_witness :
  (referenceKey (entityOf (Update Customer "c1"))
     ∉ (customerForm_without_name "ada@example.com" "/img/ada.png").*1)
  /\ exists errors : gmap string (list string),
       updateCustomer (C := accepting) "c1" initialState
         (customerForm_without_name "ada@example.com" "/img/ada.png") world
       = (Normal {| message := Some "Missing Fields. Failed to Update Customer.";
                    error := Some errors |},
          world)
       /\ errors !! "name" = Some ["Please enter a name."].
Proof.
  assert (Habsent : referenceKey (entityOf (Update Customer "c1"))
                      ∉ (customerForm_without_name "ada@example.com" "/img/ada.png").*1)
    by (intros Hin; repeat (apply elem_of_cons in Hin as [Hin | Hin]; [discriminate Hin |]);
        now apply elem_of_nil in Hin).
  split; [exact Habsent |].
  exact (absent_reference_is_rejected (C := accepting) (Update Customer "c1") initialState
           (customerForm_without_name "ada@example.com" "/img/ada.png") world Habsent).
Defined.

Lemma storage_failure_witness :
  safeParse (C := rejecting) CreateInvoice (invoiceFields (invoiceForm "c1" "45.00" "paid"))
  = Zod.SafeParseSuccess (validInvoice (Str "c1") (Num (of_Z 45)) (Str "paid"))
  /\ sqlFault (Collaborators := rejecting)
       (INSERT_INTO_invoices (Str "c1") (Num (of_Z 4500)) (Str "paid") (Str "2026-11-03"))
       (database world)
     = Some (OtherError "connection refused")
  /\ (createInvoice (C := rejecting) initialState (invoiceForm "c1" "45.00" "paid") world).1
     = Normal {| message := Some "Database Error : Failed To Create Invoice.";
                 error := None |}
  /\ eventsOf (createInvoice (C := rejecting) initialState
                 (invoiceForm "c1" "45.00" "paid")) world
     = [Query (INSERT_INTO_invoices (Str "c1") (Num (of_Z 4500)) (Str "paid")
                 (Str "2026-11-03"))]
  /\ database (createInvoice (C := rejecting) initialState
                 (invoiceForm "c1" "45.00" "paid") world).2
     = database world
  /\ (deleteCustomer (C := rejecting) "c1" world).1
     = Normal {| message := Some "Database Error: Failed to Delete Customer.";
                 error := None |}
  /\ eventsOf (deleteCustomer (C := rejecting) "c1") world
     = [Query (DELETE_FROM_customers "c1")]
  /\ database (deleteCustomer (C := rejecting) "c1" world).2 = database world.
Proof.
  assert (Hok : safeParse (C := rejecting) CreateInvoice
                  (invoiceFields (invoiceForm "c1" "45.00" "paid"))
                = Zod.SafeParseSuccess (validInvoice (Str "c1") (Num (of_Z 45)) (Str "paid")))
    by (vm_compute; reflexivity).
  assert (Hq : INSERT_INTO_invoices (Str "c1") (Num (of_Z 4500)) (Str "paid")
                 (Str "2026-11-03")
               = statementOf (C := rejecting) (Create Invoice)
                   (validInvoice (Str "c1") (Num (of_Z 45)) (Str "paid")))
    by (vm_compute; reflexivity).
  assert (Hfault : forall q, sqlFault (Collaborators := rejecting) q (database world)
                             = Some (OtherError "connection refused"))
    by reflexivity.
  destruct (storage_failure_returns_database_error (C := rejecting)
              (Submit (Create Invoice) initialState (invoiceForm "c1" "45.00" "paid"))
              world _ _ (ex_intro _ _ (conj Hok Hq)) (Hfault _))
    as (Hr & _ & Hev & Hdb).
  destruct (storage_failure_returns_database_error (C := rejecting)
              (Remove Customer "c1") world _ _ eq_refl (Hfault _))
    as (Hr' & _ & Hev' & Hdb').
  split; [exact Hok |]. split; [exact (Hfault _) |].
  repeat (split; [assumption |]). exact Hdb'.
Defined.

(** The message of a rejected update is not the message of the rejected
    create with "Update" put for "Create": the colon and the "to" differ. *)
Lemma update_database_error_is_spelled_differently :
  (createInvoice (C := rejecting) initialState (invoiceForm "c1" "10.50" "paid") world).1
  = Normal {| message := Some "Database Error : Failed To Create Invoice."; error := None |}
  /\ (updateInvoice (C := rejecting) "inv-1" initialState
        (invoiceForm "c1" "10.50" "paid") world).1
     = Normal {| message := Some "Database Error: Failed to Update Invoice."; error := None |}
  /\ replace "Create" "Update" "Database Error : Failed To Create Invoice."
     = "Database Error : Failed To Update Invoice."
  /\ "Database Error: Failed to Update Invoice."
     <> "Database Error : Failed To Update Invoice."
  /\ (createCustomer (C := rejecting) initialState
        (customerForm "Ada" "ada@example.com" "/img/ada.png") world).1
     = Normal {| message := Some "Database Error : Failed To Create Customer."; error := None |}
  /\ (updateCustomer (C := rejecting) "c1" initialState
        (customerForm "Ada" "ada@example.com" "/img/ada.png") world).1
     = Normal {| message := Some "Database Error: Failed to Update Customer."; error := None |}.
Proof. vm_compute. repeat split. intros E. discriminate E. Qed.

Lemma update_failure_messages_witness :
  validationFails (C := accepting) (schemaOf (Update Invoice "inv-1"))
    (fieldsOf (Update Invoice "inv-1") incomplete)
  /\ Query (UPDATE_invoices (Str "c1") (Num (of_Z 1050)) (Str "paid") "inv-1")
       ∈ eventsOf (invoke (C := rejecting) (Update Invoice "inv-1") initialState
                     (invoiceForm "c1" "10.50" "paid")) world
  /\ sqlFault (Collaborators := rejecting)
       (UPDATE_invoices (Str "c1") (Num (of_Z 1050)) (Str "paid") "inv-1") (database world)
     = Some (OtherError "connection refused")
  /\ (exists created updated : State,
        (invoke (C := accepting) (Create Invoice) initialState incomplete world).1
        = Normal created
        /\ (invoke (C := accepting) (Update Invoice "inv-1") initialState incomplete world).1
           = Normal updated
        /\ message updated = Some "Missing Fields. Failed to Update Invoice."
        /\ message updated = replace "Create" "Update" <$> message created)
  /\ (exists updated : State,
        (invoke (C := rejecting) (Update Invoice "inv-1") initialState
           (invoiceForm "c1" "10.50" "paid") world).1 = Normal updated
        /\ message updated = Some "Database Error: Failed to Update Invoice.").
Proof.
  assert (Hfails : validationFails (C := accepting) (schemaOf (Update Invoice "inv-1"))
                     (fieldsOf (Update Invoice "inv-1") incomplete))
    by (exists "amount"; vm_compute; intros E; discriminate E).
  assert (Hq : Query (UPDATE_invoices (Str "c1") (Num (of_Z 1050)) (Str "paid") "inv-1")
                 ∈ eventsOf (invoke (C := rejecting) (Update Invoice "inv-1") initialState
                               (invoiceForm "c1" "10.50" "paid")) world)
    by (vm_compute; constructor).
  assert (Hfault : sqlFault (Collaborators := rejecting)
                     (UPDATE_invoices (Str "c1") (Num (of_Z 1050)) (Str "paid") "inv-1")
                     (database world) = Some (OtherError "connection refused"))
    by reflexivity.
  repeat (split; [assumption |]). split.
  - exact (proj1 (update_failure_messages (C := accepting) Invoice "inv-1" initialState
                    incomplete world) Hfails).
  - exact (proj2 (update_failure_messages (C := rejecting) Invoice "inv-1" initialState
                    (invoiceForm "c1" "10.50" "paid") world) _ _ Hq Hfault).
Defined.

(** Updating "inv-1" with the amount "10.50": that row gets 1050 and keeps
    its date, "inv-2" and the customers are as they were. *)
Example update_inv_1 :
  database (updateInvoice (C := accepting) "inv-1" initialState
              (invoiceForm "c9" "10.50" "paid") world).2
  = {| invoices := [
         {| inv_id := "inv-1"; customer_id := Str "c9"; amount := Num (of_Z 1050);
            status := Str "paid"; date := Str "2024-01-15" |};
         {| inv_id := "inv-2"; customer_id := Str "c2"; amount := Num (of_Z 990);
            status := Str "paid"; date := Str "2024-02-29" |} ];
       customers := customers tables |}.
Proof. vm_compute. reflexivity. Qed.

Lemma update_rows_witness :
  safeParse (C := accepting) (schemaOf (Update Invoice "inv-1"))
    (fieldsOf (Update Invoice "inv-1") (invoiceForm "c9" "10.50" "paid"))
  = Zod.SafeParseSuccess (validInvoice (Str "c9") (Num (ToNumber (Str "10.50"))) (Str "paid"))
  /\ queriesOf (eventsOf (invoke (C := accepting) (Update Invoice "inv-1") initialState
                            (invoiceForm "c9" "10.50" "paid")) world)
     = [UPDATE_invoices (Str "c9") (Num (of_Z 1050)) (Str "paid") "inv-1"]
  /\ customers (database (invoke (C := accepting) (Update Invoice "inv-1") initialState
                            (invoiceForm "c9" "10.50" "paid") world).2)
     = customers (database world).
Proof.
  assert (Hok : safeParse (C := accepting) (schemaOf (Update Invoice "inv-1"))
                  (fieldsOf (Update Invoice "inv-1") (invoiceForm "c9" "10.50" "paid"))
                = Zod.SafeParseSuccess
                    (validInvoice (Str "c9") (Num (ToNumber (Str "10.50"))) (Str "paid")))
    by (vm_compute; reflexivity).
  destruct (update_sets_the_matching_rows_only (C := accepting) Invoice "inv-1" initialState
              (invoiceForm "c9" "10.50" "paid") world _ Hok) as (Hq & Hrows).
  split; [exact Hok |]. split; [exact Hq |].
  exact (proj2 (Hrows eq_refl)).
Defined.

Lemma updateInvoice_date_witness :
  Query (UPDATE_invoices (Str "c9") (Num (of_Z 1050)) (Str "paid") "inv-1")
    ∈ eventsOf (updateInvoice (C := accepting) "inv-1" initialState
                  (invoiceForm "c9" "10.50" "paid")) world
  /\ Forall2 (fun r r' => inv_id r' = inv_id r /\ date r' = date r)
       (invoices (database world))
       (invoices (database (updateInvoice (C := accepting) "inv-1" initialState
                              (invoiceForm "c9" "10.50" "paid") world).2))
  /\ exists c a s,
       UPDATE_invoices (Str "c9") (Num (of_Z 1050)) (Str "paid") "inv-1"
       = UPDATE_invoices c a s "inv-1".
Proof.
  assert (Hq : Query (UPDATE_invoices (Str "c9") (Num (of_Z 1050)) (Str "paid") "inv-1")
                 ∈ eventsOf (updateInvoice (C := accepting) "inv-1" initialState
                               (invoiceForm "c9" "10.50" "paid")) world)
    by (vm_compute; constructor).
  destruct (updateInvoice_keeps_the_issue_date (C := accepting) "inv-1" initialState
              (invoiceForm "c9" "10.50" "paid") world) as (Hrows & Hstmt).
  split; [exact Hq |]. split; [exact Hrows |]. exact (Hstmt _ Hq).
Defined.

Lemma delete_unknown_witness :
  sqlFault (Collaborators := accepting) (deleteStatement Invoice "inv-404") (database world)
  = None
  /\ deleteInvoice (C := accepting) "inv-404" world
     = (Normal {| message := Some "Deleted Invoice."; error := None |},
        {| database := tables;
           trace := [Query (DELETE_FROM_invoices "inv-404");
                     RevalidatePath "/dashboard/invoices"] |})
  /\ (deleteInvoice (C := accepting) "inv-404" world).1
     = (deleteInvoice (C := accepting) "inv-1" world).1.
Proof.
  assert (Hacc : sqlFault (Collaborators := accepting) (deleteStatement Invoice "inv-404")
                   (database world) = None) by reflexivity.
  destruct (delete_confirms_whether_or_not_a_row_matched (C := accepting)
              Invoice "inv-404" world Hacc) as (_ & _ & _ & Hsame).
  split; [exact Hacc |]. split; [vm_compute; reflexivity |].
  symmetry. exact (Hsame "inv-1" eq_refl).
Defined.

Lemma authenticate_witness :
  signInFault (Collaborators := accepting) "credentials" [field "password" "guess"]
  = Some (AuthError "CredentialsSignin")
  /\ authenticate (C := accepting) None [field "password" "guess"] world
     = (Normal (Some "Invalid credentials."), world).
Proof.
  assert (Hfail : signInFault (Collaborators := accepting) "credentials"
                    [field "password" "guess"] = Some (AuthError "CredentialsSignin"))
    by reflexivity.
  split; [exact Hfail |].
  exact (proj2 (proj1 (authenticate_maps_provider_failures (C := accepting) None
                         [field "password" "guess"] world _ Hfail)) eq_refl).
Defined.

(** The other two ways the provider can fail. *)
Example authenticate_other_failures :
  authenticate (C := accepting) None [field "password" ""] world
  = (Normal (Some "Something went wrong."), world)
  /\ authenticate (C := accepting) None [] world
     = (Throw (OtherError "fetch failed"), world)
  /\ authenticate (C := accepting) None [field "password" "s3cret"] world
     = (Normal None, world).
Proof. vm_compute. repeat split. Qed.

End Runs.

(* ===================================================================== *)
(** ** Further facts: the rule of each field *)
(* ===================================================================== *)

Module FieldFacts.

Import ActionFacts.

Ltac member := rewrite !elem_of_cons; auto 6.

Ltac distinct :=
  repeat (constructor;
          [rewrite ?not_elem_of_cons, ?elem_of_nil; intuition discriminate |]);
  constructor.

(** Reduce the messages of a key of one of the two shapes to the issues of
    its schema on [formData.get(key)]. *)
Ltac field_messages :=
  unfold fieldMessages;
  erewrite ZodFacts.fieldIssues_key;
  [ | first [rewrite CreateInvoice_shape | rewrite CreateCustomer_shape]; distinct
    | first [rewrite CreateInvoice_shape | rewrite CreateCustomer_shape]; member ];
  unfold parseField; cbn [fst snd];
  rewrite ?getProp_invoiceFields, ?getProp_customerFields by member.

Section Fields.

Context `{C : Collaborators}.

Lemma lt_zero_iff (x : number) :
  lt (S754_zero false) x = true <-> isNaN x = false /\ le x (S754_zero false) = false.
Proof. destruct x as [[|] | [|] | | [|] m e]; cbn; intuition congruence. Qed.

Lemma customerId_messages (formData : FormData) :
  fieldMessages CreateInvoice (invoiceFields formData) "customerId"
  = if isString (get formData "customerId") then [] else ["Please Select a Customer."].
Proof.
  field_messages.
  destruct (get_cases formData "customerId") as [-> | [[s ->] | [n ->]]]; reflexivity.
Qed.

Lemma amount_messages (formData : FormData) :
  fieldMessages CreateInvoice (invoiceFields formData) "amount"
  = let x := ToNumber (get formData "amount") in
    if isNaN x then [overrideMap (Zod.InvalidType "number" Zod.ty_nan) (Num x) ""]
    else if le x (S754_zero false) then ["Please enter an amount greater than $0."]
    else [].
Proof.
  field_messages. cbn.
  destruct (isNaN (ToNumber (get formData "amount"))); [reflexivity |].
  destruct (le (ToNumber (get formData "amount")) (S754_zero false)); reflexivity.
Qed.

Lemma status_messages (formData : FormData) :
  fieldMessages CreateInvoice (invoiceFields formData) "status"
  = match get formData "status" with
    | Str s =>
        if bool_decide (s ∈ ["pending"; "paid"]) then []
        else [overrideMap (Zod.InvalidEnumValue (Str s) ["pending"; "paid"]) (Str s) ""]
    | _ => ["Please select an invoice status."]
    end.
Proof.
  field_messages.
  destruct (get_cases formData "status") as [-> | [[s ->] | [n ->]]]; try reflexivity.
  cbn. now destruct (bool_decide (s ∈ ["pending"; "paid"])).
Qed.

Lemma name_messages (formData : FormData) :
  fieldMessages CreateCustomer (customerFields formData) "name"
  = if isString (get formData "name") then [] else ["Please enter a name."].
Proof.
  field_messages.
  destruct (get_cases formData "name") as [-> | [[s ->] | [n ->]]]; reflexivity.
Qed.

Lemma email_messages (formData : FormData) :
  fieldMessages CreateCustomer (customerFields formData) "email"
  = match get formData "email" with
    | Str s => if emailRegex s then [] else ["Please enter a valid email address."]
    | v => [overrideMap (Zod.InvalidType "string" (Zod.getParsedType v)) v ""]
    end.
Proof.
  field_messages.
  destruct (get_cases formData "email") as [-> | [[s ->] | [n ->]]]; try reflexivity.
  cbn. now destruct (emailRegex s).
Qed.

Lemma imageUrl_messages (formData : FormData) :
  fieldMessages CreateCustomer (customerFields formData) "imageUrl"
  = if isString (get formData "imageUrl") then [] else ["Please upload valid image."].
Proof.
  field_messages.
  destruct (get_cases formData "imageUrl") as [-> | [[s ->] | [n ->]]]; reflexivity.
Qed.

(** A name that the form action does not read has no message. *)
Lemma other_messages (a : FormAction) (formData : FormData) (k : string) :
  k ∉ fieldNames (entityOf a) ->
  fieldMessages (schemaOf a) (fieldsOf a formData) k = [].
Proof.
  intros Hk. unfold fieldMessages. rewrite ZodFacts.fieldIssues_other; [reflexivity |].
  destruct a as [[|] | [|] id]; exact Hk.
Qed.

(** [safeParse] succeeds exactly when no key has a message. *)
Lemma safeParse_succeeds_iff (schema : Zod.ZodObject) (data : gmap string Value) :
  (exists d, safeParse schema data = Zod.SafeParseSuccess d)
  <-> forall k, fieldMessages schema data k = [].
Proof.
  split.
  - intros [d Hd] k. destruct (fieldMessages schema data k) eqn:E; [reflexivity |].
    assert (Hf : validationFails schema data) by (exists k; now rewrite E).
    apply ZodFacts.safeParse_fails_iff in Hf as [err Herr].
    unfold safeParse in Hd. congruence.
  - intros Hall. destruct (safeParse schema data) as [d | err] eqn:E; [now exists d |].
    assert (Hf : validationFails schema data)
      by (apply ZodFacts.safeParse_fails_iff; now exists err).
    destruct Hf as [k Hk]. now destruct (Hk (Hall k)).
Qed.

End Fields.

End FieldFacts.

Module ValidFacts.

Import ActionFacts FieldFacts.

Section Valid.

Context `{C : Collaborators}.

Lemma getProp_lookup (d : gmap string Value) (k : string) (v : Value) :
  getProp d k = v -> isUndefined v = false -> d !! k = Some v.
Proof.
  unfold getProp. destruct (d !! k) as [v' |]; cbn; [now intros -> |].
  now intros <-.
Qed.

(** Keys outside the shape are stripped from the validated object. *)
Lemma validated_stripped (schema : Zod.ZodObject) (data d : gmap string Value) (k : string) :
  safeParse schema data = Zod.SafeParseSuccess d -> k ∉ schema.*1 -> d !! k = None.
Proof.
  intros Hok Hk. apply ZodFacts.safeParse_success in Hok as [_ ->].
  unfold Zod.parseObject. now rewrite ZodFacts.parseObject_value_other.
Qed.

Lemma invoice_data (formData : FormData) (data : gmap string Value) :
  safeParse CreateInvoice (invoiceFields formData) = Zod.SafeParseSuccess data ->
  data = <["customerId" := get formData "customerId"]>
           (<["amount" := Num (ToNumber (get formData "amount"))]>
              (<["status" := get formData "status"]> ∅)).
Proof.
  intros Hok.
  pose proof (invoice_validated formData data Hok)
    as (c & s & Hc & Hs & _ & _ & _ & Hdc & Hda & Hds).
  apply getProp_lookup in Hdc, Hda, Hds; try reflexivity.
  apply map_eq. intros k. rewrite Hc, Hs.
  destruct (decide (k = "customerId")) as [-> | H1]; [now simplify_map_eq |].
  destruct (decide (k = "amount")) as [-> | H2]; [now simplify_map_eq |].
  destruct (decide (k = "status")) as [-> | H3]; [now simplify_map_eq |].
  rewrite !lookup_insert_ne, lookup_empty by congruence.
  apply (validated_stripped _ _ _ _ Hok). rewrite CreateInvoice_shape. cbn.
  rewrite !not_elem_of_cons, elem_of_nil. intuition congruence.
Qed.

Lemma customer_data (formData : FormData) (data : gmap string Value) :
  safeParse CreateCustomer (customerFields formData) = Zod.SafeParseSuccess data ->
  data = customerFields formData.
Proof.
  intros Hok.
  pose proof (customer_validated formData data Hok)
    as (n & e & i & Hn & He & _ & Hi & Hdn & Hde & Hdi).
  apply getProp_lookup in Hdn, Hde, Hdi; try reflexivity.
  apply map_eq. intros k. unfold customerFields. rewrite Hn, He, Hi.
  destruct (decide (k = "name")) as [-> | H1]; [now simplify_map_eq |].
  destruct (decide (k = "email")) as [-> | H2]; [now simplify_map_eq |].
  destruct (decide (k = "imageUrl")) as [-> | H3]; [now simplify_map_eq |].
  rewrite !lookup_insert_ne, lookup_empty by congruence.
  apply (validated_stripped _ _ _ _ Hok). rewrite CreateCustomer_shape. cbn.
  rewrite !not_elem_of_cons, elem_of_nil. intuition congruence.
Qed.

(** No message for any key: the three conditions on an invoice form. *)
Lemma invoice_accepted_iff (formData : FormData) :
  (exists data, safeParse CreateInvoice (invoiceFields formData) = Zod.SafeParseSuccess data)
  <-> isString (get formData "customerId") = true
      /\ lt (S754_zero false) (ToNumber (get formData "amount")) = true
      /\ (get formData "status" = Str "pending" \/ get formData "status" = Str "paid").
Proof.
  rewrite safeParse_succeeds_iff. split.
  - intros Hall.
    pose proof (Hall "customerId") as Hc. pose proof (Hall "amount") as Ha.
    pose proof (Hall "status") as Hs.
    rewrite customerId_messages in Hc. rewrite amount_messages in Ha.
    rewrite status_messages in Hs. cbv zeta in Ha.
    split; [now destruct (isString _) |]. split.
    + apply lt_zero_iff. destruct (isNaN _); [discriminate |].
      now destruct (le _ _).
    + destruct (get formData "status") as [| | s | x | n]; try discriminate.
      destruct (bool_decide (s ∈ ["pending"; "paid"])) eqn:E; [| discriminate].
      apply bool_decide_eq_true in E. rewrite !elem_of_cons, elem_of_nil in E.
      destruct E as [-> | [-> | []]]; auto.
  - intros (Hc & Ha & Hs) k. apply lt_zero_iff in Ha as [Hnan Hle].
    destruct (decide (k = "customerId")) as [-> | H1];
      [now rewrite customerId_messages, Hc |].
    destruct (decide (k = "amount")) as [-> | H2];
      [rewrite amount_messages; cbv zeta; now rewrite Hnan, Hle |].
    destruct (decide (k = "status")) as [-> | H3];
      [rewrite status_messages; now destruct Hs as [-> | ->] |].
    apply (other_messages (Create Invoice)). cbn.
    rewrite !not_elem_of_cons, elem_of_nil. intuition congruence.
Qed.

Lemma customer_accepted_iff (formData : FormData) :
  (exists data, safeParse CreateCustomer (customerFields formData) = Zod.SafeParseSuccess data)
  <-> isString (get formData "name") = true
      /\ (exists e, get formData "email" = Str e /\ emailRegex e = true)
      /\ isString (get formData "imageUrl") = true.
Proof.
  rewrite safeParse_succeeds_iff. split.
  - intros Hall.
    pose proof (Hall "name") as Hn. pose proof (Hall "email") as He.
    pose proof (Hall "imageUrl") as Hi.
    rewrite name_messages in Hn. rewrite email_messages in He.
    rewrite imageUrl_messages in Hi.
    split; [now destruct (isString (get formData "name")) |].
    split; [| now destruct (isString (get formData "imageUrl"))].
    destruct (get formData "email") as [| | s | x | n]; try discriminate.
    exists s. split; [reflexivity |]. now destruct (emailRegex s).
  - intros (Hn & (e & He & Hre) & Hi) k.
    destruct (decide (k = "name")) as [-> | H1]; [now rewrite name_messages, Hn |].
    destruct (decide (k = "email")) as [-> | H2]; [now rewrite email_messages, He, Hre |].
    destruct (decide (k = "imageUrl")) as [-> | H3]; [now rewrite imageUrl_messages, Hi |].
    apply (other_messages (Create Customer)). cbn.
    rewrite !not_elem_of_cons, elem_of_nil. intuition congruence.
Qed.

End Valid.

End ValidFacts.

Module OutcomeFacts.

Import ActionFacts.

Section Outcomes.

Context `{C : Collaborators}.

(** The four ways a mutation can go. *)
Lemma perform_cases (m : Mutation) (w : World) :
  (exists a p f err,
      m = Submit a p f
      /\ safeParse (schemaOf a) (fieldsOf a f) = Zod.SafeParseError err
      /\ perform m w
         = (Normal {| message := Some (missingFields a);
                      error := Some (Zod.fieldErrors (Zod.flatten err)) |}, w))
  \/ (exists q e,
         sqlFault q (database w) = Some e
         /\ perform m w
            = (Normal {| message := Some (databaseError m); error := None |},
               emit (Query q) w))
  \/ (exists a p f data,
         m = Submit a p f
         /\ safeParse (schemaOf a) (fieldsOf a f) = Zod.SafeParseSuccess data
         /\ sqlFault (statementOf a data) (database w) = None
         /\ perform m w
            = (Throw (RedirectError (listView (entityOf a))),
               emit (Redirect (listView (entityOf a)))
                 (emit (RevalidatePath (listView (entityOf a)))
                    (written (statementOf a data) w))))
  \/ (exists e id,
         m = Remove e id
         /\ sqlFault (deleteStatement e id) (database w) = None
         /\ perform m w
            = (Normal {| message := Some ("Deleted " +:+ entityName e +:+ ".");
                         error := None |},
               emit (RevalidatePath (listView e)) (written (deleteStatement e id) w))).
Proof.
  destruct m as [a p f | e id].
  - cbn [perform]. rewrite invoke_run.
    destruct (safeParse (schemaOf a) (fieldsOf a f)) as [data | err] eqn:Hp.
    + rewrite writeThenList_run.
      destruct (sqlFault (statementOf a data) (database w)) as [e |] eqn:Hs.
      * right; left. now exists (statementOf a data), e.
      * right; right; left. now exists a, p, f, data.
    + left. now exists a, p, f, err.
  - rewrite remove_run, writeThenConfirm_run.
    destruct (sqlFault (deleteStatement e id) (database w)) as [e' |] eqn:Hs.
    + right; left. now exists (deleteStatement e id), e'.
    + right; right; right. now exists e, id.
Qed.

(** *** Rows *)

Lemma setInvoice_again (c a s c' a' s' : Value) (id : string) (r : InvoiceRow) :
  setInvoice c a s id (setInvoice c' a' s' id r) = setInvoice c a s id r.
Proof.
  unfold setInvoice. destruct (String.eqb (inv_id r) id) eqn:E; cbn; now rewrite E.
Qed.

Lemma setCustomer_again (n e i n' e' i' : Value) (id : string) (r : CustomerRow) :
  setCustomer n e i id (setCustomer n' e' i' id r) = setCustomer n e i id r.
Proof.
  unfold setCustomer. destruct (String.eqb (cus_id r) id) eqn:E; cbn; now rewrite E.
Qed.

Lemma setInvoice_absent (c a s : Value) (id : string) (rows : list InvoiceRow) :
  Forall (fun r => inv_id r <> id) rows -> setInvoice c a s id <$> rows = rows.
Proof.
  induction 1 as [|r rows Hr _ IH]; [reflexivity |].
  rewrite fmap_cons, IH. unfold setInvoice.
  apply String.eqb_neq in Hr. now rewrite Hr.
Qed.

Lemma setCustomer_absent (n e i : Value) (id : string) (rows : list CustomerRow) :
  Forall (fun r => cus_id r <> id) rows -> setCustomer n e i id <$> rows = rows.
Proof.
  induction 1 as [|r rows Hr _ IH]; [reflexivity |].
  rewrite fmap_cons, IH. unfold setCustomer.
  apply String.eqb_neq in Hr. now rewrite Hr.
Qed.

Lemma filter_gone {R} (key : R -> string) (id : string) (rows : list R) :
  Forall (fun r => key r <> id) (filter (fun r => key r <> id) rows).
Proof.
  induction rows as [|r rows IH]; [constructor |].
  rewrite filter_cons. destruct (decide (key r <> id)); [constructor |]; assumption.
Qed.

Lemma filter_appended {R} (key : R -> string) (id : string) (rows : list R) (r : R) :
  Forall (fun r => key r <> id) rows -> key r = id ->
  filter (fun r => key r <> id) (rows ++ [r])%list = rows.
Proof.
  intros Hrows Hr. rewrite filter_app, filter_absent by exact Hrows.
  rewrite filter_cons, decide_False by (intros H; now apply H).
  apply app_nil_r.
Qed.

Lemma database_eta (d : Database) :
  {| invoices := invoices d; customers := customers d |} = d.
Proof. now destruct d. Qed.

End Outcomes.

End OutcomeFacts.

Module ShapeFacts.

Import ActionFacts FieldFacts ValidFacts OutcomeFacts.

Section Shape.

Context `{C : Collaborators}.

Lemma flatten_formErrors (acc : Zod.FlattenedError) (err : list Zod.ZodIssue) :
  Forall (fun i => Zod.path i <> []) err ->
  Zod.formErrors (foldl Zod.flattenStep acc err) = Zod.formErrors acc.
Proof.
  intros Hall. revert acc. induction Hall as [|i err Hi _ IH]; intros acc; [reflexivity |].
  cbn [foldl]. rewrite IH. unfold Zod.flattenStep.
  destruct (Zod.path i); [contradiction | reflexivity].
Qed.

(** The issues of an object schema all sit under a key. *)
Lemma safeParse_error_paths (schema : Zod.ZodObject) data err :
  safeParse schema data = Zod.SafeParseError err ->
  Forall (fun i => Zod.path i <> []) err.
Proof.
  intros Herr. apply ZodFacts.safeParse_error in Herr as [-> _].
  apply Forall_bind, Forall_forall. intros kv _. unfold compose, parseField.
  eapply Forall_impl; [apply ZodFacts.parse_path |]. cbn. now intros i ->.
Qed.

(** Every field of the two forms reports one message at most. *)
Lemma field_messages_short (a : FormAction) (formData : FormData) (k : string) :
  (length (fieldMessages (schemaOf a) (fieldsOf a formData) k) <= 1)%nat
  /\ (fieldMessages (schemaOf a) (fieldsOf a formData) k <> [] ->
      k ∈ fieldNames (entityOf a)).
Proof.
  destruct (decide (k ∈ fieldNames (entityOf a))) as [Hin | Hout].
  - split; [| auto].
    assert (Hs : (schemaOf a = CreateInvoice /\ fieldsOf a = invoiceFields
                  /\ entityOf a = Invoice)
                 \/ (schemaOf a = CreateCustomer /\ fieldsOf a = customerFields
                     /\ entityOf a = Customer))
      by (destruct a as [[|] | [|] id]; auto).
    destruct Hs as [(-> & -> & He) | (-> & -> & He)]; rewrite He in Hin; cbn in Hin;
      repeat (apply elem_of_cons in Hin as [-> | Hin]); try (now apply elem_of_nil in Hin).
    + rewrite customerId_messages. destruct (isString _); cbn; lia.
    + rewrite amount_messages. cbv zeta.
      destruct (isNaN _); [cbn; lia |]. destruct (le _ _); cbn; lia.
    + rewrite status_messages. destruct (get formData "status"); cbn; try lia.
      destruct (bool_decide _); cbn; lia.
    + rewrite name_messages. destruct (isString _); cbn; lia.
    + rewrite email_messages. destruct (get formData "email"); cbn; try lia.
      destruct (emailRegex _); cbn; lia.
    + rewrite imageUrl_messages. destruct (isString _); cbn; lia.
  - rewrite other_messages by exact Hout. split; [cbn; lia | congruence].
Qed.

(** *** Rows that pass the schemas *)

Lemma Forall_filter_keep {R} (P : R -> Prop) (Q : R -> Prop) `{!forall r, Decision (Q r)}
    (rows : list R) :
  Forall P rows -> Forall P (filter Q rows).
Proof.
  induction 1 as [|r rows Hr _ IH]; [constructor |].
  rewrite filter_cons. destruct (decide (Q r)); [constructor |]; assumption.
Qed.

Lemma setInvoice_ok (c a s : Value) (id : string) (rows : list InvoiceRow) :
  isString c = true -> (exists x, a = Num x) -> (s = Str "pending" \/ s = Str "paid") ->
  Forall invoiceRowOk rows -> Forall invoiceRowOk (setInvoice c a s id <$> rows).
Proof.
  intros Hc Ha Hs Hall. apply Forall_fmap. eapply Forall_impl; [exact Hall |].
  intros r Hr. unfold compose, setInvoice.
  destruct (String.eqb (inv_id r) id); [| exact Hr].
  destruct Hr as (_ & _ & _ & Hd). unfold invoiceRowOk. cbn. auto.
Qed.

Lemma setCustomer_ok (n e i : Value) (id : string) (rows : list CustomerRow) :
  isString n = true -> (exists s, e = Str s /\ emailRegex s = true) -> isString i = true ->
  Forall customerRowOk rows -> Forall customerRowOk (setCustomer n e i id <$> rows).
Proof.
  intros Hn He Hi Hall. apply Forall_fmap. eapply Forall_impl; [exact Hall |].
  intros r Hr. unfold compose, setCustomer.
  destruct (String.eqb (cus_id r) id); [| exact Hr].
  unfold customerRowOk. cbn. auto.
Qed.

(** Rows that already hold the values are not changed by setting them. *)
Lemma setCustomer_same (n e i : Value) (id : string) (rows : list CustomerRow) :
  Forall (fun r => cus_id r = id -> name r = n /\ email r = e /\ image_url r = i) rows ->
  setCustomer n e i id <$> rows = rows.
Proof.
  induction 1 as [|r rows Hr _ IH]; [reflexivity |].
  rewrite fmap_cons, IH. f_equal. unfold setCustomer.
  destruct (String.eqb_spec (cus_id r) id) as [E | _]; [| reflexivity].
  destruct (Hr E) as (<- & <- & <-). now destruct r.
Qed.

End Shape.

End ShapeFacts.

(* ===================================================================== *)
(** ** Further properties of the actions *)
(* ===================================================================== *)

Import ActionFacts FieldFacts.

Section FieldRules.

Context `{C : Collaborators}.

(** X1. The amount of an invoice form is coerced with [Number] and must be
    above zero: a missing or empty amount coerces to 0 and gets the message
    written in the schema, like every amount that is zero or negative; what
    does not read as a number gets the one message of the global error map.
    In each of these cases create and update return the error for [amount]
    and leave the world as it was. *)
Theorem amount_rule
    (a : FormAction) (prevState : State) (formData : FormData) (w : World) :
  entityOf a = Invoice ->
  let x := ToNumber (get formData "amount") in
  let messages := fieldMessages (schemaOf a) (fieldsOf a formData) "amount" in
  messages
  = (if isNaN x then [overrideMap (Zod.InvalidType "number" Zod.ty_nan) (Num x) ""]
     else if le x (of_Z 0) then ["Please enter an amount greater than $0."]
     else [])
  /\ (get formData "amount" = null \/ get formData "amount" = Str "" ->
      messages = ["Please enter an amount greater than $0."])
  /\ (lt (of_Z 0) x = false ->
      exists errors msg,
        invoke a prevState formData w
        = (Normal {| message := Some (missingFields a); error := Some errors |}, w)
        /\ errors !! "amount" = Some [msg]).
Proof.
  intros He x messages.
  assert (Hm : messages
               = (if isNaN x then [overrideMap (Zod.InvalidType "number" Zod.ty_nan) (Num x) ""]
                  else if le x (of_Z 0) then ["Please enter an amount greater than $0."]
                  else []))
    by (subst messages x; destruct a as [[|] | [|] id]; try discriminate He;
        apply amount_messages).
  split; [exact Hm |]. split.
  - rewrite Hm. subst x. now intros [-> | ->].
  - intros Hlt.
    assert (Hne : exists msg, messages = [msg]).
    { rewrite Hm. destruct (isNaN x) eqn:Hnan; [eauto |].
      destruct (le x (of_Z 0)) eqn:Hle; [eauto |].
      assert (lt (S754_zero false) x = true) by now apply lt_zero_iff.
      change (of_Z 0) with (S754_zero false) in Hlt. congruence. }
    destruct Hne as [msg Hmsg].
    destruct (invoke_rejected a prevState formData w) as (errors & Hrun & Herr).
    + exists "amount". fold messages. now rewrite Hmsg.
    + exists errors, msg. split; [exact Hrun |].
      rewrite Herr. fold messages. now rewrite Hmsg.
Qed.

(** X2. The status of an invoice form must be the string "pending" or the
    string "paid", spelled so: without a status the message written in the
    schema is reported, any other string gets the one message of the global
    error map for a value outside the enumeration, and create and update
    return the error for [status] without writing. *)
Theorem status_rule
    (a : FormAction) (prevState : State) (formData : FormData) (w : World) :
  entityOf a = Invoice ->
  let status := get formData "status" in
  let messages := fieldMessages (schemaOf a) (fieldsOf a formData) "status" in
  (messages = [] <-> status = Str "pending" \/ status = Str "paid")
  /\ (isString status = false -> messages = ["Please select an invoice status."])
  /\ (forall s, status = Str s -> s <> "pending" -> s <> "paid" ->
      messages = [overrideMap (Zod.InvalidEnumValue (Str s) ["pending"; "paid"]) (Str s) ""])
  /\ (status <> Str "pending" -> status <> Str "paid" ->
      exists errors msg,
        invoke a prevState formData w
        = (Normal {| message := Some (missingFields a); error := Some errors |}, w)
        /\ errors !! "status" = Some [msg]).
Proof.
  intros He status messages.
  assert (Hm : messages
               = match status with
                 | Str s =>
                     if bool_decide (s ∈ ["pending"; "paid"]) then []
                     else [overrideMap (Zod.InvalidEnumValue (Str s) ["pending"; "paid"])
                             (Str s) ""]
                 | _ => ["Please select an invoice status."]
                 end)
    by (subst messages status; destruct a as [[|] | [|] id]; try discriminate He;
        apply status_messages).
  assert (Hin : forall s, s ∈ ["pending"; "paid"] <-> s = "pending" \/ s = "paid")
    by (intros s; rewrite !elem_of_cons, elem_of_nil; tauto).
  assert (Hone : status <> Str "pending" -> status <> Str "paid" -> exists msg, messages = [msg]).
  { intros H1 H2. rewrite Hm. destruct status as [| | s | x | n]; eauto.
    destruct (bool_decide (s ∈ ["pending"; "paid"])) eqn:E; [| eauto].
    apply bool_decide_eq_true, Hin in E. destruct E as [-> | ->]; contradiction. }
  repeat split.
  - rewrite Hm. destruct status as [| | s | x | n]; try discriminate.
    destruct (bool_decide (s ∈ ["pending"; "paid"])) eqn:E; [| discriminate].
    intros _. apply bool_decide_eq_true, Hin in E. destruct E as [-> | ->]; auto.
  - rewrite Hm. now intros [-> | ->].
  - rewrite Hm. now destruct status.
  - intros s Hs H1 H2. rewrite Hm, Hs.
    rewrite bool_decide_eq_false_2; [reflexivity |]. rewrite Hin. tauto.
  - intros H1 H2. destruct (Hone H1 H2) as [msg Hmsg].
    destruct (invoke_rejected a prevState formData w) as (errors & Hrun & Herr).
    + exists "status". fold messages. now rewrite Hmsg.
    + exists errors, msg. split; [exact Hrun |].
      rewrite Herr. fold messages. now rewrite Hmsg.
Qed.

(** X3. In a customer form the name and the image reference may be any
    string, the empty one included; only a missing entry or a file is
    answered with the message written for the field.  The email must be a
    string that matches the pattern, else "Please enter a valid email
    address." is reported and create and update return without writing. *)
Theorem customer_field_rules
    (a : FormAction) (prevState : State) (formData : FormData) (w : World) :
  entityOf a = Customer ->
  let messages := fieldMessages (schemaOf a) (fieldsOf a formData) in
  messages "name"
  = (if isString (get formData "name") then [] else ["Please enter a name."])
  /\ messages "imageUrl"
     = (if isString (get formData "imageUrl") then [] else ["Please upload valid image."])
  /\ (forall s, get formData "email" = Str s ->
      messages "email"
      = if emailRegex s then [] else ["Please enter a valid email address."])
  /\ (forall s, get formData "email" = Str s -> emailRegex s = false ->
      exists errors,
        invoke a prevState formData w
        = (Normal {| message := Some (missingFields a); error := Some errors |}, w)
        /\ errors !! "email" = Some ["Please enter a valid email address."]).
Proof.
  intros He messages.
  assert (Hs : schemaOf a = CreateCustomer /\ fieldsOf a = customerFields)
    by (destruct a as [[|] | [|] id]; try discriminate He; split; reflexivity).
  destruct Hs as [Hs Hf]. subst messages. rewrite Hs, Hf.
  split; [apply name_messages |]. split; [apply imageUrl_messages |].
  assert (Hemail : forall s, get formData "email" = Str s ->
            fieldMessages CreateCustomer (customerFields formData) "email"
            = if emailRegex s then [] else ["Please enter a valid email address."])
    by (intros s Hget; now rewrite email_messages, Hget).
  split; [exact Hemail |].
  intros s Hget Hbad. specialize (Hemail s Hget). rewrite Hbad in Hemail.
  destruct (invoke_rejected a prevState formData w) as (errors & Hrun & Herr).
  - exists "email". now rewrite Hs, Hf, Hemail.
  - exists errors. split; [exact Hrun |]. now rewrite Herr, Hs, Hf, Hemail.
Qed.

End FieldRules.

Import ValidFacts OutcomeFacts.

Section Forms.

Context `{C : Collaborators}.

(** X4. An invoice form passes validation exactly when its customer
    reference is a string, its amount coerces to a number above zero and its
    status is "pending" or "paid"; the validated object then has these three
    keys and no other, the amount as a number and the two others as
    submitted. *)
Theorem invoice_form_accepted_iff (a : FormAction) (formData : FormData) :
  entityOf a = Invoice ->
  ((exists data, safeParse (schemaOf a) (fieldsOf a formData) = Zod.SafeParseSuccess data)
   <-> isString (get formData "customerId") = true
       /\ lt (of_Z 0) (ToNumber (get formData "amount")) = true
       /\ (get formData "status" = Str "pending" \/ get formData "status" = Str "paid"))
  /\ forall data,
       safeParse (schemaOf a) (fieldsOf a formData) = Zod.SafeParseSuccess data ->
       data = <["customerId" := get formData "customerId"]>
                (<["amount" := Num (ToNumber (get formData "amount"))]>
                   (<["status" := get formData "status"]> ∅)).
Proof.
  intros He.
  assert (Hs : schemaOf a = CreateInvoice /\ fieldsOf a = invoiceFields)
    by (destruct a as [[|] | [|] id]; try discriminate He; split; reflexivity).
  destruct Hs as [-> ->]. split; [apply invoice_accepted_iff | apply invoice_data].
Qed.

(** X5. A customer form passes validation exactly when its name and image
    reference are strings and its email is a string that matches the
    pattern; the validated object is then the submitted fields as they
    are. *)
Theorem customer_form_accepted_iff (a : FormAction) (formData : FormData) :
  entityOf a = Customer ->
  ((exists data, safeParse (schemaOf a) (fieldsOf a formData) = Zod.SafeParseSuccess data)
   <-> isString (get formData "name") = true
       /\ (exists e, get formData "email" = Str e /\ emailRegex e = true)
       /\ isString (get formData "imageUrl") = true)
  /\ forall data,
       safeParse (schemaOf a) (fieldsOf a formData) = Zod.SafeParseSuccess data ->
       data = customerFields formData.
Proof.
  intros He.
  assert (Hs : schemaOf a = CreateCustomer /\ fieldsOf a = customerFields)
    by (destruct a as [[|] | [|] id]; try discriminate He; split; reflexivity).
  destruct Hs as [-> ->]. split; [apply customer_accepted_iff | apply customer_data].
Qed.

(** X6. A form action reads three things and nothing else: what
    [formData.get] returns for its three field names.  The previous state,
    entries under other names, and entries that repeat a name after its
    first occurrence do not change what it returns or does. *)
Theorem form_actions_read_their_fields_only
    (a : FormAction) (prevState prevState' : State) (formData formData' : FormData)
    (w : World) :
  (forall k, k ∈ fieldNames (entityOf a) -> get formData k = get formData' k) ->
  invoke a prevState formData w = invoke a prevState' formData' w.
Proof.
  intros Hget.
  assert (Hf : fieldsOf a formData = fieldsOf a formData').
  { destruct a as [[|] | [|] id]; cbn [fieldsOf entityOf fieldNames] in *.
    all: unfold invoiceFields, customerFields.
    all: rewrite !Hget by (rewrite !elem_of_cons; auto 6); reflexivity. }
  rewrite !invoke_run, Hf. destruct (safeParse _ _); [| reflexivity].
  now destruct a as [[|] | [|] id].
Qed.

(** X7. Every invocation of a form action ends in one of three ways: the
    form fails validation and the error state is returned with the world
    untouched; the store rejects the one statement and the "Database Error"
    state is returned with the tables untouched; or the store carries the
    statement out, the list view of the entity is invalidated and the
    invocation leaves through the redirect to it. *)
Theorem form_action_ends_in_one_of_three_ways
    (a : FormAction) (prevState : State) (formData : FormData) (w : World) :
  let r := invoke a prevState formData w in
  let evs := eventsOf (invoke a prevState formData) w in
  let view := listView (entityOf a) in
  (validationFails (schemaOf a) (fieldsOf a formData)
   /\ exists errors,
        r = (Normal {| message := Some (missingFields a); error := Some errors |}, w))
  \/ (exists q e,
         sqlFault q (database w) = Some e
         /\ r.1 = Normal {| message := Some (databaseError (Submit a prevState formData));
                            error := None |}
         /\ evs = [Query q]
         /\ database r.2 = database w)
  \/ (exists q,
         sqlFault q (database w) = None
         /\ r.1 = Throw (RedirectError view)
         /\ evs = [Query q; RevalidatePath view; Redirect view]
         /\ database r.2 = execute (generatedId (database w)) q (database w)).
Proof.
  cbv zeta.
  destruct (perform_cases (Submit a prevState formData) w)
    as [(a' & p & f & err & [= <- <- <-] & Hp & Hrun)
       | [(q & e & Hs & Hrun)
         | [(a' & p & f & data & [= <- <- <-] & Hp & Hs & Hrun)
           | (e & id & Hm & _)]]];
    [| | | discriminate Hm]; cbn [perform] in Hrun.
  - left. split; [apply ZodFacts.safeParse_fails_iff; now exists err | eauto].
  - right; left. exists q, e. rewrite Hrun. repeat split; [exact Hs |].
    apply eventsOf_intro. now rewrite Hrun.
  - right; right. exists (statementOf a data). rewrite Hrun. repeat split; [exact Hs |].
    apply eventsOf_intro. rewrite Hrun. cbn [snd].
    now rewrite !trace_emit, trace_written, <- !app_assoc.
Qed.

(** X8. An accepted create adds exactly one row, at the end of the table of
    its entity: it has the identifier the store generated and the submitted
    values (the amount times 100 and the date of the clock, for an invoice);
    the rows that were there and the other table are as they were. *)
Theorem create_appends_one_row
    (e : Entity) (prevState : State) (formData : FormData) (w : World)
    (data : gmap string Value) :
  safeParse (schemaOf (Create e)) (fieldsOf (Create e) formData)
  = Zod.SafeParseSuccess data ->
  sqlFault (statementOf (Create e) data) (database w) = None ->
  let after := database (invoke (Create e) prevState formData w).2 in
  match e with
  | Invoice =>
      invoices after
      = (invoices (database w) ++
         [{| inv_id := generatedId (database w);
             customer_id := get formData "customerId";
             amount := Num (mul (ToNumber (get formData "amount")) (of_Z 100));
             status := get formData "status";
             date := Str (isoDate clock) |}])%list
      /\ customers after = customers (database w)
  | Customer =>
      customers after
      = (customers (database w) ++
         [{| cus_id := generatedId (database w);
             name := get formData "name";
             email := get formData "email";
             image_url := get formData "imageUrl" |}])%list
      /\ invoices after = invoices (database w)
  end.
Proof.
  intros Hok Hacc after. subst after.
  rewrite (invoke_valid _ prevState formData w data Hok), writeThenList_run, Hacc.
  cbn [snd]. rewrite !database_emit, database_written.
  destruct e.
  - rewrite (invoice_statement (Create Invoice) formData data eq_refl Hok).
    split; reflexivity.
  - rewrite (customer_statement (Create Customer) formData data eq_refl Hok).
    split; reflexivity.
Qed.

End Forms.

Section Mutations.

Context `{C : Collaborators}.

(** X9. What a mutation adds to the trace: the earlier events are kept, at
    most one statement is issued, a view is invalidated only right after a
    statement that the store accepted, a redirect only right after that
    invalidation and as the last event, and the tables differ afterwards
    only if a statement was accepted. *)
Theorem mutation_events (m : Mutation) (w : World) :
  let evs := eventsOf (perform m) w in
  trace (perform m w).2 = (trace w ++ evs)%list
  /\ (length (queriesOf evs) <= 1)%nat
  /\ (forall p, RevalidatePath p ∈ evs ->
      exists q, evs !! 0%nat = Some (Query q) /\ sqlFault q (database w) = None
                /\ evs !! 1%nat = Some (RevalidatePath p))
  /\ (forall u, Redirect u ∈ evs ->
      evs !! 1%nat = Some (RevalidatePath u) /\ last evs = Some (Redirect u)
      /\ (perform m w).1 = Throw (RedirectError u))
  /\ (database (perform m w).2 <> database w ->
      exists q, evs !! 0%nat = Some (Query q) /\ sqlFault q (database w) = None).
Proof.
  cbv zeta.
  assert (Hev : forall r w' l, perform m w = (r, w') -> trace w' = (trace w ++ l)%list ->
                eventsOf (perform m) w = l)
    by (intros r w' l Hrun Htr; apply eventsOf_intro; now rewrite Hrun).
  destruct (perform_cases m w)
    as [(a & prev & f & err & _ & _ & Hrun)
       | [(q & e & Hs & Hrun)
         | [(a & prev & f & data & _ & _ & Hs & Hrun)
           | (e & id & _ & Hs & Hrun)]]].
  - rewrite (Hev _ _ [] Hrun) by now rewrite app_nil_r.
    rewrite Hrun. cbn [fst snd]. rewrite app_nil_r.
    split; [reflexivity |]. split; [cbn; lia |].
    split; [intros p0 Hin; now apply elem_of_nil in Hin |].
    split; [intros u0 Hin; now apply elem_of_nil in Hin |].
    intros Hne. now destruct Hne.
  - rewrite (Hev _ _ [Query q] Hrun) by reflexivity.
    rewrite Hrun. cbn [fst snd].
    split; [reflexivity |]. split; [cbn; lia |].
    split; [intros p0 Hin; apply list_elem_of_singleton in Hin; discriminate Hin |].
    split; [intros u0 Hin; apply list_elem_of_singleton in Hin; discriminate Hin |].
    intros Hne. now destruct Hne.
  - set (v := listView (entityOf a)) in *. set (q := statementOf a data) in *.
    assert (Htr : trace (emit (Redirect v) (emit (RevalidatePath v) (written q w)))
                  = (trace w ++ [Query q; RevalidatePath v; Redirect v])%list)
      by now rewrite !trace_emit, trace_written, <- !app_assoc.
    rewrite (Hev _ _ _ Hrun Htr). rewrite Hrun. cbn [fst snd].
    split; [exact Htr |]. split; [cbn; lia |]. split; [| split].
    + intros p0 Hin. exists q.
      repeat (apply elem_of_cons in Hin as [Hin | Hin]; [try discriminate Hin |]).
      * injection Hin as ->. auto.
      * now apply elem_of_nil in Hin.
    + intros u0 Hin.
      repeat (apply elem_of_cons in Hin as [Hin | Hin]; [try discriminate Hin |]).
      * injection Hin as ->. auto.
      * now apply elem_of_nil in Hin.
    + intros _. exists q. auto.
  - set (v := listView e) in *. set (q := deleteStatement e id) in *.
    assert (Htr : trace (emit (RevalidatePath v) (written q w))
                  = (trace w ++ [Query q; RevalidatePath v])%list)
      by now rewrite !trace_emit, trace_written, <- !app_assoc.
    rewrite (Hev _ _ _ Hrun Htr). rewrite Hrun. cbn [fst snd].
    split; [exact Htr |]. split; [cbn; lia |]. split; [| split].
    + intros p0 Hin. exists q.
      repeat (apply elem_of_cons in Hin as [Hin | Hin]; [try discriminate Hin |]).
      * injection Hin as ->. auto.
      * now apply elem_of_nil in Hin.
    + intros u0 Hin.
      repeat (apply elem_of_cons in Hin as [Hin | Hin]; [try discriminate Hin |]).
      now apply elem_of_nil in Hin.
    + intros _. exists q. auto.
Qed.

(** X10. No error of the store leaves a mutation: the only thing one ever
    throws is the redirect of a form action to the list view of its entity;
    a delete always returns a state, with the "Deleted" message or with its
    "Database Error" message, and never an [error] field. *)
Theorem store_errors_never_escape (m : Mutation) (w : World) :
  (forall e, (perform m w).1 = Throw e ->
     exists a p f, m = Submit a p f /\ e = RedirectError (listView (entityOf a)))
  /\ (forall e id, m = Remove e id ->
      exists st, (perform m w).1 = Normal st
                 /\ error st = None
                 /\ (message st = Some ("Deleted " +:+ entityName e +:+ ".")
                     \/ message st = Some (databaseError m))).
Proof.
  destruct (perform_cases m w)
    as [(a & p & f & err & Hm & _ & Hrun)
       | [(q & e & Hs & Hrun)
         | [(a & p & f & data & Hm & _ & Hs & Hrun)
           | (e & id & Hm & Hs & Hrun)]]];
    rewrite Hrun; cbn [fst]; split.
  all: try (intros e' He'; discriminate He').
  all: try (intros e' id' Hm'; rewrite Hm in Hm'; try discriminate Hm').
  - intros e' id' Hm'. eexists. split; [reflexivity |]. cbn. auto.
  - intros e' [= <-]. now exists a, p, f.
  - injection Hm' as <- <-. eexists. split; [reflexivity |]. cbn. auto.
Qed.

(** X11. Deleting is idempotent: after an accepted delete no row of the
    table has the identifier, and a second accepted delete of the same
    identifier returns the same answer and leaves the tables as the first
    one left them. *)
Theorem delete_is_idempotent (e : Entity) (id : string) (w : World) :
  let w1 := (perform (Remove e id) w).2 in
  let w2 := (perform (Remove e id) w1).2 in
  sqlFault (deleteStatement e id) (database w) = None ->
  sqlFault (deleteStatement e id) (database w1) = None ->
  match e with
  | Invoice => Forall (fun r => inv_id r <> id) (invoices (database w1))
  | Customer => Forall (fun r => cus_id r <> id) (customers (database w1))
  end
  /\ database w2 = database w1
  /\ (perform (Remove e id) w1).1 = (perform (Remove e id) w).1.
Proof.
  cbv zeta. intros H1 H2.
  assert (Hrun : forall w0, sqlFault (deleteStatement e id) (database w0) = None ->
            (perform (Remove e id) w0).1
            = Normal {| message := Some ("Deleted " +:+ entityName e +:+ "."); error := None |}
            /\ database (perform (Remove e id) w0).2
               = execute (generatedId (database w0)) (deleteStatement e id) (database w0)).
  { intros w0 H0. rewrite remove_run, writeThenConfirm_run, H0. split; reflexivity. }
  destruct (Hrun w H1) as [Hr1 Hd1]. destruct (Hrun _ H2) as [Hr2 Hd2].
  assert (Hgone : match e with
                  | Invoice => Forall (fun r => inv_id r <> id)
                                 (invoices (database (perform (Remove e id) w).2))
                  | Customer => Forall (fun r => cus_id r <> id)
                                  (customers (database (perform (Remove e id) w).2))
                  end)
    by (rewrite Hd1; destruct e; cbn [deleteStatement execute invoices customers];
        apply filter_gone).
  split; [exact Hgone |]. split; [| now rewrite Hr1, Hr2].
  rewrite Hd2. destruct e; cbn [deleteStatement execute].
  all: rewrite filter_absent by exact Hgone; apply database_eta.
Qed.

(** X12. The last update wins: after two accepted updates of the same
    identifier with valid forms, the tables are what the second update alone
    would have made of the tables before the first. *)
Theorem last_update_wins
    (e : Entity) (id : string) (prevState1 prevState2 : State)
    (formData1 formData2 : FormData) (w : World) (data1 data2 : gmap string Value) :
  safeParse (schemaOf (Update e id)) (fieldsOf (Update e id) formData1)
  = Zod.SafeParseSuccess data1 ->
  safeParse (schemaOf (Update e id)) (fieldsOf (Update e id) formData2)
  = Zod.SafeParseSuccess data2 ->
  let w1 := (invoke (Update e id) prevState1 formData1 w).2 in
  sqlFault (statementOf (Update e id) data1) (database w) = None ->
  sqlFault (statementOf (Update e id) data2) (database w1) = None ->
  sqlFault (statementOf (Update e id) data2) (database w) = None ->
  database (invoke (Update e id) prevState2 formData2 w1).2
  = database (invoke (Update e id) prevState2 formData2 w).2.
Proof.
  intros Hok1 Hok2 w1 Ha1 Ha2 Ha3. subst w1.
  assert (Hrun : forall p f d w0,
            safeParse (schemaOf (Update e id)) (fieldsOf (Update e id) f)
            = Zod.SafeParseSuccess d ->
            sqlFault (statementOf (Update e id) d) (database w0) = None ->
            database (invoke (Update e id) p f w0).2
            = execute (generatedId (database w0)) (statementOf (Update e id) d) (database w0)).
  { intros p f d w0 Hok Hacc.
    now rewrite (invoke_valid _ p f w0 d Hok), writeThenList_run, Hacc. }
  rewrite (Hrun _ _ _ _ Hok2 Ha2), (Hrun _ _ _ _ Hok2 Ha3).
  rewrite (Hrun _ _ _ _ Hok1 Ha1).
  destruct e; cbn [statementOf]; unfold invoiceUpdate, customerUpdate;
    cbn [execute invoices customers]; f_equal.
  - rewrite <- list_fmap_compose. apply list_fmap_ext. intros i r _. apply setInvoice_again.
  - rewrite <- list_fmap_compose. apply list_fmap_ext. intros i r _. apply setCustomer_again.
Qed.

(** X13. An update whose identifier no row has is not told apart from one
    that changed a row: when the store accepts it, the tables are as they
    were, and the invocation still invalidates the list and redirects. *)
Theorem update_of_unknown_id
    (e : Entity) (id : string) (prevState : State) (formData : FormData) (w : World)
    (data : gmap string Value) :
  safeParse (schemaOf (Update e id)) (fieldsOf (Update e id) formData)
  = Zod.SafeParseSuccess data ->
  sqlFault (statementOf (Update e id) data) (database w) = None ->
  match e with
  | Invoice => Forall (fun r => inv_id r <> id) (invoices (database w))
  | Customer => Forall (fun r => cus_id r <> id) (customers (database w))
  end ->
  database (invoke (Update e id) prevState formData w).2 = database w
  /\ (invoke (Update e id) prevState formData w).1 = Throw (RedirectError (listView e))
  /\ eventsOf (invoke (Update e id) prevState formData) w
     = [Query (statementOf (Update e id) data); RevalidatePath (listView e);
        Redirect (listView e)].
Proof.
  intros Hok Hacc Hnone.
  pose proof (writeThenList_outcome (statementOf (Update e id) data)
                {| message := Some (databaseError (Submit (Update e id) prevState formData));
                   error := None |} (listView e) w) as Hout.
  cbv zeta in Hout. rewrite Hacc in Hout. destruct Hout as (Hr & Hev & Hdb).
  pose proof (invoke_valid _ prevState formData w data Hok) as Hrun.
  cbn [entityOf] in Hrun. rewrite (eventsOf_ext _ _ _ Hrun), Hrun.
  split; [| split; assumption]. rewrite Hdb.
  destruct e; cbn [statementOf]; unfold invoiceUpdate, customerUpdate; cbn [execute].
  - rewrite setInvoice_absent by exact Hnone. apply database_eta.
  - rewrite setCustomer_absent by exact Hnone. apply database_eta.
Qed.

(** X14. [authenticate] touches neither the tables nor the trace and does
    not read the previous state; it returns nothing when the provider
    accepts, one of its two messages when the provider fails with an
    [AuthError], and what it throws is never an [AuthError]. *)
Theorem authenticate_outcomes
    (prevState prevState' : option string) (formData : FormData) (w : World) :
  let r := authenticate prevState formData w in
  r.2 = w
  /\ authenticate prevState' formData w = r
  /\ (signInFault "credentials" formData = None <-> r.1 = Normal None)
  /\ (forall msg, r.1 = Normal (Some msg) ->
      msg = "Invalid credentials." \/ msg = "Something went wrong.")
  /\ (forall e, r.1 = Throw e ->
      signInFault "credentials" formData = Some e /\ forall type, e <> AuthError type).
Proof.
  cbv zeta.
  assert (Hrun : forall p, authenticate p formData w =
                 match signInFault "credentials" formData with
                 | None => (Normal None, w)
                 | Some (AuthError type) =>
                     if String.eqb type "CredentialsSignin"
                     then (Normal (Some "Invalid credentials."), w)
                     else (Normal (Some "Something went wrong."), w)
                 | Some e => (Throw e, w)
                 end).
  { intros p. unfold authenticate, try_catch, mbind, Action_bind, signIn.
    destruct (signInFault "credentials" formData) as [[type | url | msg] |]; try reflexivity.
    now destruct (String.eqb type "CredentialsSignin"). }
  rewrite !Hrun.
  destruct (signInFault "credentials" formData) as [[type | url | msg] |];
    [destruct (String.eqb type "CredentialsSignin") | | |]; cbn [fst snd].
  all: repeat split; try discriminate; try congruence.
  all: try (intros ? [= <-]; auto).
  all: try (intros ? [= <-]; split; [reflexivity | discriminate]).
Qed.

End Mutations.

Import ShapeFacts.

Section TableProperties.

Context `{C : Collaborators}.

(** X15. Deleting the row that a create has just added restores the tables:
    when the identifier the store generated is not that of an existing row
    and both statements are accepted, create followed by delete of that
    identifier leaves the tables as they were before the create. *)
Theorem delete_undoes_create
    (e : Entity) (prevState : State) (formData : FormData) (w : World)
    (data : gmap string Value) :
  safeParse (schemaOf (Create e)) (fieldsOf (Create e) formData)
  = Zod.SafeParseSuccess data ->
  sqlFault (statementOf (Create e) data) (database w) = None ->
  let id := generatedId (database w) in
  let w1 := (invoke (Create e) prevState formData w).2 in
  match e with
  | Invoice => Forall (fun r => inv_id r <> id) (invoices (database w))
  | Customer => Forall (fun r => cus_id r <> id) (customers (database w))
  end ->
  sqlFault (deleteStatement e id) (database w1) = None ->
  database (perform (Remove e id) w1).2 = database w.
Proof.
  intros Hok Hacc id w1 Hfresh Hdel. subst w1.
  rewrite remove_run, writeThenConfirm_run, Hdel. cbn [snd].
  rewrite database_emit, database_written.
  rewrite (invoke_valid _ prevState formData w data Hok), writeThenList_run, Hacc.
  cbn [snd]. rewrite !database_emit, database_written.
  destruct e; cbn [statementOf deleteStatement]; unfold invoiceInsert, customerInsert;
    cbn [execute invoices customers].
  all: rewrite filter_appended by (exact Hfresh || reflexivity); apply database_eta.
Qed.

(** X16. The mutations keep the tables well formed.  If every invoice row
    has a string as customer reference, a number as amount, "pending" or
    "paid" as status and a string as date, and every customer row a string
    as name and image reference and an email that matches the pattern, then
    the same holds after any mutation, whatever the form and whatever the
    store answers. *)
Theorem mutations_keep_tables_well_formed (m : Mutation) (w : World) :
  tablesOk (database w) -> tablesOk (database (perform m w).2).
Proof.
  intros [Hinv Hcus].
  destruct (perform_cases m w)
    as [(a & p & f & err & _ & _ & Hrun)
       | [(q & e & Hs & Hrun)
         | [(a & p & f & data & _ & Hok & Hs & Hrun)
           | (e & id & _ & Hs & Hrun)]]];
    rewrite Hrun; cbn [snd]; rewrite ?database_emit, ?database_written;
    try (now split).
  - destruct a as [[|] | [|] id].
    + pose proof (invoice_validated f data Hok)
        as (c & s & Hc & Hst & Hmem & _ & _ & _ & _ & _).
      rewrite (invoice_statement (Create Invoice) f data eq_refl Hok).
      split; [| exact Hcus]. cbn [execute invoices].
      apply Forall_app. split; [exact Hinv |]. constructor; [| constructor].
      unfold invoiceRowOk. cbn. rewrite Hc, Hst. repeat split; eauto.
      rewrite !elem_of_cons, elem_of_nil in Hmem. destruct Hmem as [-> | [-> | []]]; auto.
    + pose proof (customer_validated f data Hok)
        as (n & e & i & Hn & He & Hre & Hi & _).
      rewrite (customer_statement (Create Customer) f data eq_refl Hok).
      split; [exact Hinv |]. cbn [execute customers].
      apply Forall_app. split; [exact Hcus |]. constructor; [| constructor].
      unfold customerRowOk. cbn. rewrite Hn, He, Hi. repeat split; eauto.
    + pose proof (invoice_validated f data Hok)
        as (c & s & Hc & Hst & Hmem & _ & _ & _ & _ & _).
      rewrite (invoice_statement (Update Invoice id) f data eq_refl Hok).
      split; [| exact Hcus]. cbn [execute invoices].
      apply setInvoice_ok; try assumption.
      * now rewrite Hc.
      * eauto.
      * rewrite Hst. rewrite !elem_of_cons, elem_of_nil in Hmem.
        destruct Hmem as [-> | [-> | []]]; auto.
    + pose proof (customer_validated f data Hok)
        as (n & e & i & Hn & He & Hre & Hi & _).
      rewrite (customer_statement (Update Customer id) f data eq_refl Hok).
      split; [exact Hinv |]. cbn [execute customers].
      apply setCustomer_ok; try assumption.
      * now rewrite Hn.
      * rewrite He. eauto.
      * now rewrite Hi.
  - destruct e; cbn [deleteStatement execute invoices customers]; split;
      try assumption; now apply Forall_filter_keep.
Qed.

(** X17. The error state of a failed validation has a definite shape: its
    keys are among the three field names of the form, at least one is
    present, each carries exactly one message, and no message was filed
    outside the fields ([formErrors], which the actions do not return, is
    empty). *)
Theorem validation_errors_shape
    (a : FormAction) (prevState : State) (formData : FormData) (w : World) :
  validationFails (schemaOf a) (fieldsOf a formData) ->
  exists err errors,
    safeParse (schemaOf a) (fieldsOf a formData) = Zod.SafeParseError err
    /\ invoke a prevState formData w
       = (Normal {| message := Some (missingFields a); error := Some errors |}, w)
    /\ errors = Zod.fieldErrors (Zod.flatten err)
    /\ Zod.formErrors (Zod.flatten err) = []
    /\ (exists k, is_Some (errors !! k))
    /\ forall k msgs, errors !! k = Some msgs ->
         k ∈ fieldNames (entityOf a) /\ length msgs = 1%nat.
Proof.
  intros Hfails. pose proof Hfails as [k0 Hk0].
  apply ZodFacts.safeParse_fails_iff in Hfails as [err Herr].
  exists err, (Zod.fieldErrors (Zod.flatten err)).
  split; [exact Herr |]. split; [now apply invoke_invalid |]. split; [reflexivity |].
  split.
  { unfold Zod.flatten. now rewrite flatten_formErrors by exact (safeParse_error_paths _ _ _ Herr). }
  assert (Hlook : forall k, Zod.fieldErrors (Zod.flatten err) !! k
                            = nonempty (fieldMessages (schemaOf a) (fieldsOf a formData) k))
    by (intros k; now apply ZodFacts.safeParse_fieldErrors).
  split.
  - exists k0. rewrite Hlook.
    destruct (fieldMessages (schemaOf a) (fieldsOf a formData) k0); [contradiction | eauto].
  - intros k msgs Hk. rewrite Hlook in Hk.
    destruct (field_messages_short a formData k) as [Hlen Hin].
    destruct (fieldMessages (schemaOf a) (fieldsOf a formData) k) as [|m l] eqn:E;
      [discriminate Hk |].
    injection Hk as <-. split; [now apply Hin |]. cbn in *. lia.
Qed.

End TableProperties.

Section EditForm.

Context `{C : Collaborators}.

Import EditCustomerForm.

(** X18. Whatever is typed into the customer edit form, only the email can
    be refused.  The three inputs are sent as strings, so the name and the
    image reference always pass, even empty: nothing is ever shown under
    them, and "Please enter a name." cannot appear.  When the email does not
    match the pattern the form shows the one email message and nothing is
    written; before any submission it shows nothing. *)
Theorem edit_form_refuses_only_the_email
    (customer : Definitions.OneCustomerField) (n e i : string)
    (state : CustomerState) (w : World) :
  let formData := submission [("name", n); ("email", e); ("imageUrl", i)] in
  let r := updateInvoiceWithId customer state formData w in
  (forall st, r.1 = Normal st ->
     paragraphs "name" st = [] /\ paragraphs "imageUrl" st = [])
  /\ (emailRegex e = false ->
      exists st, r = (Normal st, w)
                 /\ paragraphs "email" st = ["Please enter a valid email address."])
  /\ (emailRegex e = true -> forall st, r.1 = Normal st -> paragraphs "email" st = [])
  /\ (forall k, paragraphs k initialState = []).
Proof.
  cbv zeta. set (formData := submission [("name", n); ("email", e); ("imageUrl", i)]).
  change (updateInvoiceWithId customer state)
    with (invoke (Update Customer (Definitions.id customer)) state).
  assert (Hn : fieldMessages CreateCustomer (customerFields formData) "name" = [])
    by now rewrite name_messages.
  assert (Hi : fieldMessages CreateCustomer (customerFields formData) "imageUrl" = [])
    by now rewrite imageUrl_messages.
  assert (He : fieldMessages CreateCustomer (customerFields formData) "email"
               = if emailRegex e then [] else ["Please enter a valid email address."])
    by now rewrite email_messages.
  assert (Hshown : forall st, (invoke (Update Customer (Definitions.id customer)) state
                                 formData w).1 = Normal st ->
             forall k, paragraphs k st
                       = fieldMessages CreateCustomer (customerFields formData) k
                         \/ paragraphs k st = []).
  { intros st Hst k.
    destruct (perform_cases (Submit (Update Customer (Definitions.id customer)) state formData) w)
      as [(a & p & f & err & [= <- <- <-] & Hp & Hrun)
         | [(q & e0 & Hs & Hrun)
           | [(a & p & f & data & [= <- <- <-] & Hp & Hs & Hrun)
             | (e0 & id & Hm & _)]]];
      [| | | discriminate Hm]; cbn [perform] in Hrun; rewrite Hrun in Hst;
      cbn [fst] in Hst.
    - injection Hst as <-. left. unfold paragraphs. cbn [error].
      rewrite (ZodFacts.safeParse_fieldErrors _ _ _ _ Hp).
      cbn [schemaOf fieldsOf entityOf].
      change UpdateCustomer with CreateCustomer.
      now destruct (fieldMessages CreateCustomer (customerFields formData) k).
    - injection Hst as <-. now right.
    - discriminate Hst. }
  split; [| split; [| split]].
  - intros st Hst. destruct (Hshown st Hst "name") as [-> | ->];
      destruct (Hshown st Hst "imageUrl") as [-> | ->]; auto.
  - intros Hbad. rewrite Hbad in He.
    destruct (invoke_rejected (Update Customer (Definitions.id customer)) state formData w)
      as (errors & Hrun & Herr).
    + exists "email". cbn [schemaOf fieldsOf entityOf].
      change UpdateCustomer with CreateCustomer. now rewrite He.
    + eexists. split; [exact Hrun |]. unfold paragraphs. cbn [error].
      rewrite Herr. cbn [schemaOf fieldsOf entityOf].
      change UpdateCustomer with CreateCustomer. now rewrite He.
  - intros Hgood st Hst. rewrite Hgood in He.
    destruct (Hshown st Hst "email") as [-> | ->]; auto.
  - intros k. unfold paragraphs, initialState. cbn. now rewrite lookup_empty.
Qed.

(** X19. When the email typed into the customer edit form matches the
    pattern, the form's action issues the update of the customer's row with
    the three texts as typed.  If the store rejects it, the state that comes
    back carries "Database Error: Failed to Update Customer." in [message]
    and no [error]: the form, which renders only the field errors, shows no
    paragraph at all. *)
Theorem edit_form_is_silent_when_the_store_fails
    (customer : Definitions.OneCustomerField) (n e i : string)
    (state : CustomerState) (w : World) :
  let formData := submission [("name", n); ("email", e); ("imageUrl", i)] in
  let q := UPDATE_customers (Str n) (Str e) (Str i) (Definitions.id customer) in
  emailRegex e = true ->
  eventsOf (updateInvoiceWithId customer state formData) w !! 0%nat = Some (Query q)
  /\ (forall err, sqlFault q (database w) = Some err ->
      exists st,
        (updateInvoiceWithId customer state formData w).1 = Normal st
        /\ message st = Some "Database Error: Failed to Update Customer."
        /\ forall k, paragraphs k st = [])
  /\ (sqlFault q (database w) = None ->
      (updateInvoiceWithId customer state formData w).1
      = Throw (RedirectError "/dashboard/customers")).
Proof.
  cbv zeta. intros Hgood. unfold CustomerState in *.
  set (formData := submission [("name", n); ("email", e); ("imageUrl", i)]).
  change (updateInvoiceWithId customer state)
    with (invoke (Update Customer (Definitions.id customer)) state).
  assert (Hex : exists data, safeParse CreateCustomer (customerFields formData)
                             = Zod.SafeParseSuccess data)
    by (apply customer_accepted_iff; repeat split; eauto).
  destruct Hex as [data Hok].
  pose proof (invoke_valid (Update Customer (Definitions.id customer)) state formData w
                data Hok) as Hrun.
  pose proof (customer_statement (Update Customer (Definitions.id customer)) formData data
                eq_refl Hok) as Hq.
  change (get formData "name") with (Str n) in Hq.
  change (get formData "email") with (Str e) in Hq.
  change (get formData "imageUrl") with (Str i) in Hq.
  rewrite (eventsOf_ext _ _ _ Hrun), Hrun, Hq.
  match goal with
  | |- context [writeThenList ?q ?f ?v] =>
      pose proof (writeThenList_outcome q f v w) as Hout
  end.
  cbv zeta in Hout.
  destruct (sqlFault _ _) as [err |]; destruct Hout as (Hr & Hev & _).
  - split; [now rewrite Hev |]. split; [| discriminate].
    intros _ _. eexists. split; [exact Hr |]. split; [reflexivity |]. reflexivity.
  - split; [now rewrite Hev |]. split; [discriminate |]. intros _. exact Hr.
Qed.

(** X20. Submitting the customer edit form as it was rendered changes
    nothing: the inputs start from the customer's values, so when the
    customer's email matches the pattern, the rows with the customer's
    identifier hold these values and the store accepts the update, the
    tables after the submission are the tables before it, and the form
    redirects to the customer list. *)
Theorem edit_form_untouched_changes_nothing
    (customer : Definitions.OneCustomerField) (state : CustomerState) (w : World) :
  let formData := submission (inputs customer) in
  let q := UPDATE_customers (Str (Definitions.name customer))
             (Str (Definitions.email customer)) (Str (Definitions.image_url customer))
             (Definitions.id customer) in
  emailRegex (Definitions.email customer) = true ->
  Forall (fun r => cus_id r = Definitions.id customer ->
                   name r = Str (Definitions.name customer)
                   /\ email r = Str (Definitions.email customer)
                   /\ image_url r = Str (Definitions.image_url customer))
         (customers (database w)) ->
  sqlFault q (database w) = None ->
  database (updateInvoiceWithId customer state formData w).2 = database w
  /\ (updateInvoiceWithId customer state formData w).1
     = Throw (RedirectError "/dashboard/customers").
Proof.
  cbv zeta. intros Hgood Hrows Hacc.
  set (formData := submission (inputs customer)).
  change (updateInvoiceWithId customer state)
    with (invoke (Update Customer (Definitions.id customer)) state).
  assert (Hex : exists data, safeParse CreateCustomer (customerFields formData)
                             = Zod.SafeParseSuccess data)
    by (apply customer_accepted_iff; repeat split; eauto).
  destruct Hex as [data Hok].
  pose proof (invoke_valid (Update Customer (Definitions.id customer)) state formData w
                data Hok) as Hrun.
  pose proof (customer_statement (Update Customer (Definitions.id customer)) formData data
                eq_refl Hok) as Hq.
  change (get formData "name") with (Str (Definitions.name customer)) in Hq.
  change (get formData "email") with (Str (Definitions.email customer)) in Hq.
  change (get formData "imageUrl") with (Str (Definitions.image_url customer)) in Hq.
  rewrite Hrun, Hq, writeThenList_run, Hacc. cbn [fst snd].
  split; [| reflexivity].
  rewrite !database_emit, database_written. cbn [execute].
  rewrite setCustomer_same by exact Hrows. apply database_eta.
Qed.

End EditForm.

(* ===================================================================== *)
(** ** The further properties on sample runs *)
(* ===================================================================== *)

Module MoreRuns.

Import Sample MoreSample.

Lemma amount_rule_witness :
  entityOf (Create Invoice) = Invoice
  /\ fieldMessages (C := accepting) (schemaOf (Create Invoice))
       (fieldsOf (Create Invoice) withoutAmount) "amount"
     = ["Please enter an amount greater than $0."].
Proof.
  split; [reflexivity |].
  exact (proj1 (proj2 (amount_rule (C := accepting) (Create Invoice) initialState
                         withoutAmount world eq_refl)) (or_introl eq_refl)).
Defined.

Lemma status_rule_witness :
  entityOf (Update Invoice "inv-1") = Invoice
  /\ fieldMessages (C := accepting) (schemaOf (Update Invoice "inv-1"))
       (fieldsOf (Update Invoice "inv-1") (invoiceForm "c1" "45.00" "Paid")) "status"
     = ["Invalid input"].
Proof.
  split; [reflexivity |].
  refine (proj1 (proj2 (proj2 (status_rule (C := accepting) (Update Invoice "inv-1")
                                 initialState (invoiceForm "c1" "45.00" "Paid") world
                                 eq_refl))) "Paid" eq_refl _ _);
    intros E; discriminate E.
Defined.

Lemma customer_field_rules_witness :
  entityOf (Create Customer) = Customer
  /\ exists errors,
       createCustomer (C := accepting) initialState
         (customerForm "" "ada@example" "") world
       = (Normal {| message := Some "Missing Fields. Failed to Create Customer.";
                    error := Some errors |}, world)
       /\ errors !! "email" = Some ["Please enter a valid email address."].
Proof.
  split; [reflexivity |].
  exact (proj2 (proj2 (proj2 (customer_field_rules (C := accepting) (Create Customer)
                                initialState (customerForm "" "ada@example" "") world
                                eq_refl))) "ada@example" eq_refl eq_refl).
Defined.

Lemma invoice_form_accepted_witness :
  entityOf (Create Invoice) = Invoice
  /\ exists data,
       safeParse (C := accepting) CreateInvoice
         (invoiceFields (invoiceForm "c1" "45.00" "paid"))
       = Zod.SafeParseSuccess data.
Proof.
  split; [reflexivity |].
  apply (proj1 (invoice_form_accepted_iff (C := accepting) (Create Invoice)
                  (invoiceForm "c1" "45.00" "paid") eq_refl)).
  vm_compute. auto.
Defined.

Lemma customer_form_accepted_witness :
  entityOf (Update Customer "c1") = Customer
  /\ exists data,
       safeParse (C := accepting) UpdateCustomer
         (customerFields (customerForm "" "ada@example.com" "/img/ada.png"))
       = Zod.SafeParseSuccess data.
Proof.
  split; [reflexivity |].
  apply (proj1 (customer_form_accepted_iff (C := accepting) (Update Customer "c1")
                  (customerForm "" "ada@example.com" "/img/ada.png") eq_refl)).
  split; [reflexivity |]. split; [| reflexivity].
  exists "ada@example.com". split; reflexivity.
Defined.

Lemma read_fields_only_witness :
  (forall k, k ∈ fieldNames (entityOf (Create Invoice)) ->
             get (invoiceForm "c1" "45.00" "paid") k = get padded k)
  /\ createInvoice (C := accepting) initialState (invoiceForm "c1" "45.00" "paid") world
     = createInvoice (C := accepting) {| message := Some "before"; error := None |}
         padded world.
Proof.
  assert (Hget : forall k, k ∈ fieldNames (entityOf (Create Invoice)) ->
                           get (invoiceForm "c1" "45.00" "paid") k = get padded k)
    by (intros k Hk; cbn in Hk;
        repeat (apply elem_of_cons in Hk as [-> | Hk]; [reflexivity |]);
        now apply elem_of_nil in Hk).
  split; [exact Hget |].
  exact (form_actions_read_their_fields_only (C := accepting) (Create Invoice)
           initialState {| message := Some "before"; error := None |}
           (invoiceForm "c1" "45.00" "paid") padded world Hget).
Defined.

Lemma create_appends_witness :
  safeParse (C := accepting) (schemaOf (Create Customer))
    (fieldsOf (Create Customer) (customerForm "Grace" "grace@example.com" "/img/g.png"))
  = Zod.SafeParseSuccess
      (validCustomer (Str "Grace") (Str "grace@example.com") (Str "/img/g.png"))
  /\ customers (database (createCustomer (C := accepting) initialState
                            (customerForm "Grace" "grace@example.com" "/img/g.png")
                            world).2)
     = (customers tables ++
        [{| cus_id := "inv-0004"; name := Str "Grace"; email := Str "grace@example.com";
            image_url := Str "/img/g.png" |}])%list.
Proof.
  assert (Hok : safeParse (C := accepting) (schemaOf (Create Customer))
                  (fieldsOf (Create Customer)
                     (customerForm "Grace" "grace@example.com" "/img/g.png"))
                = Zod.SafeParseSuccess
                    (validCustomer (Str "Grace") (Str "grace@example.com") (Str "/img/g.png")))
    by (vm_compute; reflexivity).
  split; [exact Hok |].
  exact (proj1 (create_appends_one_row (C := accepting) Customer initialState
                  (customerForm "Grace" "grace@example.com" "/img/g.png") world _
                  Hok eq_refl)).
Defined.

Lemma delete_idempotent_witness :
  sqlFault (Collaborators := accepting) (deleteStatement Invoice "inv-1") (database world)
  = None
  /\ database (deleteInvoice (C := accepting) "inv-1"
                 (deleteInvoice (C := accepting) "inv-1" world).2).2
     = database (deleteInvoice (C := accepting) "inv-1" world).2.
Proof.
  split; [reflexivity |].
  exact (proj1 (proj2 (delete_is_idempotent (C := accepting) Invoice "inv-1" world
                         eq_refl eq_refl))).
Defined.

Lemma last_update_wins_witness :
  safeParse (C := accepting) (schemaOf (Update Invoice "inv-1"))
    (fieldsOf (Update Invoice "inv-1") (invoiceForm "c9" "10.50" "paid"))
  = Zod.SafeParseSuccess (validInvoice (Str "c9") (Num (ToNumber (Str "10.50"))) (Str "paid"))
  /\ safeParse (C := accepting) (schemaOf (Update Invoice "inv-1"))
       (fieldsOf (Update Invoice "inv-1") (invoiceForm "c1" "45.00" "pending"))
     = Zod.SafeParseSuccess (validInvoice (Str "c1") (Num (of_Z 45)) (Str "pending"))
  /\ database (updateInvoice (C := accepting) "inv-1" initialState
                 (invoiceForm "c1" "45.00" "pending")
                 (updateInvoice (C := accepting) "inv-1" initialState
                    (invoiceForm "c9" "10.50" "paid") world).2).2
     = database (updateInvoice (C := accepting) "inv-1" initialState
                   (invoiceForm "c1" "45.00" "pending") world).2.
Proof.
  assert (Hok1 : safeParse (C := accepting) (schemaOf (Update Invoice "inv-1"))
                   (fieldsOf (Update Invoice "inv-1") (invoiceForm "c9" "10.50" "paid"))
                 = Zod.SafeParseSuccess
                     (validInvoice (Str "c9") (Num (ToNumber (Str "10.50"))) (Str "paid")))
    by (vm_compute; reflexivity).
  assert (Hok2 : safeParse (C := accepting) (schemaOf (Update Invoice "inv-1"))
                   (fieldsOf (Update Invoice "inv-1") (invoiceForm "c1" "45.00" "pending"))
                 = Zod.SafeParseSuccess
                     (validInvoice (Str "c1") (Num (of_Z 45)) (Str "pending")))
    by (vm_compute; reflexivity).
  split; [exact Hok1 |]. split; [exact Hok2 |].
  exact (last_update_wins (C := accepting) Invoice "inv-1" initialState initialState
           _ _ world _ _ Hok1 Hok2 eq_refl eq_refl eq_refl).
Defined.

Lemma update_unknown_witness :
  safeParse (C := accepting) (schemaOf (Update Invoice "inv-404"))
    (fieldsOf (Update Invoice "inv-404") (invoiceForm "c9" "10.50" "paid"))
  = Zod.SafeParseSuccess (validInvoice (Str "c9") (Num (ToNumber (Str "10.50"))) (Str "paid"))
  /\ Forall (fun r => inv_id r <> "inv-404") (invoices (database world))
  /\ database (updateInvoice (C := accepting) "inv-404" initialState
                 (invoiceForm "c9" "10.50" "paid") world).2 = database world
  /\ (updateInvoice (C := accepting) "inv-404" initialState
        (invoiceForm "c9" "10.50" "paid") world).1
     = Throw (RedirectError "/dashboard/invoices").
Proof.
  assert (Hok : safeParse (C := accepting) (schemaOf (Update Invoice "inv-404"))
                  (fieldsOf (Update Invoice "inv-404") (invoiceForm "c9" "10.50" "paid"))
                = Zod.SafeParseSuccess
                    (validInvoice (Str "c9") (Num (ToNumber (Str "10.50"))) (Str "paid")))
    by (vm_compute; reflexivity).
  assert (Hnone : Forall (fun r => inv_id r <> "inv-404") (invoices (database world)))
    by (repeat (constructor; [cbn; intros E; discriminate E |]); constructor).
  destruct (update_of_unknown_id (C := accepting) Invoice "inv-404" initialState
              (invoiceForm "c9" "10.50" "paid") world _ Hok eq_refl Hnone)
    as (Hdb & Hr & _).
  repeat (split; [assumption |]). exact Hr.
Defined.

Lemma delete_undoes_create_witness :
  safeParse (C := accepting) (schemaOf (Create Invoice))
    (fieldsOf (Create Invoice) (invoiceForm "c1" "45.00" "paid"))
  = Zod.SafeParseSuccess (validInvoice (Str "c1") (Num (of_Z 45)) (Str "paid"))
  /\ Forall (fun r => inv_id r <> "inv-0004") (invoices (database world))
  /\ database (deleteInvoice (C := accepting) "inv-0004"
                 (createInvoice (C := accepting) initialState
                    (invoiceForm "c1" "45.00" "paid") world).2).2
     = database world.
Proof.
  assert (Hok : safeParse (C := accepting) (schemaOf (Create Invoice))
                  (fieldsOf (Create Invoice) (invoiceForm "c1" "45.00" "paid"))
                = Zod.SafeParseSuccess (validInvoice (Str "c1") (Num (of_Z 45)) (Str "paid")))
    by (vm_compute; reflexivity).
  assert (Hfresh : Forall (fun r => inv_id r <> "inv-0004") (invoices (database world)))
    by (repeat (constructor; [cbn; intros E; discriminate E |]); constructor).
  split; [exact Hok |]. split; [exact Hfresh |].
  exact (delete_undoes_create (C := accepting) Invoice initialState
           (invoiceForm "c1" "45.00" "paid") world _ Hok eq_refl Hfresh eq_refl).
Defined.

Lemma tables_well_formed_witness :
  tablesOk (C := accepting) (database world)
  /\ tablesOk (C := accepting)
       (database (perform (C := accepting)
                    (Submit (Update Customer "c2") initialState
                       (customerForm "" "alan@example.org" "")) world).2).
Proof.
  assert (Hok : tablesOk (C := accepting) (database world)).
  { split; repeat (constructor; [repeat split; cbn; eauto |]); constructor. }
  split; [exact Hok |].
  exact (mutations_keep_tables_well_formed (C := accepting) _ world Hok).
Defined.

Lemma validation_errors_shape_witness :
  validationFails (C := accepting) (schemaOf (Create Invoice))
    (fieldsOf (Create Invoice) incomplete)
  /\ exists err errors,
       safeParse (C := accepting) CreateInvoice (invoiceFields incomplete)
       = Zod.SafeParseError err
       /\ createInvoice (C := accepting) initialState incomplete world
          = (Normal {| message := Some "Missing Fields. Failed to Create Invoice.";
                       error := Some errors |}, world)
       /\ Zod.formErrors (Zod.flatten err) = [].
Proof.
  assert (Hfails : validationFails (C := accepting) (schemaOf (Create Invoice))
                     (fieldsOf (Create Invoice) incomplete))
    by (exists "amount"; vm_compute; intros E; discriminate E).
  split; [exact Hfails |].
  destruct (validation_errors_shape (C := accepting) (Create Invoice) initialState
              incomplete world Hfails) as (err & errors & Herr & Hrun & _ & Hform & _).
  exists err, errors. auto.
Defined.

Lemma edit_form_silent_witness :
  emailRegex (Collaborators := rejecting) "ada@example.com" = true
  /\ exists st,
       (EditCustomerForm.updateInvoiceWithId (C := rejecting) ada
          EditCustomerForm.initialState
          (EditCustomerForm.submission
             [("name", ""); ("email", "ada@example.com"); ("imageUrl", "/img/ada.png")])
          world).1 = Normal st
       /\ message st = Some "Database Error: Failed to Update Customer."
       /\ forall k, EditCustomerForm.paragraphs k st = [].
Proof.
  assert (Hgood : emailRegex (Collaborators := rejecting) "ada@example.com" = true)
    by reflexivity.
  split; [exact Hgood |].
  exact (proj1 (proj2 (edit_form_is_silent_when_the_store_fails (C := rejecting) ada
                         "" "ada@example.com" "/img/ada.png"
                         EditCustomerForm.initialState world Hgood))
           (OtherError "connection refused") eq_refl).
Defined.

Lemma edit_form_untouched_witness :
  emailRegex (Collaborators := accepting) (Definitions.email ada) = true
  /\ Forall (fun r => cus_id r = Definitions.id ada ->
                      name r = Str (Definitions.name ada)
                      /\ email r = Str (Definitions.email ada)
                      /\ image_url r = Str (Definitions.image_url ada))
       (customers (database world))
  /\ database (EditCustomerForm.updateInvoiceWithId (C := accepting) ada
                 EditCustomerForm.initialState
                 (EditCustomerForm.submission (EditCustomerForm.inputs ada)) world).2
     = database world.
Proof.
  assert (Hgood : emailRegex (Collaborators := accepting) (Definitions.email ada) = true)
    by reflexivity.
  assert (Hrows : Forall (fun r => cus_id r = Definitions.id ada ->
                                   name r = Str (Definitions.name ada)
                                   /\ email r = Str (Definitions.email ada)
                                   /\ image_url r = Str (Definitions.image_url ada))
                    (customers (database world))).
  { constructor; [cbn; auto |]. constructor; [cbn; intros E; discriminate E |]. constructor. }
  split; [exact Hgood |]. split; [exact Hrows |].
  exact (proj1 (edit_form_untouched_changes_nothing (C := accepting) ada
                  EditCustomerForm.initialState world Hgood Hrows eq_refl)).
Defined.

Lemma three_ways_witness :
  exists q,
    sqlFault (Collaborators := rejecting) q (database world)
    = Some (OtherError "connection refused")
    /\ (createCustomer (C := rejecting) initialState
          (customerForm "Grace" "grace@example.com" "/img/g.png") world).1
       = Normal {| message := Some "Database Error : Failed To Create Customer.";
                   error := None |}
    /\ eventsOf (createCustomer (C := rejecting) initialState
                   (customerForm "Grace" "grace@example.com" "/img/g.png")) world
       = [Query q].
Proof.
  destruct (form_action_ends_in_one_of_three_ways (C := rejecting) (Create Customer)
              initialState (customerForm "Grace" "grace@example.com" "/img/g.png") world)
    as [[_ [errors Hinvalid]] | [(q & e & Hq & Hr & Hevs & _) | (q & Hq & _)]].
  - apply (f_equal fst) in Hinvalid. vm_compute in Hinvalid. discriminate Hinvalid.
  - exists q. split; [reflexivity |]. split; [exact Hr | exact Hevs].
  - discriminate Hq.
Defined.

Lemma mutation_events_witness :
  trace (createInvoice (C := accepting) initialState (invoiceForm "c1" "45.00" "paid")
           world).2
  = (trace world ++
     eventsOf (createInvoice (C := accepting) initialState
                 (invoiceForm "c1" "45.00" "paid")) world)%list
  /\ (length (queriesOf (eventsOf (createInvoice (C := accepting) initialState
                                     (invoiceForm "c1" "45.00" "paid")) world)) <= 1)%nat.
Proof.
  destruct (mutation_events (C := accepting)
              (Submit (Create Invoice) initialState (invoiceForm "c1" "45.00" "paid"))
              world) as (Htrace & Hone & _).
  split; [exact Htrace | exact Hone].
Defined.

Lemma store_errors_witness :
  exists st,
    (deleteCustomer (C := rejecting) "c1" world).1 = Normal st
    /\ error st = None
    /\ (message st = Some "Deleted Customer."
        \/ message st = Some "Database Error: Failed to Delete Customer.").
Proof.
  exact (proj2 (store_errors_never_escape (C := rejecting) (Remove Customer "c1") world)
           Customer "c1" eq_refl).
Defined.

Lemma authenticate_outcomes_witness :
  (authenticate (C := accepting) None [] world).1 = Throw (OtherError "fetch failed")
  /\ signInFault (Collaborators := accepting) "credentials" [] = Some (OtherError "fetch failed")
  /\ (authenticate (C := accepting) (Some "Invalid credentials.") [] world).2 = world.
Proof.
  assert (Hthrow : (authenticate (C := accepting) None [] world).1
                   = Throw (OtherError "fetch failed")) by reflexivity.
  destruct (authenticate_outcomes (C := accepting) (Some "Invalid credentials.") None []
              world) as (Hw & Hprev & _ & _ & Hthrown).
  split; [exact Hthrow |]. split; [| exact Hw].
  rewrite <- Hprev in Hthrown. exact (proj1 (Hthrown _ Hthrow)).
Defined.

Lemma edit_form_email_witness :
  emailRegex (Collaborators := accepting) "ada@example" = false
  /\ exists st,
       EditCustomerForm.updateInvoiceWithId (C := accepting) ada
         EditCustomerForm.initialState
         (EditCustomerForm.submission
            [("name", ""); ("email", "ada@example"); ("imageUrl", "")]) world
       = (Normal st, world)
       /\ EditCustomerForm.paragraphs "email" st = ["Please enter a valid email address."].
Proof.
  assert (Hbad : emailRegex (Collaborators := accepting) "ada@example" = false)
    by reflexivity.
  split; [exact Hbad |].
  exact (proj1 (proj2 (edit_form_refuses_only_the_email (C := accepting) ada
                         "" "ada@example" "" EditCustomerForm.initialState world)) Hbad).
Defined.

(** What the edit form shows for an address without a top-level name. *)
Example edit_form_bad_email :
  exists st,
    EditCustomerForm.updateInvoiceWithId (C := accepting) ada EditCustomerForm.initialState
      (EditCustomerForm.submission
         [("name", ""); ("email", "ada@example"); ("imageUrl", "")]) world
    = (Normal st, world)
    /\ EditCustomerForm.paragraphs "name" st = []
    /\ EditCustomerForm.paragraphs "email" st = ["Please enter a valid email address."]
    /\ EditCustomerForm.paragraphs "imageUrl" st = [].
Proof. eexists. split; [vm_compute; reflexivity |]. vm_compute. auto. Qed.

End MoreRuns.
